(** * EvoAI agentic commerce workflow: tools, router, policy guard, graph

    A shallow embedding of the Python sources

      - [src/agent/tools/tools.py]      validation, product_search,
                                        order_lookup, order_cancel
      - [src/agent/nodes/router.py]     keyword routing, chat-model fallback
      - [src/agent/state.py], [src/agent/graph.py]
      - [agentic-commerce-system/src/agent/nodes/policy_guard.py] and
        [.../nodes/responder.py], the two nodes both graphs import and that
        are kept in the older copy's directory only
      - [tests/eval_framework.py]       the schema check and the evaluation
                                        of an order_help run

    together with the facts proved about them.  Where the older copy of the
    system under [agentic-commerce-system/] differs from its successor, it
    is embedded in [Module Legacy].

    Conventions.
      - A Python [str] is the Rocq [string] of its UTF-8 bytes (a [str]
        with a lone surrogate has none and is not covered).  Equality,
        concatenation, the substring test, [split] and [replace] on an
        ASCII separator, and regular-expression classes written as ASCII
        ranges act on the bytes as they act on the code points.  What
        Python takes from the Unicode database ([str.lower], [str.strip]
        and the class [\d]) is held in the class [PyStr.Unicode].
      - A finite Python [float] is the exact rational it denotes; every
        float operation is the exact operation followed by [Float64.RN],
        rounding to nearest-even on 53 bits.
      - A [dict] built by the code or read from JSON is an association list
        in insertion order, looked up by first match.
      - The order file is whatever JSON value [json.load] returns; an
        iteration or a subscript the value does not support raises as in
        Python.  The product file is taken as read into records of the
        three fields [product_search] uses, a title, an integer price and
        a list of tags; a catalog of another shape is not covered.
      - Library calls the sources make ([datetime.fromisoformat],
        [datetime.isoformat], [json.loads], the chat model, the tools run by
        LangGraph's [ToolNode]) are parameters of what uses them.
      - A Python exception that leaves a function is the [Raise] result. *)

From Stdlib Require Import ZArith QArith Qround Qpower Qabs Lia Lqa.
From Stdlib Require Import List String Ascii Bool Sorted.
Import ListNotations.

Set Warnings "-register-all".

(** ** Exceptions and results *)

Inductive exn : Type :=
| ValueError
| KeyError
| TypeError
| AttributeError
| IndexError
| FileNotFoundError
| JSONDecodeError
| PermissionError
| RecursionError.

Inductive result (A : Type) : Type :=
| Ok (a : A)
| Raise (e : exn).

Arguments Ok {A} a.
Arguments Raise {A} e.

(** ** Python strings *)

Module PyStr.
Local Open Scope string_scope.

Definition newline : string := String (ascii_of_nat 10) EmptyString.

Definition is_upper (c : ascii) : bool :=
  let n := nat_of_ascii c in (65 <=? n)%nat && (n <=? 90)%nat.

Definition is_lower (c : ascii) : bool :=
  let n := nat_of_ascii c in (97 <=? n)%nat && (n <=? 122)%nat.

Definition is_digit (c : ascii) : bool :=
  let n := nat_of_ascii c in (48 <=? n)%nat && (n <=? 57)%nat.

Definition is_alpha (c : ascii) : bool := is_upper c || is_lower c.

(** A byte that is an ASCII character, a code point of its own. *)
Definition is_ascii (c : ascii) : bool := (nat_of_ascii c <? 128)%nat.

(** [str.isspace] on ASCII. *)
Definition is_space (c : ascii) : bool :=
  let n := nat_of_ascii c in
  ((9 <=? n)%nat && (n <=? 13)%nat) || ((28 <=? n)%nat && (n <=? 32)%nat).

Definition lower_char (c : ascii) : ascii :=
  if is_upper c then ascii_of_nat (nat_of_ascii c + 32) else c.

(** [s.lower()] on a text of ASCII characters *)
Fixpoint ascii_lower (s : string) : string :=
  match s with
  | EmptyString => EmptyString
  | String c r => String (lower_char c) (ascii_lower r)
  end.

(** [needle in hay] for two strings *)
Fixpoint contains (needle hay : string) : bool :=
  prefix needle hay ||
  match hay with
  | EmptyString => false
  | String _ r => contains needle r
  end.

(** [s.replace(old, new)] for a pattern [old] of one character *)
Fixpoint replace (old : ascii) (new : string) (s : string) : string :=
  match s with
  | EmptyString => EmptyString
  | String c r =>
      if Ascii.eqb c old then new ++ replace old new r
      else String c (replace old new r)
  end.

(** [s.split(sep)] for a separator of one character *)
Fixpoint split (sep : ascii) (s : string) : list string :=
  match s with
  | EmptyString => [EmptyString]
  | String c r =>
      if Ascii.eqb c sep then EmptyString :: split sep r
      else match split sep r with
           | [] => [String c EmptyString]
           | w :: ws => String c w :: ws
           end
  end.

Fixpoint lstrip (s : string) : string :=
  match s with
  | EmptyString => EmptyString
  | String c r => if is_space c then lstrip r else s
  end.

Fixpoint rstrip (s : string) : string :=
  match s with
  | EmptyString => EmptyString
  | String c r =>
      match rstrip r with
      | EmptyString => if is_space c then EmptyString else String c EmptyString
      | r' => String c r'
      end
  end.

(** [s.strip()] on a text of ASCII characters *)
Definition ascii_strip (s : string) : string := rstrip (lstrip s).

Fixpoint all_chars (p : ascii -> bool) (s : string) : bool :=
  match s with
  | EmptyString => true
  | String c r => p c && all_chars p r
  end.

(** The regular-expression assertion [$] at a position whose remaining
    text is [rest]: it holds at the end of the string and also just before
    a final newline. *)
Definition at_dollar (rest : string) : bool :=
  String.eqb rest EmptyString || String.eqb rest newline.

(** The longest prefix of characters satisfying [p], and what follows. *)
Fixpoint span (p : ascii -> bool) (s : string) : string * string :=
  match s with
  | EmptyString => (EmptyString, EmptyString)
  | String c r =>
      if p c then let (a, b) := span p r in (String c a, b)
      else (EmptyString, s)
  end.

(** Split at the last occurrence of the character [c]. *)
Fixpoint rsplit (c : ascii) (s : string) : option (string * string) :=
  match s with
  | EmptyString => None
  | String a r =>
      match rsplit c r with
      | Some (p, q) => Some (String a p, q)
      | None => if Ascii.eqb a c then Some (EmptyString, r) else None
      end
  end.

(** *** Code points *)

(** A continuation byte of UTF-8, [10xxxxxx]. *)
Definition is_cont (c : ascii) : bool :=
  let n := nat_of_ascii c in (128 <=? n)%nat && (n <? 192)%nat.

(** The continuation bytes a text starts with, and what follows. *)
Definition take_conts (s : string) : string * string := span is_cont s.

(** The first code point of a text, as its bytes (a byte and the
    continuation bytes after it), and the rest of the text. *)
Definition split_cp (s : string) : option (string * string) :=
  match s with
  | EmptyString => None
  | String c r => let (k, rest) := take_conts r in Some (String c k, rest)
  end.

(** The code points of a text, each as its bytes: what iterating over a
    [str] yields. *)
Definition starts_cont (s : string) : bool :=
  match s with
  | String c _ => is_cont c
  | EmptyString => false
  end.

Fixpoint codepoints (s : string) : list string :=
  match s with
  | EmptyString => []
  | String c r =>
      match codepoints r with
      | cp :: cps =>
          if starts_cont r then String c cp :: cps
          else String c EmptyString :: cp :: cps
      | [] => [String c EmptyString]
      end
  end.

(** [len(s)] *)
Definition len (s : string) : nat := List.length (codepoints s).

(** What Python reads from the Unicode database of the interpreter.
    [lower] is [str.lower], [strip] is [str.strip] without argument, and
    [is_decimal] tells whether the code point with the given bytes is a
    decimal digit, the class [\d] of [re] on a [str] pattern.  On ASCII
    the three are the same in every version. *)
Class Unicode : Type := {
  lower : string -> string;
  strip : string -> string;
  is_decimal : string -> bool;
  lower_ascii :
    forall s, all_chars is_ascii s = true -> lower s = ascii_lower s;
  strip_ascii :
    forall s, all_chars is_ascii s = true -> strip s = ascii_strip s;
  is_decimal_ascii :
    forall c, is_ascii c = true ->
              is_decimal (String c EmptyString) = is_digit c
}.

(** [n] decimal digits at the start of a text, as [\d{n}] consumes them:
    what follows them, when they are there. *)
Fixpoint eat_decimals `{Unicode} (n : nat) (s : string) : option string :=
  match n with
  | O => Some s
  | S k =>
      match split_cp s with
      | Some (cp, rest) =>
          if is_decimal cp then eat_decimals k rest else None
      | None => None
      end
  end.

End PyStr.
(** ** Python floats (IEEE 754 binary64) *)

Module Float64.
Local Open Scope Q_scope.

Definition float := Q.

Definition prec : Z := 53.

Definition pow2 (e : Z) : Q := 2 ^ e.

(** Nearest integer, ties to even. *)
Definition rint (x : Q) : Z :=
  let f := Qfloor x in
  match Qcompare (x - inject_Z f) (1 # 2) with
  | Lt => f
  | Gt => (f + 1)%Z
  | Eq => if Z.even f then f else (f + 1)%Z
  end.

(** [floor (log2 x)] for [0 < x]. *)
Definition ilog2 (x : Q) : Z :=
  let k := (Z.log2 (Qnum x) - Z.log2 (Z.pos (Qden x)))%Z in
  if Qle_bool (pow2 k) x then k else (k - 1)%Z.

(** Rounding of a positive real to 53 significant bits.  The exponent
    range of binary64 is not modelled: the program only rounds 0 and
    magnitudes between 1e-8 and 1e17, far inside the normal range. *)
Definition RN_pos (x : Q) : Q :=
  let e := (ilog2 x - (prec - 1))%Z in
  Qred (inject_Z (rint (x / pow2 e)) * pow2 e).

Definition RN (x : Q) : float :=
  match Qnum x with
  | Z0 => 0
  | Zpos _ => RN_pos x
  | Zneg _ => Qred (- RN_pos (- x))
  end.

(** [n / d] on two ints (true division, correctly rounded) *)
Definition int_truediv (n d : Z) : float := RN (inject_Z n / inject_Z d).

(** [float(n)] *)
Definition of_int (n : Z) : float := RN (inject_Z n).

(** [x / y] on floats *)
Definition div (x y : float) : float := RN (x / y).

(** [x <= n] for a float and an int: exact comparison *)
Definition le_int (x : float) (n : Z) : bool := Qle_bool x (inject_Z n).

(** [round(x, 1)]: the decimal nearest to the exact value of [x], ties to
    even, converted back to the nearest float. *)
Definition round1 (x : float) : float := RN (inject_Z (rint (x * 10)) / 10).

(** [int(x)]: truncation toward zero *)
Definition trunc (x : float) : Z :=
  if Qle_bool 0 x then Qfloor x else Qceiling x.

(** A real with a 53-bit significand. *)
Definition representable (r : Q) : Prop :=
  exists m e, r == inject_Z m * pow2 e /\ (Z.abs m < 2 ^ prec)%Z.

End Float64.

(** ** JSON values and dicts *)

Inductive json : Type :=
| JNull
| JBool (b : bool)
| JInt (z : Z)
| JFloat (q : Float64.float)
| JStr (s : string)
| JArr (l : list json)
| JObj (kvs : list (string * json)).

Module Dict.

Definition dict := list (string * json).

(** [d.get(k)] ([None] when the key is missing) *)
Fixpoint get (k : string) (d : dict) : option json :=
  match d with
  | [] => None
  | (k', v) :: r => if String.eqb k' k then Some v else get k r
  end.

(** [k in d] *)
Definition has (k : string) (d : dict) : bool :=
  match get k d with Some _ => true | None => false end.

End Dict.


(** ** The data stores and the clock *)

(** A record of [data/products.json]: the fields [product_search] reads. *)
Record product : Type := {
  title : string;
  price : Z;
  tags : list string
}.

(** A [datetime]: microseconds on its own wall clock, and the UTC offset
    in microseconds when it is timezone-aware. *)
Record datetime : Type := {
  wall_us : Z;
  utcoffset : option Z
}.

(** What a tool can observe: the outcome of opening and parsing each of
    the two data files, and the system clock, in microseconds UTC.  The
    order file is taken as the JSON value it holds, whatever its shape. *)
Record World : Type := {
  orders_json : result json;
  products_json : result (list product);
  clock_us : Z
}.

(** Result of [datetime.fromisoformat]: a datetime, or [ValueError] with
    its message. *)
Inductive iso_parse : Type :=
| IsoOk (d : datetime)
| IsoValueError (msg : string).

(** Computations that read the world and may raise. *)
Module IO.

Definition M (A : Type) : Type := World -> result A * World.

Definition ret {A} (a : A) : M A := fun w => (Ok a, w).

Definition raise {A} (e : exn) : M A := fun w => (Raise e, w).

Definition bind {A B} (m : M A) (k : A -> M B) : M B :=
  fun w => match m w with
           | (Ok a, w') => k a w'
           | (Raise e, w') => (Raise e, w')
           end.

(** A computation that does not look at the world. *)
Definition lift {A} (r : result A) : M A := fun w => (r, w).

(** [json.load(open(DATA_PATH / "orders.json"))] *)
Definition load_orders : M json := fun w => (orders_json w, w).

(** [json.load(open(DATA_PATH / "products.json"))] *)
Definition load_products : M (list product) := fun w => (products_json w, w).

(** [try: x = m  except (FileNotFoundError, json.JSONDecodeError): ...]:
    [None] when one of the two exceptions was caught. *)
Definition except_load {A} (m : M A) : M (option A) :=
  fun w => match m w with
           | (Ok a, w') => (Ok (Some a), w')
           | (Raise FileNotFoundError, w') => (Ok None, w')
           | (Raise JSONDecodeError, w') => (Ok None, w')
           | (Raise e, w') => (Raise e, w')
           end.

(** [datetime.now(timezone.utc)] *)
Definition now_utc : M datetime :=
  fun w => (Ok {| wall_us := clock_us w; utcoffset := Some 0%Z |}, w).

End IO.

Declare Scope io_scope.
Delimit Scope io_scope with io.
Notation "x <- m ;; k" := (IO.bind m (fun x => k))
  (at level 61, m at next level, right associativity) : io_scope.

(** ** Python operators on JSON values *)

Module Py.
Import PyStr Dict.

(** [bool(v)] *)
Definition truthy (v : json) : bool :=
  match v with
  | JNull => false
  | JBool b => b
  | JInt z => negb (z =? 0)%Z
  | JFloat q => negb (Qeq_bool q 0)
  | JStr s => negb (String.eqb s EmptyString)
  | JArr l => match l with [] => false | _ :: _ => true end
  | JObj d => match d with [] => false | _ :: _ => true end
  end.

(** [v == s] for a str [s] *)
Definition eq_str (s : string) (v : json) : bool :=
  match v with
  | JStr s' => String.eqb s' s
  | _ => false
  end.

(** [key in data] for a str [key]: key lookup in a dict, element test in
    a list, substring test in a str, [TypeError] on anything else. *)
Definition py_in (key : string) (data : json) : result bool :=
  match data with
  | JObj d => Ok (has key d)
  | JArr l => Ok (existsb (eq_str key) l)
  | JStr s => Ok (contains key s)
  | _ => Raise TypeError
  end.

(** [data[key]] for a str [key] *)
Definition subscript (data : json) (key : string) : result json :=
  match data with
  | JObj d =>
      match get key d with
      | Some v => Ok v
      | None => Raise KeyError
      end
  | _ => Raise TypeError
  end.

(** What [for x in data] goes through: the elements of a list, the keys
    of a dict, the characters of a str; anything else is not iterable. *)
Definition py_iter (data : json) : result (list json) :=
  match data with
  | JArr l => Ok l
  | JObj d => Ok (map (fun kv => JStr (fst kv)) d)
  | JStr s => Ok (map JStr (codepoints s))
  | _ => Raise TypeError
  end.

End Py.

(** ** [src/agent/tools/tools.py] *)

Module Tools.
Import PyStr Dict Py.
Local Open Scope string_scope.

(** [bool(re.match(r"^A\d{4}$", order_id))]: the letter A, four code
    points of the class [\d], and the end of the text or a final
    newline. *)
Definition validate_order_id `{Unicode} (order_id : string) : bool :=
  match order_id with
  | String a r =>
      Ascii.eqb a "A" &&
      match eat_decimals 4 r with
      | Some rest => at_dollar rest
      | None => false
      end
  | EmptyString => false
  end.

(** The format the error messages and the tests name: the letter A
    followed by exactly four digits, and nothing else. *)
Definition order_id_format (order_id : string) : bool :=
  match order_id with
  | String a (String d1 (String d2 (String d3 (String d4 EmptyString)))) =>
      Ascii.eqb a "A" && is_digit d1 && is_digit d2 && is_digit d3
      && is_digit d4
  | _ => false
  end.

Definition email_local_char (c : ascii) : bool :=
  is_alpha c || is_digit c
  || existsb (Ascii.eqb c) ["."; "_"; "%"; "+"; "-"]%char.

Definition email_domain_char (c : ascii) : bool :=
  is_alpha c || is_digit c || existsb (Ascii.eqb c) ["."; "-"]%char.

(** [re.match(r"^[a-zA-Z0-9._%+-]+@[a-zA-Z0-9.-]+\.[a-zA-Z]{2,}$", email)
    is not None].  The last group holds no dot, so the dot before it is the
    last dot of the text. *)
Definition validate_email (email : string) : bool :=
  match span email_local_char email with
  | (EmptyString, _) => false
  | (_, String at_sign domain) =>
      Ascii.eqb at_sign "@" &&
      match rsplit "." domain with
      | None => false
      | Some (host, tld_rest) =>
          let (tld, rest) := span is_alpha tld_rest in
          negb (String.eqb host "") && all_chars email_domain_char host
          && (2 <=? String.length tld)%nat && at_dollar rest
      end
  | (_, EmptyString) => false
  end.

(** [bool(re.match(r"^\d{5,6}$", zip_code.strip()))]: five digits, and
    then either a sixth digit before [$], or [$] at once when the sixth
    is missing or what follows it refuses [$]. *)
Definition validate_zip_code `{Unicode} (zip_code : string) : bool :=
  match eat_decimals 5 (strip zip_code) with
  | None => false
  | Some after_five =>
      match eat_decimals 1 after_five with
      | Some after_six => at_dollar after_six
      | None => false
      end
      || at_dollar after_five
  end.

Definition eta `{Unicode} (zip_code : string) : string :=
  if negb (validate_zip_code zip_code) then
    "Invalid zip code format: " ++ zip_code
    ++ ". Please provide a valid 5-6 digit zip code."
  else
    "Shipping to zip code " ++ zip_code ++ " typically takes 2-5 business days.".

(** *** product_search *)

Inductive tags_arg : Type :=
| TagsStr (s : string)
| TagsList (l : list string).

Definition mem_str (s : string) (l : list string) : bool :=
  existsb (String.eqb s) l.

Definition product_eqb (p q : product) : bool :=
  String.eqb (title p) (title q) && Z.eqb (price p) (price q)
  && (if list_eq_dec string_dec (tags p) (tags q) then true else false).

(** [p in results] *)
Definition mem_product (p : product) (l : list product) : bool :=
  existsb (product_eqb p) l.

(** [price_max is not None and p["price"] > price_max] *)
Definition over_price (price_max : option Z) (p : product) : bool :=
  match price_max with
  | Some m => (m <? price p)%Z
  | None => false
  end.

(** Tuples of ints compare lexicographically. *)
Fixpoint tuple_lt (a b : list Z) : bool :=
  match a, b with
  | [], [] => false
  | [], _ :: _ => true
  | _ :: _, [] => false
  | x :: a', y :: b' => (x <? y)%Z || ((x =? y)%Z && tuple_lt a' b')
  end.

(** [sorted(l, key=key)]: a stable sort, here by insertion. *)
Section Sorted.
Context {A : Type} (key : A -> list Z).

Fixpoint insert_sorted (x : A) (l : list A) : list A :=
  match l with
  | [] => [x]
  | y :: r =>
      if tuple_lt (key x) (key y) then x :: y :: r
      else y :: insert_sorted x r
  end.

Definition sorted (l : list A) : list A :=
  fold_left (fun acc x => insert_sorted x acc) l [].
End Sorted.

(** [x] may stand before [y] in a list sorted by [key]: the key of [y] is
    not below the key of [x]. *)
Definition stands_before {A : Type} (key : A -> list Z) (x y : A) : Prop :=
  tuple_lt (key y) (key x) = false.

Section ProductSearch.
Context {U : Unicode}.
Variables (query : string) (price_max : option Z).
Variable tags_list : list string.
Variable products : list product.

(** The first [for p in products] loop, as the list it appends. *)
Definition strict_matches : list product :=
  filter (fun p =>
    negb (over_price price_max p) &&
    match tags_list with
    | _ :: _ => forallb (fun t => mem_str t (tags p)) tags_list
    | [] =>
        negb (String.eqb query "")
        && contains (lower query) (lower (title p))
    end) products.

(** The second loop: products sharing at least one tag, until two
    results are held. *)
Fixpoint partial_matches (ps results : list product) : list product :=
  match ps with
  | [] => results
  | p :: r =>
      if over_price price_max p then partial_matches r results
      else if negb (mem_product p results) then
        let results' :=
          if existsb (fun t => mem_str t (tags p)) tags_list
          then (results ++ [p])%list else results in
        if (2 <=? List.length results')%nat then results'
        else partial_matches r results'
      else partial_matches r results
  end.

(** The list comprehension of the last fallback. *)
Definition broader_matches (m : Z) (results : list product) : list product :=
  filter (fun p =>
    (price p <=? m)%Z && negb (mem_product p results)
    && (contains "dress" (lower (title p)) || mem_str "midi" (tags p)))
    products.

Definition sort_key (p : product) : list Z :=
  match tags_list with
  | _ :: _ =>
      let tag_score :=
        List.length (nodup string_dec
                       (filter (fun t => mem_str t (tags p)) tags_list)) in
      [(- Z.of_nat tag_score)%Z; price p]
  | [] => [price p]
  end.

Definition product_search_body : list product :=
  let results := strict_matches in
  let results :=
    if ((List.length results <? 2)%nat
        && match tags_list with [] => false | _ :: _ => true end
        && (1 <? List.length tags_list)%nat)%bool
    then partial_matches products results else results in
  let results :=
    match price_max with
    | Some m =>
        if (List.length results <? 2)%nat then
          let broader_results :=
            sorted (fun p => [price p]) (broader_matches m results) in
          (results ++ firstn (2 - List.length results) broader_results)%list
        else results
    | None => results
    end in
  firstn 2 (sorted sort_key results).
End ProductSearch.

(** [tags_list] as computed from the [tags] argument. *)
Definition tags_list_of `{Unicode} (tags : option tags_arg) : list string :=
  match tags with
  | Some (TagsStr s) =>
      if String.eqb s "" then [] else map strip (split "," s)
  | Some (TagsList l) => l
  | None => []
  end.

Definition product_search `{Unicode} (query : string) (price_max : option Z)
    (tags : option tags_arg) : IO.M (list product) :=
  (products <- IO.load_products ;;
   IO.ret (product_search_body query price_max (tags_list_of tags) products))%io.

(** *** order_lookup and order_cancel *)

(** [{"error": msg}] *)
Definition error_dict (msg : string) : json := JObj [("error", JStr msg)].

(** [{"success": False, "error": msg}] *)
Definition failure_dict (msg : string) : json :=
  JObj [("success", JBool false); ("error", JStr msg)].

(** The [for order in orders] loop of [order_lookup]: the first element
    whose [order_id] and [email] are the two texts; the email of an
    element is read only when its id is the one asked for. *)
Fixpoint lookup_scan (order_id0 email0 : string) (orders : list json)
    : result (option json) :=
  match orders with
  | [] => Ok None
  | order0 :: rest =>
      match subscript order0 "order_id" with
      | Raise e => Raise e
      | Ok id =>
          if eq_str order_id0 id then
            match subscript order0 "email" with
            | Raise e => Raise e
            | Ok em =>
                if eq_str email0 em then Ok (Some order0)
                else lookup_scan order_id0 email0 rest
            end
          else lookup_scan order_id0 email0 rest
      end
  end.

Definition order_lookup `{Unicode} (order_id0 email0 : string) : IO.M json :=
  if negb (validate_order_id order_id0) then
    IO.ret (error_dict ("Invalid order ID format: " ++ order_id0
                        ++ ". Order IDs should be in format A1234."))
  else if negb (validate_email email0) then
    IO.ret (error_dict ("Invalid email format: " ++ email0
                        ++ ". Please provide a valid email address."))
  else
    (orders <- IO.except_load IO.load_orders ;;
     match orders with
     | None =>
         IO.ret (error_dict
                   "Unable to access order database. Please try again later.")
     | Some orders =>
         elements <- IO.lift (py_iter orders) ;;
         found <- IO.lift (lookup_scan order_id0 email0 elements) ;;
         match found with
         | Some order0 => IO.ret order0
         | None =>
             IO.ret (error_dict
               "Order not found. Please check your order ID and email address.")
         end
     end)%io.

(** [a - b] on datetimes: microseconds between two aware or two naive
    values; mixing the two kinds raises [TypeError]. *)
Definition datetime_sub (a b : datetime) : result Z :=
  match utcoffset a, utcoffset b with
  | Some oa, Some ob => Ok ((wall_us a - oa) - (wall_us b - ob))%Z
  | None, None => Ok (wall_us a - wall_us b)%Z
  | _, _ => Raise TypeError
  end.

(** [timedelta.total_seconds() / 60] for a timedelta of [us] microseconds *)
Definition minutes_of_us (us : Z) : Float64.float :=
  Float64.div (Float64.int_truediv us 1000000) (Float64.of_int 60).

Definition cancel_success (order_id0 canceled_at : string)
    (time_diff_minutes : Float64.float) : json :=
  JObj [("success", JBool true);
        ("message", JStr ("Order " ++ order_id0
                          ++ " has been successfully canceled."));
        ("canceled_at", JStr canceled_at);
        ("minutes_since_order", JFloat (Float64.round1 time_diff_minutes))].

Definition cancel_blocked (time_diff_minutes : Float64.float) : json :=
  JObj [("success", JBool false);
        ("reason",
         JStr "Cancellation failed: Order was placed more than 60 minutes ago.");
        ("minutes_since_order", JInt (Float64.trunc time_diff_minutes));
        ("policy",
         JStr "Orders can only be canceled within 60 minutes of placement.")].

(** [next((o for o in orders if o["order_id"] == order_id), None)] *)
Fixpoint cancel_scan (order_id0 : string) (orders : list json)
    : result (option json) :=
  match orders with
  | [] => Ok None
  | o :: rest =>
      match subscript o "order_id" with
      | Raise e => Raise e
      | Ok id =>
          if eq_str order_id0 id then Ok (Some o)
          else cancel_scan order_id0 rest
      end
  end.

(** The order a cancellation of [order_id0] is about, where the order
    file can be read and searched. *)
Definition stored_order (order_id0 : string) (w : World) : option json :=
  match orders_json w with
  | Ok orders =>
      match py_iter orders with
      | Ok elements =>
          match cancel_scan order_id0 elements with
          | Ok found => found
          | Raise _ => None
          end
      | Raise _ => None
      end
  | Raise _ => None
  end.

Section OrderCancel.
Context {U : Unicode}.
(** [datetime.fromisoformat] and [datetime.isoformat] *)
Variable fromisoformat : string -> iso_parse.
Variable isoformat : datetime -> string.

(** [datetime.fromisoformat(s.replace("Z", "+00:00"))] *)
Definition parse_timestamp (s : string) : iso_parse :=
  fromisoformat (replace "Z" "+00:00" s).

(** The creation time of an order record, where the record has a text
    under [created_at] and the text parses. *)
Definition created_of (o : json) : option datetime :=
  match subscript o "created_at" with
  | Ok (JStr created_at_str) =>
      match parse_timestamp created_at_str with
      | IsoOk created => Some created
      | IsoValueError _ => None
      end
  | _ => None
  end.

(** The handler [except (ValueError, KeyError)] covers the second [try]
    block: a missing [created_at] is reported with the text of the
    [KeyError], the key in quotes; a [created_at] that is no str has no
    [replace] and raises [AttributeError], which leaves the function, as
    does the [TypeError] of subtracting datetimes of two kinds. *)
Definition order_cancel (order_id0 : string) (simulated_now : option string)
    : IO.M json :=
  if negb (validate_order_id order_id0) then
    IO.ret (failure_dict ("Invalid order ID format: " ++ order_id0
                          ++ ". Order IDs should be in format A1234."))
  else
    (orders <- IO.except_load IO.load_orders ;;
     match orders with
     | None =>
         IO.ret (failure_dict
                   "Unable to access order database. Please try again later.")
     | Some orders =>
         elements <- IO.lift (py_iter orders) ;;
         order_to_cancel <- IO.lift (cancel_scan order_id0 elements) ;;
         match order_to_cancel with
         | None =>
             IO.ret (failure_dict ("Order " ++ order_id0
                                   ++ " not found in the system."))
         | Some order_to_cancel =>
             if negb (truthy order_to_cancel) then
               IO.ret (failure_dict ("Order " ++ order_id0
                                     ++ " not found in the system."))
             else
             match subscript order_to_cancel "created_at" with
             | Raise KeyError =>
                 IO.ret (failure_dict
                           "Error processing order timestamps: 'created_at'")
             | Raise e => IO.raise e
             | Ok (JStr created_at_str) =>
                 match parse_timestamp created_at_str with
                 | IsoValueError e =>
                     IO.ret (failure_dict
                               ("Error processing order timestamps: " ++ e))
                 | IsoOk created =>
                     let decide (now : datetime) : IO.M json :=
                       match datetime_sub now created with
                       | Raise e => IO.raise e
                       | Ok us =>
                           let time_diff_minutes := minutes_of_us us in
                           if Float64.le_int time_diff_minutes 60 then
                             IO.ret (cancel_success order_id0 (isoformat now)
                                                    time_diff_minutes)
                           else IO.ret (cancel_blocked time_diff_minutes)
                       end in
                     match simulated_now with
                     | Some (String c s as text) =>
                         match parse_timestamp text with
                         | IsoValueError _ =>
                             IO.ret (failure_dict
                                       ("Invalid timestamp format: " ++ text))
                         | IsoOk now => decide now
                         end
                     | _ => (now <- IO.now_utc ;; decide now)
                     end
                 end
             | Ok _ => IO.raise AttributeError
             end
         end
     end)%io.

(** The reference time of a call: the supplied timestamp when there is
    one, the clock otherwise. *)
Definition reference_now (simulated_now : option string) (w : World)
    : option datetime :=
  match simulated_now with
  | Some (String c s as text) =>
      match parse_timestamp text with
      | IsoOk now => Some now
      | IsoValueError _ => None
      end
  | _ => Some {| wall_us := clock_us w; utcoffset := Some 0%Z |}
  end.

(** The reference time of a call and the microseconds from the creation
    of the order it names to that time, when both are defined. *)
Definition elapsed_at_call (order_id0 : string)
    (simulated_now : option string) (w : World) : option (datetime * Z) :=
  match stored_order order_id0 w with
  | None => None
  | Some o =>
      match created_of o, reference_now simulated_now w with
      | Some created, Some now =>
          match datetime_sub now created with
          | Ok us => Some (now, us)
          | Raise _ => None
          end
      | _, _ => None
      end
  end.
End OrderCancel.

(** An order record with the three members of the data model. *)
Definition order_record (order_id0 email0 created_at0 : string) : json :=
  JObj [("order_id", JStr order_id0); ("email", JStr email0);
        ("created_at", JStr created_at0)].

End Tools.

(** ** [src/agent/state.py] *)

Record tool_call : Type := {
  call_name : string;
  call_args : list (string * json);
  call_id : string
}.

(** The content of a message: a text, or a list of content blocks.
    [ToolNode] keeps a tool's result as it is when it is a str or a list of
    content blocks, the empty list among them, and stores the JSON text of
    any other result. *)
Inductive content : Type :=
| Text (s : string)
| Blocks (l : list json).

Inductive message : Type :=
| HumanMessage (text : string)
| AIMessage (text : string) (calls : list tool_call)
| ToolMessage (c : content) (tool_call_id : string).

(** [isinstance(c, str)] *)
Definition is_text (c : content) : bool :=
  match c with
  | Text _ => true
  | Blocks _ => false
  end.

(** [m.content] *)
Definition content_of (m : message) : content :=
  match m with
  | HumanMessage t | AIMessage t _ => Text t
  | ToolMessage c _ => c
  end.

(** [m.tool_calls]: only an [AIMessage] has the attribute. *)
Definition tool_calls (m : message) : result (list tool_call) :=
  match m with
  | AIMessage _ calls => Ok calls
  | _ => Raise AttributeError
  end.

(** [AgentState].  A key that holds no value yet is [None]. *)
Record AgentState : Type := {
  messages : list message;
  intent : option string;
  tools_called : option (list string);
  evidence : option (list content);
  policy_decision : option json;
  final_message : option string
}.

(** The dict a node returns; a key the node does not return is [None]. *)
Record update : Type := {
  u_messages : option (list message);
  u_intent : option string;
  u_tools_called : option (list string);
  u_evidence : option (list content);
  u_policy_decision : option (option json);
  u_final_message : option string
}.

Definition no_update : update :=
  {| u_messages := None; u_intent := None; u_tools_called := None;
     u_evidence := None; u_policy_decision := None; u_final_message := None |}.

(** A key annotated with [operator.add]: the first write sets the value,
    later writes are appended to it. *)
Definition reduce_add {A} (old : option (list A)) (new : option (list A))
    : option (list A) :=
  match new with
  | None => old
  | Some l => Some (match old with None => l | Some l0 => l0 ++ l end)
  end.

(** A key without annotation: a write replaces the value. *)
Definition reduce_last {A} (old : option A) (new : option A) : option A :=
  match new with
  | None => old
  | Some _ => new
  end.

(** How LangGraph folds a node's dict into the state, with the reducers
    the annotations of [AgentState] name. *)
Definition apply_update (s : AgentState) (u : update) : AgentState :=
  {| messages :=
       match reduce_add (Some (messages s)) (u_messages u) with
       | Some l => l
       | None => messages s
       end;
     intent := reduce_last (intent s) (u_intent u);
     tools_called := reduce_add (tools_called s) (u_tools_called u);
     evidence := reduce_add (evidence s) (u_evidence u);
     policy_decision :=
       match u_policy_decision u with
       | Some d => d
       | None => policy_decision s
       end;
     final_message := reduce_last (final_message s) (u_final_message u) |}.

(** [state["messages"][-1]] *)
Definition last_message (s : AgentState) : result message :=
  match rev (messages s) with
  | m :: _ => Ok m
  | [] => Raise IndexError
  end.

(** The state [app.invoke({"messages": messages})] starts from. *)
Definition initial_state (msgs : list message) : AgentState :=
  {| messages := msgs; intent := None; tools_called := None;
     evidence := None; policy_decision := None; final_message := None |}.


(** ** [src/agent/nodes/router.py] *)

Module Router.
Import PyStr Dict Py.
Local Open Scope string_scope.

Definition intents : list string := ["product_assist"; "order_help"; "other"].

Fixpoint after_first (c : ascii) (s : string) : option string :=
  match s with
  | EmptyString => None
  | String a r => if Ascii.eqb a c then Some r else after_first c r
  end.

Fixpoint upto_last (c : ascii) (s : string) : option string :=
  match s with
  | EmptyString => None
  | String a r =>
      match upto_last c r with
      | Some p => Some (String a p)
      | None => if Ascii.eqb a c then Some (String a EmptyString) else None
      end
  end.

(** [re.search(r'\{.*\}', text, re.DOTALL)]: from the first opening brace
    to the last closing brace after it. *)
Definition search_braces (text : string) : option string :=
  match after_first "{" text with
  | None => None
  | Some r =>
      match upto_last "}" r with
      | None => None
      | Some p => Some (String "{" p)
      end
  end.

Definition order_keywords : list string :=
  ["order"; "cancel"; "cancellation"; "a1001"; "a1002"; "a1003";
   "order_id"; "email"; "refund"; "return"].

Definition product_keywords : list string :=
  ["dress"; "product"; "wedding"; "midi"; "price"; "size"; "eta";
   "shipping"; "available"; "recommend"; "compare"; "zip"].

Definition guardrail_keywords : list string :=
  ["discount"; "code"; "coupon"; "promo"; "sale"].

Definition deterministic_keyword_routing `{Unicode} (question : string)
    : option string :=
  let question_lower := lower question in
  if existsb (fun keyword => contains keyword question_lower) order_keywords
  then Some "order_help"
  else if existsb (fun keyword => contains keyword question_lower)
                  product_keywords
  then Some "product_assist"
  else if existsb (fun keyword => contains keyword question_lower)
                  guardrail_keywords
  then Some "other"
  else None.

Section Router.
Context {U : Unicode}.
(** [json.loads]: the value, or the exception it raises.  A text that is
    not JSON raises [JSONDecodeError]; nesting beyond the recursion limit
    raises [RecursionError] and an integer beyond the digit limit raises
    [ValueError]. *)
Variable json_loads : string -> result json.
(** [router_chain.invoke({"question": question}).content] *)
Variable invoke_llm : string -> string.

(** [except json.JSONDecodeError] catches that exception and no other. *)
Definition extract_json_from_string (text : string) : result (option json) :=
  match search_braces text with
  | Some json_str =>
      match json_loads json_str with
      | Ok v => Ok (Some v)
      | Raise JSONDecodeError => Ok None
      | Raise e => Raise e
      end
  | None => Ok None
  end.

(** The part of [router_node] after the keyword rules. *)
Definition llm_route (question : string) : result string :=
  match extract_json_from_string (invoke_llm question) with
  | Raise e => Raise e
  | Ok None => Ok "other"
  | Ok (Some route_json) =>
      if negb (truthy route_json) then Ok "other"
      else
        match py_in "destination" route_json with
        | Raise e => Raise e
        | Ok false => Ok "other"
        | Ok true =>
            match subscript route_json "destination" with
            | Raise e => Raise e
            | Ok (JStr destination) =>
                if existsb (String.eqb destination) intents
                then Ok destination else Ok "other"
            | Ok _ => Ok "other"
            end
        end
  end.

(** The intent [router_node] computes for a question. *)
Definition classify (question : string) : result string :=
  match deterministic_keyword_routing question with
  | Some deterministic_route => Ok deterministic_route
  | None => llm_route question
  end.

(** [question.lower()] needs a str: a last message whose content is a
    list raises [AttributeError]. *)
Definition router_node (state : AgentState) : result update :=
  match last_message state with
  | Raise e => Raise e
  | Ok m =>
      match content_of m with
      | Blocks _ => Raise AttributeError
      | Text question =>
          match classify question with
          | Raise e => Raise e
          | Ok destination =>
              Ok {| u_messages := None; u_intent := Some destination;
                    u_tools_called := None; u_evidence := None;
                    u_policy_decision := None; u_final_message := None |}
          end
      end
  end.
End Router.

End Router.

(** ** [src/agent/nodes/policy_guard.py] *)

Module PolicyGuard.
Import Dict Py.
Local Open Scope string_scope.

Section PolicyGuard.
(** [json.loads]: the value, or the exception it raises *)
Variable json_loads : string -> result json.

(** The [for item in evidence] loop: the first item that parses and
    passes both [in] tests.  [except (json.JSONDecodeError, TypeError)]
    skips an item that is no text, an item that is not JSON and an item
    whose value refuses the [in] test; any other exception of
    [json.loads] leaves the loop and the node. *)
Fixpoint find_cancel_output (evidence0 : list content)
    : result (option json) :=
  match evidence0 with
  | [] => Ok None
  | Blocks _ :: rest => find_cancel_output rest
  | Text item :: rest =>
      match json_loads item with
      | Raise JSONDecodeError | Raise TypeError => find_cancel_output rest
      | Raise e => Raise e
      | Ok data =>
          match py_in "success" data with
          | Ok true =>
              match py_in "reason" data with
              | Ok true => Ok (Some data)
              | _ => find_cancel_output rest
              end
          | _ => find_cancel_output rest
          end
      end
  end.

(** [{"cancel_allowed": False, "reason": reason}] *)
Definition blocked_decision (reason : json) : json :=
  JObj [("cancel_allowed", JBool false); ("reason", reason)].

(** [{"cancel_allowed": True}] *)
Definition allowed_decision : json := JObj [("cancel_allowed", JBool true)].

(** [cancel_tool_output.get(key)] *)
Definition dict_get (cancel_tool_output : json) (key : string) : result json :=
  match cancel_tool_output with
  | JObj d =>
      match get key d with
      | Some v => Ok v
      | None => Ok JNull
      end
  | _ => Raise AttributeError
  end.

(** The value [policy_guard_node] returns under ["policy_decision"];
    [None] is Python's [None]. *)
Definition policy_decision_of (state : AgentState) : result (option json) :=
  match intent state with
  | Some "order_help" =>
      match evidence state with
      | None | Some [] => Ok None
      | Some evidence0 =>
          match find_cancel_output evidence0 with
          | Raise e => Raise e
          | Ok None => Ok None
          | Ok (Some cancel_tool_output) =>
              if negb (truthy cancel_tool_output) then Ok None
              else
                match dict_get cancel_tool_output "success" with
                | Raise e => Raise e
                | Ok (JBool false) =>
                    match dict_get cancel_tool_output "reason" with
                    | Raise e => Raise e
                    | Ok reason => Ok (Some (blocked_decision reason))
                    end
                | Ok _ => Ok (Some allowed_decision)
                end
          end
      end
  | _ => Ok None
  end.

(** The decision as the specification words it: the first entry of the
    evidence that parses as an object holding both a [success] and a
    [reason] key is the verdict. *)
Fixpoint first_verdict (evidence0 : list content) : option Dict.dict :=
  match evidence0 with
  | [] => None
  | Text item :: rest =>
      match json_loads item with
      | Ok (JObj d) =>
          if has "success" d && has "reason" d then Some d
          else first_verdict rest
      | _ => first_verdict rest
      end
  | Blocks _ :: rest => first_verdict rest
  end.

Definition verdict_decision (d : Dict.dict) : json :=
  match get "success" d with
  | Some (JBool false) =>
      blocked_decision
        (match get "reason" d with Some r => r | None => JNull end)
  | _ => allowed_decision
  end.

(** As claimed: a verdict with [success == false] blocks; any other
    verdict, and the absence of a verdict, allows; no evidence or another
    intent gives no decision. *)
Definition claimed_decision (state : AgentState) : option json :=
  match intent state with
  | Some "order_help" =>
      match evidence state with
      | None | Some [] => None
      | Some evidence0 =>
          match first_verdict evidence0 with
          | Some d => Some (verdict_decision d)
          | None => Some allowed_decision
          end
      end
  | _ => None
  end.

(** An entry the loop passes over: no text, no JSON, or a value that does
    not pass both [in] tests. *)
Definition passes_over (item : content) : bool :=
  match item with
  | Blocks _ => true
  | Text t =>
      match json_loads t with
      | Raise JSONDecodeError | Raise TypeError => true
      | Raise _ => false
      | Ok data =>
          match py_in "success" data with
          | Ok true =>
              match py_in "reason" data with
              | Ok true => false
              | _ => true
              end
          | _ => true
          end
      end
  end.

(** An entry that has nothing of a cancellation result: no text, no
    JSON, or a value that does not hold [success]. *)
Definition holds_no_success (item : content) : bool :=
  match item with
  | Blocks _ => true
  | Text t =>
      match json_loads t with
      | Raise JSONDecodeError | Raise TypeError => true
      | Raise _ => false
      | Ok data =>
          match py_in "success" data with
          | Ok true => false
          | _ => true
          end
      end
  end.

Definition policy_guard_node (state : AgentState) : result update :=
  match policy_decision_of state with
  | Raise e => Raise e
  | Ok decision =>
      Ok {| u_messages := None; u_intent := None; u_tools_called := None;
            u_evidence := None; u_policy_decision := Some decision;
            u_final_message := None |}
  end.
End PolicyGuard.

End PolicyGuard.

(** ** [src/agent/graph.py] *)

Module Graph.
Local Open Scope string_scope.

Inductive node : Type :=
| router
| agent
| tool_executor
| policy_guard
| responder
| END.

(** LangGraph's prebuilt [ToolNode]: it runs every call of the last
    message, in request order, and answers each with one [ToolMessage]
    carrying the call's id.  [run_tool] is the registry of tools with the
    content [ToolNode] makes of their results. *)
Definition tool_node_invoke (run_tool : tool_call -> content)
    (state : AgentState) : result (list message) :=
  match last_message state with
  | Raise e => Raise e
  | Ok m =>
      match tool_calls m with
      | Raise e => Raise e
      | Ok calls =>
          Ok (map (fun call => ToolMessage (run_tool call) (call_id call)) calls)
      end
  end.

(** [agent_node]: one call of the chat model bound to the tools;
    [chain_invoke] is that call, given the intent and the messages. *)
Definition agent_node
    (chain_invoke : option string -> list message -> message)
    (state : AgentState) : update :=
  let response := chain_invoke (intent state) (messages state) in
  {| u_messages := Some [response]; u_intent := None;
     u_tools_called := None; u_evidence := None;
     u_policy_decision := None; u_final_message := None |}.

Definition tool_executor_node (run_tool : tool_call -> content)
    (state : AgentState) : result update :=
  match last_message state with
  | Raise e => Raise e
  | Ok m =>
      match tool_calls m with
      | Raise e => Raise e
      | Ok tool_calls0 =>
          match tool_node_invoke run_tool state with
          | Raise e => Raise e
          | Ok tool_messages =>
              let evidence0 := map content_of tool_messages in
              let tools_called0 := map call_name tool_calls0 in
              Ok {| u_messages := Some tool_messages; u_intent := None;
                    u_tools_called := Some tools_called0;
                    u_evidence := Some evidence0;
                    u_policy_decision := None; u_final_message := None |}
          end
      end
  end.

(** The items of ["\n".join(evidence_list)]: an item that is no str
    raises [TypeError]. *)
Fixpoint join_items (evidence_list : list content) : result (list string) :=
  match evidence_list with
  | [] => Ok []
  | Text s :: rest =>
      match join_items rest with
      | Ok l => Ok (s :: l)
      | Raise e => Raise e
      end
  | Blocks _ :: _ => Raise TypeError
  end.

(** [responder_node]: one call of the chat model on the content of the
    last message, the joined evidence and the policy decision. *)
Definition responder_node
    (chain_invoke : content -> string -> option json -> string)
    (state : AgentState) : result update :=
  match last_message state with
  | Raise e => Raise e
  | Ok m =>
      let evidence_list :=
        match evidence state with Some l => l | None => [] end in
      match join_items evidence_list with
      | Raise e => Raise e
      | Ok items =>
          let response :=
            chain_invoke (content_of m) (String.concat PyStr.newline items)
                         (policy_decision state) in
          Ok {| u_messages := None; u_intent := None; u_tools_called := None;
                u_evidence := None; u_policy_decision := None;
                u_final_message := Some response |}
      end
  end.

Definition should_continue (state : AgentState) : result string :=
  match last_message state with
  | Raise e => Raise e
  | Ok m =>
      match tool_calls m with
      | Raise e => Raise e
      | Ok [] => Ok "__end__"
      | Ok (_ :: _) => Ok "execute_tools"
      end
  end.

Definition route_after_tools (state : AgentState) : string :=
  let tools_called0 :=
    match tools_called state with Some l => l | None => [] end in
  if existsb (String.eqb "order_cancel") tools_called0
  then "policy_guard" else "agent".

(** The path maps of the three [add_conditional_edges] calls. *)
Definition router_edges (label : option string) : option node :=
  match label with
  | Some "product_assist" => Some agent
  | Some "order_help" => Some agent
  | Some "other" => Some responder
  | _ => None
  end.

Definition agent_edges (label : string) : option node :=
  if String.eqb label "execute_tools" then Some tool_executor
  else if String.eqb label "__end__" then Some responder
  else None.

Definition tool_executor_edges (label : string) : option node :=
  if String.eqb label "policy_guard" then Some policy_guard
  else if String.eqb label "agent" then Some agent
  else None.

(** [l or []] *)
Definition or_empty {A} (l : option (list A)) : list A :=
  match l with
  | Some l => l
  | None => []
  end.

(** The names of the calls of the executed batches, oldest first;
    [batches] holds the latest batch first. *)
Definition names_called (batches : list (list tool_call)) : list string :=
  map call_name (List.concat (rev batches)).

(** The contents the executed batches returned, oldest first; [outputs]
    holds those of the latest batch first. *)
Definition contents_returned (outputs : list (list content)) : list content :=
  List.concat (rev outputs).

Section Run.
Context {U : PyStr.Unicode}.
Variable json_loads : string -> result json.

(** [reaches batches outputs n s]: started by
    [app.invoke({"messages": msgs})], the compiled graph can stand before
    node [n] in state [s], having executed the tool batches [batches] with
    the results [outputs], the latest first.  Every call of the chat model
    and every run of the tools is free to answer anything. *)
Inductive reaches
    : list (list tool_call) -> list (list content) -> node -> AgentState
      -> Prop :=
| reach_entry msgs :
    reaches [] [] router (initial_state msgs)
| reach_router batches outputs s invoke_llm u n :
    reaches batches outputs router s ->
    Router.router_node json_loads invoke_llm s = Ok u ->
    router_edges (intent (apply_update s u)) = Some n ->
    reaches batches outputs n (apply_update s u)
| reach_agent batches outputs s chain_invoke label n :
    reaches batches outputs agent s ->
    should_continue (apply_update s (agent_node chain_invoke s)) = Ok label ->
    agent_edges label = Some n ->
    reaches batches outputs n (apply_update s (agent_node chain_invoke s))
| reach_tool_executor batches outputs s run_tool m calls u n :
    reaches batches outputs tool_executor s ->
    last_message s = Ok m ->
    tool_calls m = Ok calls ->
    tool_executor_node run_tool s = Ok u ->
    tool_executor_edges (route_after_tools (apply_update s u)) = Some n ->
    reaches (calls :: batches) (map run_tool calls :: outputs) n
            (apply_update s u)
| reach_policy_guard batches outputs s u :
    reaches batches outputs policy_guard s ->
    PolicyGuard.policy_guard_node json_loads s = Ok u ->
    reaches batches outputs responder (apply_update s u)
| reach_responder batches outputs s chain_invoke u :
    reaches batches outputs responder s ->
    responder_node chain_invoke s = Ok u ->
    reaches batches outputs END (apply_update s u).
End Run.

End Graph.

(** ** [tests/eval_framework.py] *)

Module Eval.
Import Dict.
Local Open Scope string_scope.

Definition json_of_text (o : option string) : json :=
  match o with
  | Some s => JStr s
  | None => JNull
  end.

Definition json_of_texts (o : option (list string)) : json :=
  match o with
  | Some l => JArr (map JStr l)
  | None => JNull
  end.

Definition json_of_content (c : content) : json :=
  match c with
  | Text s => JStr s
  | Blocks l => JArr l
  end.

Definition json_of_contents (o : option (list content)) : json :=
  match o with
  | Some l => JArr (map json_of_content l)
  | None => JNull
  end.

(** The trace [run_evaluation] (and [run_test] of the test runners) builds
    from the final state, [final_state.get(key)] for each of the five
    keys. *)
Definition trace_of (final_state : AgentState) : dict :=
  [("intent", json_of_text (intent final_state));
   ("tools_called", json_of_texts (tools_called final_state));
   ("evidence", json_of_contents (evidence final_state));
   ("policy_decision",
    match policy_decision final_state with Some d => d | None => JNull end);
   ("final_message", json_of_text (final_message final_state))].

(** The entries of the list [errors]; the sentences themselves quote
    Python sets, whose print order is not fixed. *)
Inductive schema_error : Type :=
| MissingRequiredKeys
| InvalidIntentValue
| ToolsCalledNotList
| EvidenceNotList
| PolicyDecisionNotDict
| FinalMessageRequired
| FinalMessageNotString
| FinalMessageEmpty.

Definition required_trace_keys : list string :=
  ["intent"; "tools_called"; "evidence"; "policy_decision"; "final_message"].

Definition valid_intents : list string :=
  ["product_assist"; "order_help"; "other"].

(** [trace.get(key)] with Python's [None] as [JNull] *)
Definition trace_get (trace : dict) (key : string) : json :=
  match get key trace with
  | Some v => v
  | None => JNull
  end.

(** [x in self.valid_intents], a set of strings: a list or a dict cannot
    be hashed and raises [TypeError]. *)
Definition in_valid_intents (x : json) : result bool :=
  match x with
  | JStr s => Ok (existsb (String.eqb s) valid_intents)
  | JArr _ | JObj _ => Raise TypeError
  | _ => Ok false
  end.

Definition validate_trace_schema `{PyStr.Unicode} (trace : dict)
    : result (bool * list schema_error) :=
  let errors0 :=
    if forallb (fun k => has k trace) required_trace_keys then []
    else [MissingRequiredKeys] in
  let intent_check : result (list schema_error) :=
    match trace_get trace "intent" with
    | JNull => Ok []
    | x =>
        match in_valid_intents x with
        | Raise e => Raise e
        | Ok true => Ok []
        | Ok false => Ok [InvalidIntentValue]
        end
    end in
  match intent_check with
  | Raise e => Raise e
  | Ok errors1 =>
      let errors2 :=
        match trace_get trace "tools_called" with
        | JNull | JArr _ => []
        | _ => [ToolsCalledNotList]
        end in
      let errors3 :=
        match trace_get trace "evidence" with
        | JNull | JArr _ => []
        | _ => [EvidenceNotList]
        end in
      let errors4 :=
        match trace_get trace "policy_decision" with
        | JNull | JObj _ => []
        | _ => [PolicyDecisionNotDict]
        end in
      let errors5 :=
        match trace_get trace "final_message" with
        | JNull => [FinalMessageRequired]
        | JStr final_message0 =>
            if (PyStr.len (PyStr.strip final_message0) =? 0)%nat
            then [FinalMessageEmpty] else []
        | _ => [FinalMessageNotString]
        end in
      let errors :=
        (errors0 ++ errors1 ++ errors2 ++ errors3 ++ errors4 ++ errors5)%list in
      Ok ((List.length errors =? 0)%nat, errors)
  end.

(** The entries [evaluate_order_help] appends to [errors], after those of
    the schema check:
    - [Expected intent 'order_help', got '...'],
    - [Should have called <tool> tool],
    - [Policy decision should not be null for order help],
    - [Expected cancel_allowed=..., got ...],
    - [Blocked cancellation should offer at least 2 alternatives]. *)
Inductive eval_error : Type :=
| SchemaError (e : schema_error)
| UnexpectedIntent (got : json)
| ToolNotCalled (tool : string)
| PolicyDecisionNull
| CancelAllowedMismatch (expected : bool) (got : json)
| TooFewAlternatives.

Record EvaluationResult : Type := {
  test_name : string;
  passed : bool;
  score : Float64.float;
  details : dict;
  errors : list eval_error
}.

(** The float literals [0.1], [0.2] and [0.3] *)
Definition tenths (n : Z) : Float64.float := Float64.RN (inject_Z n / 10).

(** The pair of [errors] and [score] an evaluation carries along. *)
Definition tally : Type := (list eval_error * Float64.float)%type.

(** [errors.append(e); score -= p] *)
Definition deduct (e : eval_error) (p : Float64.float) (st : tally) : tally :=
  ((fst st ++ [e])%list, Float64.RN (snd st - p)).

(** [trace.get(key, default)] *)
Definition trace_get_or (trace : dict) (key : string) (default : json) : json :=
  match get key trace with
  | Some v => v
  | None => default
  end.

(** [v != b] is [not (v == b)] for a bool [b]: Python's [True] equals [1]
    and [1.0]. *)
Definition eq_bool (v : json) (b : bool) : bool :=
  match v with
  | JBool b' => Bool.eqb b' b
  | JInt z => (z =? (if b then 1 else 0))%Z
  | JFloat q => Qeq_bool q (if b then 1 else 0)
  | _ => false
  end.

(** [len(v)] *)
Definition py_len (v : json) : result Z :=
  match v with
  | JArr l => Ok (Z.of_nat (List.length l))
  | JStr s => Ok (Z.of_nat (PyStr.len s))
  | JObj d => Ok (Z.of_nat (List.length d))
  | _ => Raise TypeError
  end.

Definition evaluate_order_help `{PyStr.Unicode} (trace : dict)
    (expected_allowed : bool) : result EvaluationResult :=
  match validate_trace_schema trace with
  | Raise e => Raise e
  | Ok (schema_valid, schema_errors) =>
      let st : tally := (map SchemaError schema_errors, 1%Q) in
      let st : tally :=
        if negb schema_valid then (fst st, Float64.RN (snd st - tenths 3))
        else st in
      let st :=
        if negb (Py.eq_str "order_help" (trace_get trace "intent"))
        then deduct (UnexpectedIntent (trace_get trace "intent")) (tenths 2) st
        else st in
      let tools_called0 := trace_get_or trace "tools_called" (JArr []) in
      match Py.py_in "order_lookup" tools_called0 with
      | Raise e => Raise e
      | Ok has_lookup =>
          let st :=
            if negb has_lookup
            then deduct (ToolNotCalled "order_lookup") (tenths 2) st
            else st in
          match Py.py_in "order_cancel" tools_called0 with
          | Raise e => Raise e
          | Ok has_cancel =>
              let st :=
                if negb has_cancel
                then deduct (ToolNotCalled "order_cancel") (tenths 2) st
                else st in
              let policy_decision0 := trace_get trace "policy_decision" in
              match
                match policy_decision0 with
                | JNull => Ok (deduct PolicyDecisionNull (tenths 2) st)
                | _ =>
                    match PolicyGuard.dict_get policy_decision0
                            "cancel_allowed" with
                    | Raise e => Raise e
                    | Ok cancel_allowed =>
                        Ok (if negb (eq_bool cancel_allowed expected_allowed)
                            then deduct (CancelAllowedMismatch expected_allowed
                                           cancel_allowed) (tenths 2) st
                            else st)
                    end
                end
              with
              | Raise e => Raise e
              | Ok st =>
                  match
                    if negb expected_allowed then
                      match trace_get_or trace "final_message" (JStr "") with
                      | JStr final_message0 =>
                          let mentions word :=
                            if PyStr.contains word (PyStr.lower final_message0)
                            then 1%nat else 0%nat in
                          let alternatives_mentioned :=
                            (mentions "address" + mentions "credit"
                             + mentions "support")%nat in
                          Ok (if (alternatives_mentioned <? 2)%nat
                              then deduct TooFewAlternatives (tenths 1) st
                              else st)
                      | _ => Raise AttributeError
                      end
                    else Ok st
                  with
                  | Raise e => Raise e
                  | Ok st =>
                      match py_len tools_called0 with
                      | Raise e => Raise e
                      | Ok tools_called_count =>
                          Ok {| test_name :=
                                  "order_help_"
                                  ++ (if expected_allowed then "allowed"
                                      else "blocked");
                                passed := (List.length (fst st) =? 0)%nat;
                                score :=
                                  if Qle_bool (snd st) 0 then 0%Q else snd st;
                                details :=
                                  [("policy_decision", policy_decision0);
                                   ("expected_allowed", JBool expected_allowed);
                                   ("tools_called_count",
                                    JInt tools_called_count)];
                                errors := fst st |}
                      end
                  end
              end
          end
      end
  end.

End Eval.

(** ** The older copy under [agentic-commerce-system/] *)

(** The functions of [agentic-commerce-system/src/agent/] that differ from
    their successors above.  [nodes/policy_guard.py] exists in this copy
    only and is embedded in [PolicyGuard]. *)
Module Legacy.
Import PyStr Dict Py Tools.
Local Open Scope string_scope.

(** [tools/tools.py]: [product_search], with a mandatory price bound and
    the query always applied. *)
Definition product_search `{Unicode} (query : string) (price_max : Z)
    (tags0 : option (list string)) : IO.M (list product) :=
  (products <- IO.load_products ;;
   let results :=
     filter (fun p =>
       negb (price_max <? price p)%Z
       && contains (lower query) (lower (title p))
       && match tags0 with
          | Some ((_ :: _) as wanted) =>
              forallb (fun tag => mem_str tag (tags p)) wanted
          | _ => true
          end) products in
   IO.ret (firstn 2 (sorted (fun p => [price p]) results)))%io.

Section OrderCancel.
Variable fromisoformat : string -> iso_parse.

(** [tools/tools.py]: [order_cancel], without validation and without
    exception handlers: whatever the search of the file, the subscript
    [created_at], [replace], [fromisoformat] or the subtraction raises
    leaves the function. *)
Definition order_cancel (order_id0 : string) (simulated_now : option string)
    : IO.M json :=
  (orders <- IO.load_orders ;;
   elements <- IO.lift (py_iter orders) ;;
   order_to_cancel <- IO.lift (cancel_scan order_id0 elements) ;;
   match order_to_cancel with
   | None => IO.ret (error_dict ("Order " ++ order_id0 ++ " not found."))
   | Some order_to_cancel =>
       if negb (truthy order_to_cancel) then
         IO.ret (error_dict ("Order " ++ order_id0 ++ " not found."))
       else
       match subscript order_to_cancel "created_at" with
       | Raise e => IO.raise e
       | Ok (JStr created_at_str) =>
           match parse_timestamp fromisoformat created_at_str with
           | IsoValueError _ => IO.raise ValueError
           | IsoOk created =>
               now <- match simulated_now with
                      | Some (String c s as text) =>
                          match parse_timestamp fromisoformat text with
                          | IsoOk now => IO.ret now
                          | IsoValueError _ => IO.raise ValueError
                          end
                      | _ => IO.now_utc
                      end ;;
               match datetime_sub now created with
               | Raise e => IO.raise e
               | Ok us =>
                   let time_diff_minutes := minutes_of_us us in
                   if Float64.le_int time_diff_minutes 60 then
                     IO.ret (JObj [("success", JBool true);
                                   ("message",
                                    JStr ("Order " ++ order_id0
                                          ++ " has been successfully canceled."))])
                   else
                     IO.ret (JObj [("success", JBool false);
                                   ("reason",
                                    JStr "Cancellation failed: Order was placed more than 60 minutes ago.");
                                   ("minutes_since_order",
                                    JInt (Float64.trunc time_diff_minutes))])
               end
           end
       | Ok _ => IO.raise AttributeError
       end
   end)%io.
End OrderCancel.

(** [state.py]: no key but [messages] carries a reducer, so every write
    to [tools_called] and [evidence] replaces the value. *)
Definition apply_update (s : AgentState) (u : update) : AgentState :=
  {| messages :=
       match reduce_add (Some (messages s)) (u_messages u) with
       | Some l => l
       | None => messages s
       end;
     intent := reduce_last (intent s) (u_intent u);
     tools_called := reduce_last (tools_called s) (u_tools_called u);
     evidence := reduce_last (evidence s) (u_evidence u);
     policy_decision :=
       match u_policy_decision u with
       | Some d => d
       | None => policy_decision s
       end;
     final_message := reduce_last (final_message s) (u_final_message u) |}.

(** [graph.py]: [route_after_tools] looks at the intent. *)
Definition route_after_tools (state : AgentState) : string :=
  match intent state with
  | Some "order_help" => "policy_guard"
  | _ => "agent"
  end.

(** [nodes/router.py]: the chat model is asked for every question. *)
Definition classify (json_loads : string -> result json)
    (invoke_llm : string -> string) (question : string) : result string :=
  Router.llm_route json_loads invoke_llm question.

End Legacy.

(** ** Tool results as evidence *)

Module Evidence.
Import Dict Tools.
Local Open Scope string_scope.

(** A product record as the dict [json.load] produced. *)
Definition product_to_json (p : product) : json :=
  JObj [("title", JStr (title p)); ("price", JInt (price p));
        ("tags", JArr (map JStr (tags p)))].

(** An order file in the shape of the data model: a list of objects.  The
    members of an order are its id, its email and its creation time, and
    whatever else the file holds for it, but no verdict: none is called
    [success]. *)
Definition order_entry (v : json) : bool :=
  match v with
  | JObj d => negb (has "success" d)
  | _ => false
  end.

Definition order_file (w : World) : Prop :=
  forall store,
    orders_json w = Ok store ->
    exists records, store = JArr records /\ forallb order_entry records = true.

Section Results.
Context {U : PyStr.Unicode}.
Variable fromisoformat : string -> iso_parse.
Variable isoformat : datetime -> string.

(** The values the tools that answer with a list or a dict can return;
    [ToolNode] puts their JSON text into the evidence.  The answers of
    [size_recommender] and [eta] are plain sentences, passed on as they
    are. *)
Inductive structured_result : json -> Prop :=
| result_of_search query price_max tags w r :
    fst (product_search query price_max tags w) = Ok r ->
    structured_result (JArr (map product_to_json r))
| result_of_lookup order_id0 email0 w v :
    order_file w ->
    fst (order_lookup order_id0 email0 w) = Ok v ->
    structured_result v
| result_of_cancel order_id0 simulated_now w v :
    fst (order_cancel fromisoformat isoformat order_id0 simulated_now w)
    = Ok v ->
    structured_result v.
End Results.

(** The result of a cancellation the policy blocked. *)
Definition blocked_result (v : json) : Prop :=
  exists minutes, v = cancel_blocked minutes.

(** The result of a cancellation that went through. *)
Definition success_result (v : json) : Prop :=
  exists order_id0 canceled_at minutes,
    v = cancel_success order_id0 canceled_at minutes.

End Evidence.

(** ** Fixtures for running the scenarios *)

(** A stand-in for the Unicode database that knows the ASCII characters
    only.  On a text of ASCII characters it answers as Python does, and
    the scenarios hold no other text. *)
Module AsciiText.

Definition is_decimal (cp : string) : bool :=
  match cp with
  | String c EmptyString => PyStr.is_digit c
  | _ => false
  end.

Definition unicode : PyStr.Unicode :=
  {| PyStr.lower := PyStr.ascii_lower;
     PyStr.strip := PyStr.ascii_strip;
     PyStr.is_decimal := is_decimal;
     PyStr.lower_ascii := fun _ _ => eq_refl;
     PyStr.strip_ascii := fun _ _ => eq_refl;
     PyStr.is_decimal_ascii := fun _ _ => eq_refl |}.

End AsciiText.

(** A stand-in for [json.loads] that knows a few documents by heart,
    gives up on one that is nested too deep and on one that holds too long
    an integer, and rejects every other text. *)
Module SampleJson.
Import Tools.
Local Open Scope string_scope.

Definition dq : string := String (ascii_of_nat 34) EmptyString.

Definition quoted (s : string) : string := dq ++ s ++ dq.

(** [{"destination": "<name>"}] *)
Definition destination_doc (name : string) : string :=
  "{" ++ quoted "destination" ++ ": " ++ quoted name ++ "}".

(** [{"error": "Order not found."}] *)
Definition not_found_doc : string :=
  "{" ++ quoted "error" ++ ": " ++ quoted "Order not found." ++ "}".

(** ["success for no reason"], a JSON string *)
Definition sentence_doc : string := quoted "success for no reason".

(** The blocked cancellation of order A1002, 1405 minutes old. *)
Definition blocked_doc : string :=
  "{" ++ quoted "success" ++ ": false, " ++ quoted "reason" ++ ": "
  ++ quoted "Cancellation failed: Order was placed more than 60 minutes ago."
  ++ ", " ++ quoted "minutes_since_order" ++ ": 1405, " ++ quoted "policy"
  ++ ": "
  ++ quoted "Orders can only be canceled within 60 minutes of placement."
  ++ "}".

(** The successful cancellation of order A1003, 35 minutes old. *)
Definition success_doc : string :=
  "{" ++ quoted "success" ++ ": true, " ++ quoted "message" ++ ": "
  ++ quoted "Order A1003 has been successfully canceled." ++ ", "
  ++ quoted "canceled_at" ++ ": " ++ quoted "2025-09-07T12:30:00+00:00"
  ++ ", " ++ quoted "minutes_since_order" ++ ": 35.0}".

(** [{"destination": [[[ ... ]]]}], nested a thousand deep: more than
    [json.loads] descends into. *)
Fixpoint repeated (n : nat) (s : string) : string :=
  match n with
  | O => EmptyString
  | S k => s ++ repeated k s
  end.

Definition deep_doc : string :=
  "{" ++ quoted "destination" ++ ": " ++ repeated 1000 "["
  ++ repeated 1000 "]" ++ "}".

(** [{"destination": 111...1}] with 4301 digits: more than the 4300 that
    the conversion to [int] accepts. *)
Definition huge_doc : string :=
  "{" ++ quoted "destination" ++ ": " ++ repeated 4301 "1" ++ "}".

Definition documents : list (string * json) :=
  [ ("{}", JObj []);
    (destination_doc "order_help", JObj [("destination", JStr "order_help")]);
    (destination_doc "billing", JObj [("destination", JStr "billing")]);
    (not_found_doc, JObj [("error", JStr "Order not found.")]);
    (sentence_doc, JStr "success for no reason");
    (blocked_doc, cancel_blocked (1405 # 1));
    (success_doc, cancel_success "A1003" "2025-09-07T12:30:00+00:00" (35 # 1)) ].

Definition json_loads (s : string) : result json :=
  if String.eqb s deep_doc then Raise RecursionError
  else if String.eqb s huge_doc then Raise ValueError
  else match Dict.get s documents with
       | Some v => Ok v
       | None => Raise JSONDecodeError
       end.

End SampleJson.


(** A reader for the timestamp layout of the data files and the tests,
    [YYYY-MM-DDTHH:MM:SS] with an optional [+HH:MM] or [-HH:MM] offset.  It
    stands in for [datetime.fromisoformat] where a scenario is evaluated. *)
Module Iso8601.
Import PyStr.
Local Open Scope string_scope.
Local Open Scope Z_scope.

Fixpoint digits_value (acc : Z) (s : string) : option Z :=
  match s with
  | EmptyString => Some acc
  | String c r =>
      if is_digit c
      then digits_value (10 * acc + (Z.of_nat (nat_of_ascii c) - 48)) r
      else None
  end.

(** The number written at characters [i .. i+n-1]. *)
Definition field (s : string) (i n : nat) : option Z :=
  let t := substring i n s in
  if (String.length t =? n)%nat then digits_value 0 t else None.

Definition days_from_civil (y m d : Z) : Z :=
  let y := if m <=? 2 then y - 1 else y in
  let era := y / 400 in
  let yoe := y - era * 400 in
  let doy := (153 * (if 2 <? m then m - 3 else m + 9) + 2) / 5 + d - 1 in
  let doe := yoe * 365 + yoe / 4 - yoe / 100 + doy in
  era * 146097 + doe.

Definition parse_offset (s : string) : option (option Z) :=
  match s with
  | EmptyString => Some None
  | String sign r =>
      match field r 0 2, field r 3 2 with
      | Some h, Some m =>
          let us := (h * 60 + m) * 60 * 1000000 in
          if (String.eqb (substring 2 1 r) ":" && (String.length r =? 5)%nat)%bool
          then if Ascii.eqb sign "+" then Some (Some us)
               else if Ascii.eqb sign "-" then Some (Some (- us))
               else None
          else None
      | _, _ => None
      end
  end.

Definition fromisoformat (s : string) : iso_parse :=
  match field s 0 4, field s 5 2, field s 8 2,
        field s 11 2, field s 14 2, field s 17 2,
        parse_offset (substring 19 (String.length s - 19) s) with
  | Some y, Some mo, Some d, Some h, Some mi, Some sec, Some off =>
      if (String.eqb (substring 4 1 s) "-" && String.eqb (substring 7 1 s) "-"
          && String.eqb (substring 10 1 s) "T"
          && String.eqb (substring 13 1 s) ":"
          && String.eqb (substring 16 1 s) ":"
          && (1 <=? mo) && (mo <=? 12) && (1 <=? d) && (d <=? 31)
          && (h <=? 23) && (mi <=? 59) && (sec <=? 59))%bool
      then IsoOk {| wall_us :=
                      (((days_from_civil y mo d * 24 + h) * 60 + mi) * 60 + sec)
                      * 1000000;
                    utcoffset := off |}
      else IsoValueError ("Invalid isoformat string: " ++ s)
  | _, _, _, _, _, _, _ => IsoValueError ("Invalid isoformat string: " ++ s)
  end.

(** The orders the tests of [tests/test_policy.py] and the scenarios of
    the test runners cancel. *)
Definition orders : list json :=
  [ Tools.order_record "A1002" "alex@example.com" "2025-09-06T13:05:00Z";
    Tools.order_record "A1003" "mira@example.com" "2025-09-07T11:55:00Z" ].

Definition world : World :=
  {| orders_json := Ok (JArr orders); products_json := Ok [];
     clock_us := 0 |}.

End Iso8601.

(** A run of the order_help workflow in two tool rounds: the model first
    asks for the lookup of the order, then for its cancellation. *)
Module SampleRun.
Import Graph.
Local Open Scope string_scope.

(** A state as the policy guard finds it after a cancellation round. *)
Definition order_help_state (evidence0 : list string) : AgentState :=
  {| messages := [HumanMessage "Please cancel order A1002 for alex@example.com."];
     intent := Some "order_help";
     tools_called := Some (map (fun _ => "order_cancel") evidence0);
     evidence := Some (map Text evidence0);
     policy_decision := None;
     final_message := None |}.

Definition lookup_call : tool_call :=
  {| call_name := "order_lookup";
     call_args := [("order_id", JStr "A1002");
                   ("email", JStr "alex@example.com")];
     call_id := "call_1" |}.

Definition cancel_call : tool_call :=
  {| call_name := "order_cancel";
     call_args := [("order_id", JStr "A1002");
                   ("simulated_now", JStr "2025-09-07T12:30:00Z")];
     call_id := "call_2" |}.

(** The chat model of the agent: it answers a history that ends with the
    user's message by the lookup, and one that ends with a tool result by
    the cancellation. *)
Definition chain_invoke (_ : option string) (history : list message) : message :=
  match rev history with
  | HumanMessage _ :: _ => AIMessage "" [lookup_call]
  | _ => AIMessage "" [cancel_call]
  end.

Definition run_tool (call : tool_call) : content :=
  if String.eqb (call_name call) "order_cancel"
  then Text SampleJson.blocked_doc
  else Text SampleJson.not_found_doc.

Definition start : AgentState :=
  initial_state
    [HumanMessage "Please cancel order A1002 for alex@example.com. Assume the current time is 2025-09-07T12:30:00Z."].

Definition routed : AgentState :=
  apply_update start
    {| u_messages := None; u_intent := Some "order_help";
       u_tools_called := None; u_evidence := None;
       u_policy_decision := None; u_final_message := None |}.

Definition asked_lookup : AgentState :=
  apply_update routed (agent_node chain_invoke routed).

(** What the tool executor returns in the two rounds. *)
Definition lookup_update : update :=
  {| u_messages := Some [ToolMessage (Text SampleJson.not_found_doc) "call_1"];
     u_intent := None;
     u_tools_called := Some ["order_lookup"];
     u_evidence := Some [Text SampleJson.not_found_doc];
     u_policy_decision := None; u_final_message := None |}.

Definition cancel_update : update :=
  {| u_messages := Some [ToolMessage (Text SampleJson.blocked_doc) "call_2"];
     u_intent := None;
     u_tools_called := Some ["order_cancel"];
     u_evidence := Some [Text SampleJson.blocked_doc];
     u_policy_decision := None; u_final_message := None |}.

Definition looked_up : AgentState := apply_update asked_lookup lookup_update.

Definition asked_cancel : AgentState :=
  apply_update looked_up (agent_node chain_invoke looked_up).

Definition cancelled : AgentState := apply_update asked_cancel cancel_update.

End SampleRun.

(** The end of that run, and a run the router sends straight to the
    responder. *)
Module SampleFinish.
Import Graph.
Local Open Scope string_scope.

(** What the policy guard returns on the blocked cancellation. *)
Definition guard_update : update :=
  {| u_messages := None; u_intent := None; u_tools_called := None;
     u_evidence := None;
     u_policy_decision :=
       Some (Some (PolicyGuard.blocked_decision
                     (JStr "Cancellation failed: Order was placed more than 60 minutes ago.")));
     u_final_message := None |}.

Definition decided : AgentState := apply_update SampleRun.cancelled guard_update.

(** The chat model of the responder. *)
Definition respond (question : content) (evidence0 : string)
    (decision : option json) : string :=
  match decision with
  | Some _ => "This order can no longer be cancelled; we can change the address or offer store credit."
  | None => "I cannot help with that, but our newsletter has the current offers."
  end.

Definition finished : AgentState :=
  apply_update decided
    {| u_messages := None; u_intent := None; u_tools_called := None;
       u_evidence := None; u_policy_decision := None;
       u_final_message :=
         Some "This order can no longer be cancelled; we can change the address or offer store credit." |}.

Definition guardrail_start : AgentState :=
  initial_state [HumanMessage "Can you give me a discount code that doesn't exist?"].

Definition refused : AgentState :=
  apply_update guardrail_start
    {| u_messages := None; u_intent := Some "other";
       u_tools_called := None; u_evidence := None;
       u_policy_decision := None; u_final_message := None |}.

Definition answered : AgentState :=
  apply_update refused
    {| u_messages := None; u_intent := None; u_tools_called := None;
       u_evidence := None; u_policy_decision := None;
       u_final_message :=
         Some "I cannot help with that, but our newsletter has the current offers." |}.

End SampleFinish.

(** The allowed scenario of the evaluation: the model asks for the
    cancellation of order A1003 at once, and the tool grants it. *)
Module SampleAllowed.
Import Graph.
Local Open Scope string_scope.

Definition cancel_call : tool_call :=
  {| call_name := "order_cancel";
     call_args := [("order_id", JStr "A1003");
                   ("simulated_now", JStr "2025-09-07T12:30:00Z")];
     call_id := "call_1" |}.

Definition chain_invoke (_ : option string) (_ : list message) : message :=
  AIMessage "" [cancel_call].

Definition run_tool (_ : tool_call) : content := Text SampleJson.success_doc.

Definition start : AgentState :=
  initial_state
    [HumanMessage "Cancel order A1003 - email mira@example.com. Current time is 2025-09-07T12:30:00Z."].

Definition routed : AgentState :=
  apply_update start
    {| u_messages := None; u_intent := Some "order_help";
       u_tools_called := None; u_evidence := None;
       u_policy_decision := None; u_final_message := None |}.

Definition asked : AgentState :=
  apply_update routed (agent_node chain_invoke routed).

Definition cancelled : AgentState :=
  apply_update asked
    {| u_messages := Some [ToolMessage (Text SampleJson.success_doc) "call_1"];
       u_intent := None;
       u_tools_called := Some ["order_cancel"];
       u_evidence := Some [Text SampleJson.success_doc];
       u_policy_decision := None; u_final_message := None |}.

Definition decided : AgentState :=
  apply_update cancelled
    {| u_messages := None; u_intent := None; u_tools_called := None;
       u_evidence := None; u_policy_decision := Some None;
       u_final_message := None |}.

Definition finished : AgentState :=
  apply_update decided
    {| u_messages := None; u_intent := None; u_tools_called := None;
       u_evidence := None; u_policy_decision := None;
       u_final_message := Some "Order A1003 has been cancelled." |}.

End SampleAllowed.

(** A search that finds nothing: [product_search] returns the empty
    list, which [ToolNode] keeps as the content of its message. *)
Module SampleEmpty.
Import Graph.
Local Open Scope string_scope.

Definition search_call : tool_call :=
  {| call_name := "product_search";
     call_args := [("query", JStr "midi dress"); ("price_max", JInt 10)];
     call_id := "call_1" |}.

Definition chain_invoke (_ : option string) (history : list message) : message :=
  match rev history with
  | HumanMessage _ :: _ => AIMessage "" [search_call]
  | _ => AIMessage "There is no midi dress under 10 dollars." []
  end.

Definition run_tool (_ : tool_call) : content := Blocks [].

Definition start : AgentState :=
  initial_state [HumanMessage "Do you have a midi dress under 10 dollars?"].

Definition routed : AgentState :=
  apply_update start
    {| u_messages := None; u_intent := Some "product_assist";
       u_tools_called := None; u_evidence := None;
       u_policy_decision := None; u_final_message := None |}.

Definition asked : AgentState :=
  apply_update routed (agent_node chain_invoke routed).

Definition searched : AgentState :=
  apply_update asked
    {| u_messages := Some [ToolMessage (Blocks []) "call_1"];
       u_intent := None;
       u_tools_called := Some ["product_search"];
       u_evidence := Some [Blocks []];
       u_policy_decision := None; u_final_message := None |}.

Definition replied : AgentState :=
  apply_update searched (agent_node chain_invoke searched).

End SampleEmpty.


(** * Properties *)

(** ** Rounding to binary64 *)

Module Float64Facts.
Import Float64.
Local Open Scope Q_scope.

Lemma pow2_pos e : 0 < pow2 e.
Proof. apply Qpower_0_lt. reflexivity. Qed.

Lemma pow2_add a b : pow2 (a + b) == pow2 a * pow2 b.
Proof. apply Qpower_plus. discriminate. Qed.

Lemma pow2_inject k : (0 <= k)%Z -> pow2 k == inject_Z (2 ^ k).
Proof. intros Hk. unfold pow2. now rewrite Zpower_Qpower. Qed.

Lemma pow2_le a b : (a <= b)%Z -> pow2 a <= pow2 b.
Proof. intros H. apply Qpower_le_compat_l; [exact H | discriminate]. Qed.

Lemma pow2_lt_inv a b : pow2 a < pow2 b -> (a < b)%Z.
Proof. intros H. apply (Qpower_lt_compat_l_inv 2); [exact H | reflexivity]. Qed.

Lemma rint_floor_or_succ x : rint x = Qfloor x \/ rint x = (Qfloor x + 1)%Z.
Proof.
  unfold rint. destruct (Qcompare _ _); auto. destruct (Z.even _); auto.
Qed.

Lemma rint_ge z x : inject_Z z <= x -> (z <= rint x)%Z.
Proof.
  intros H. apply Qfloor_resp_le in H. rewrite Qfloor_Z in H.
  destruct (rint_floor_or_succ x) as [-> | ->]; lia.
Qed.

Lemma rint_Z z : rint (inject_Z z) = z.
Proof.
  unfold rint. rewrite Qfloor_Z.
  replace (Qcompare (inject_Z z - inject_Z z) (1 # 2)) with Lt; [reflexivity|].
  symmetry. apply -> Qlt_alt. lra.
Qed.

Lemma rint_comp x y : x == y -> rint x = rint y.
Proof.
  intros E. unfold rint.
  assert (F : Qfloor x = Qfloor y) by (apply Qfloor_comp; exact E).
  rewrite F.
  assert (C : Qcompare (x - inject_Z (Qfloor y)) (1 # 2)
              = Qcompare (y - inject_Z (Qfloor y)) (1 # 2)).
  { apply Qcompare_comp; [rewrite E|]; reflexivity. }
  now rewrite C.
Qed.

Lemma rint_le z x : x <= inject_Z z -> (rint x <= z)%Z.
Proof.
  intros H. destruct (Qlt_le_dec x (inject_Z z)) as [Hlt | Hge].
  - assert (Hf : (Qfloor x < z)%Z).
    { rewrite Zlt_Qlt. eapply Qle_lt_trans; [apply Qfloor_le | exact Hlt]. }
    destruct (rint_floor_or_succ x) as [-> | ->]; lia.
  - assert (E : x == inject_Z z) by (apply Qle_antisym; assumption).
    rewrite (rint_comp _ _ E), rint_Z. lia.
Qed.


Lemma Zlog2_bounds n : (0 < n)%Z -> (2 ^ Z.log2 n <= n < 2 ^ (Z.log2 n + 1))%Z.
Proof. intros H. pose proof (Z.log2_spec n H). unfold Z.succ in *. lia. Qed.

Lemma Qmake_le_cross (a c : Z) (b d : Z) :
  (0 < b)%Z -> (0 < d)%Z -> (a * d <= c * b)%Z -> inject_Z a / inject_Z b <= inject_Z c / inject_Z d.
Proof.
  intros Hb Hd H.
  apply Qle_shift_div_l; [rewrite <- (Zlt_Qlt 0); exact Hd|].
  unfold Qdiv. rewrite <- Qmult_assoc, (Qmult_comm (/ _)), Qmult_assoc.
  apply Qle_shift_div_r; [rewrite <- (Zlt_Qlt 0); exact Hb|].
  rewrite <- !inject_Z_mult, <- Zle_Qle. exact H.
Qed.

Lemma Qmake_lt_cross (a c : Z) (b d : Z) :
  (0 < b)%Z -> (0 < d)%Z -> (a * d < c * b)%Z -> inject_Z a / inject_Z b < inject_Z c / inject_Z d.
Proof.
  intros Hb Hd H.
  apply Qlt_shift_div_l; [rewrite <- (Zlt_Qlt 0); exact Hd|].
  unfold Qdiv. rewrite <- Qmult_assoc, (Qmult_comm (/ _)), Qmult_assoc.
  apply Qlt_shift_div_r; [rewrite <- (Zlt_Qlt 0); exact Hb|].
  rewrite <- !inject_Z_mult, <- Zlt_Qlt. exact H.
Qed.

Lemma pow2_sub_inject a b :
  (0 <= a)%Z -> (0 <= b)%Z -> pow2 (a - b) == inject_Z (2 ^ a) / inject_Z (2 ^ b).
Proof.
  intros Ha Hb. unfold Z.sub. rewrite pow2_add. unfold pow2 at 2.
  rewrite Qpower_opp. fold (pow2 b). rewrite !pow2_inject by assumption. reflexivity.
Qed.

Lemma ilog2_lower x : 0 < x -> pow2 (ilog2 x) <= x.
Proof.
  intros Hx. unfold ilog2.
  destruct (Qle_bool _ x) eqn:E; [now apply Qle_bool_iff|].
  destruct x as [n d]. cbn [Qnum Qden] in *.
  assert (Hn : (0 < n)%Z) by (unfold Qlt in Hx; cbn in Hx; lia).
  pose proof (Zlog2_bounds n Hn) as Bn.
  pose proof (Zlog2_bounds (Z.pos d) (Pos2Z.is_pos d)) as Bd.
  replace (Z.log2 n - Z.log2 (Z.pos d) - 1)%Z
    with (Z.log2 n - (Z.log2 (Z.pos d) + 1))%Z by ring.
  rewrite pow2_sub_inject, (Qmake_Qdiv n d);
    [| apply Z.log2_nonneg | pose proof (Z.log2_nonneg (Z.pos d)); lia].
  apply Qmake_le_cross; nia.
Qed.

Lemma ilog2_upper x : 0 < x -> x < pow2 (ilog2 x + 1).
Proof.
  intros Hx. unfold ilog2.
  destruct (Qle_bool _ x) eqn:E.
  - destruct x as [n d]. cbn [Qnum Qden] in *.
    assert (Hn : (0 < n)%Z) by (unfold Qlt in Hx; cbn in Hx; lia).
    pose proof (Zlog2_bounds n Hn) as Bn.
    pose proof (Zlog2_bounds (Z.pos d) (Pos2Z.is_pos d)) as Bd.
    replace (Z.log2 n - Z.log2 (Z.pos d) + 1)%Z
      with (Z.log2 n + 1 - Z.log2 (Z.pos d))%Z by ring.
    rewrite pow2_sub_inject, (Qmake_Qdiv n d);
      [| pose proof (Z.log2_nonneg n); lia | apply Z.log2_nonneg].
    apply Qmake_lt_cross; try lia.
    + apply Z.pow_pos_nonneg; [lia | apply Z.log2_nonneg].
    + nia.
  - replace (_ - 1 + 1)%Z with (Z.log2 (Qnum x) - Z.log2 (Z.pos (Qden x)))%Z by ring.
    apply Qnot_le_lt. intros H. apply Qle_bool_iff in H. congruence.
Qed.

Lemma representable_opp r : representable r -> representable (- r).
Proof.
  intros (m & e & Hr & Hm). exists (- m)%Z, e. split; [|lia].
  rewrite Hr, inject_Z_opp. ring.
Qed.

Lemma scaled_is_int m er e :
  (e <= er)%Z -> inject_Z m * pow2 er == inject_Z (m * 2 ^ (er - e)) * pow2 e.
Proof.
  intros H. rewrite inject_Z_mult, <- pow2_inject by lia.
  rewrite <- Qmult_assoc, <- pow2_add. now replace (er - e + e)%Z with er by ring.
Qed.

Lemma repr_pos_mantissa m e : 0 < inject_Z m * pow2 e -> (0 < m)%Z.
Proof.
  intros H. destruct (Z.ltb_spec 0 m) as [|Hm]; [assumption|exfalso].
  assert (inject_Z m <= 0) by (rewrite (Zle_Qle m 0) in Hm; exact Hm).
  pose proof (pow2_pos e).
  assert (inject_Z m * pow2 e <= 0 * pow2 e) by (apply Qmult_le_compat_r; lra).
  lra.
Qed.

Lemma repr_below_next m e : (m < 2 ^ prec)%Z -> inject_Z m * pow2 e < pow2 (prec + e).
Proof.
  intros H. rewrite pow2_add, (pow2_inject prec) by (unfold prec; lia).
  apply Qmult_lt_compat_r; [apply pow2_pos | now rewrite <- Zlt_Qlt].
Qed.

Lemma RN_pos_eq x :
  RN_pos x == inject_Z (rint (x / pow2 (ilog2 x - (prec - 1)))) * pow2 (ilog2 x - (prec - 1)).
Proof. unfold RN_pos. apply Qred_correct. Qed.

Lemma RN_pos_le x r : 0 < x -> x <= r -> representable r -> RN_pos x <= r.
Proof.
  intros Hx Hxr (m & er & Hr & Hm).
  rewrite RN_pos_eq. set (e := (ilog2 x - (prec - 1))%Z).
  pose proof (ilog2_lower x Hx) as Hlo.
  assert (Hmpos : (0 < m)%Z) by (apply (repr_pos_mantissa m er); lra).
  pose proof (repr_below_next m er ltac:(lia)) as Hnext.
  assert (He : (e <= er)%Z).
  { assert (pow2 (ilog2 x) < pow2 (prec + er)) by lra.
    apply pow2_lt_inv in H. unfold e. lia. }
  rewrite (scaled_is_int m er e He) in Hr.
  pose proof (pow2_pos e) as Hpe.
  rewrite Hr. apply Qmult_le_compat_r; [|lra].
  rewrite <- Zle_Qle. apply rint_le.
  apply Qle_shift_div_r; [exact Hpe | lra].
Qed.

Lemma RN_pos_ge x r : 0 < r -> r <= x -> representable r -> r <= RN_pos x.
Proof.
  intros Hr0 Hrx (m & er & Hr & Hm).
  assert (Hx : 0 < x) by lra.
  rewrite RN_pos_eq. set (e := (ilog2 x - (prec - 1))%Z).
  pose proof (ilog2_lower x Hx) as Hlo.
  pose proof (pow2_pos e) as Hpe.
  assert (Hmpos : (0 < m)%Z) by (apply (repr_pos_mantissa m er); lra).
  destruct (Z.leb_spec e er) as [He | He].
  - rewrite (scaled_is_int m er e He) in Hr.
    rewrite Hr. apply Qmult_le_compat_r; [|lra].
    rewrite <- Zle_Qle. apply rint_ge.
    apply Qle_shift_div_l; [exact Hpe | lra].
  - pose proof (repr_below_next m er ltac:(lia)) as Hnext.
    assert (Hbin : pow2 (prec + er) <= pow2 (prec - 1 + e)) by (apply pow2_le; lia).
    apply Qle_trans with (pow2 (prec - 1 + e)); [lra|].
    rewrite pow2_add, (pow2_inject (prec - 1)) by (unfold prec; lia).
    apply Qmult_le_compat_r; [|lra].
    rewrite <- Zle_Qle. apply rint_ge.
    apply Qle_shift_div_l; [exact Hpe|].
    rewrite <- pow2_inject, <- pow2_add by (unfold prec; lia).
    now replace (prec - 1 + e)%Z with (ilog2 x) by (unfold e; ring).
Qed.

Lemma RN_pos_nonneg x : 0 < x -> 0 <= RN_pos x.
Proof.
  intros Hx. rewrite RN_pos_eq.
  apply Qmult_le_0_compat; [|apply Qlt_le_weak, pow2_pos].
  rewrite <- (Zle_Qle 0). apply rint_ge.
  apply Qle_shift_div_l; [apply pow2_pos | rewrite Qmult_0_l; lra].
Qed.

Lemma RN_cases x :
  (x == 0 /\ RN x = 0) \/ (0 < x /\ RN x = RN_pos x) \/ (x < 0 /\ RN x == - RN_pos (- x)).
Proof.
  unfold RN. destruct x as [[|p|p] d]; cbn [Qnum].
  - left. split; reflexivity.
  - right; left. split; reflexivity.
  - right; right. split; [reflexivity | apply Qred_correct].
Qed.

Lemma RN_le x r : representable r -> x <= r -> RN x <= r.
Proof.
  intros Hrep Hxr.
  destruct (RN_cases x) as [(Hx & ->) | [(Hx & ->) | (Hx & ->)]].
  - lra.
  - now apply RN_pos_le.
  - assert (Hp : 0 < - x) by lra. pose proof (RN_pos_nonneg _ Hp).
    destruct (Qlt_le_dec r 0) as [Hr | Hr]; [|lra].
    assert (- r <= RN_pos (- x)); [|lra].
    apply RN_pos_ge; [lra | lra | now apply representable_opp].
Qed.

Lemma RN_ge x r : representable r -> r <= x -> r <= RN x.
Proof.
  intros Hrep Hrx.
  destruct (RN_cases x) as [(Hx & ->) | [(Hx & ->) | (Hx & ->)]].
  - lra.
  - destruct (Qlt_le_dec 0 r) as [Hr | Hr].
    + now apply RN_pos_ge.
    + pose proof (RN_pos_nonneg _ Hx). lra.
  - assert (Hp : 0 < - x) by lra.
    assert (RN_pos (- x) <= - r); [|lra].
    apply RN_pos_le; [lra | lra | now apply representable_opp].
Qed.

Lemma representable_Z z : (Z.abs z < 2 ^ prec)%Z -> representable (inject_Z z).
Proof. intros H. exists z, 0%Z. split; [unfold pow2; cbn; ring | exact H]. Qed.

Lemma RN_fix r : representable r -> RN r == r.
Proof. intros H. apply Qle_antisym; [apply RN_le | apply RN_ge]; auto; lra. Qed.

End Float64Facts.

(** ** The 60-minute comparison of order_cancel *)

Module CancelFacts.
Import Float64 Float64Facts Tools Dict PyStr Py.
Local Open Scope Q_scope.

Lemma representable_60 : representable (inject_Z 60).
Proof. apply representable_Z. unfold prec. lia. Qed.

Lemma representable_3600 : representable (inject_Z 3600).
Proof. apply representable_Z. unfold prec. lia. Qed.

(** [3600 + 2^-20] and [60 + 2^-26]: floats just above the two bounds. *)
Lemma representable_above_3600 : representable (3774873601 # 1048576).
Proof.
  exists 3774873601%Z, (-20)%Z. split; [reflexivity | unfold prec; lia].
Qed.

Lemma representable_above_60 : representable (4026531841 # 67108864).
Proof.
  exists 4026531841%Z, (-26)%Z. split; [reflexivity | unfold prec; lia].
Qed.

Lemma of_int_60 : of_int 60 = 60.
Proof. vm_compute. reflexivity. Qed.

Lemma us_to_seconds (us : Z) : inject_Z us / inject_Z 1000000 == us # 1000000.
Proof. symmetry. apply (Qmake_Qdiv us 1000000). Qed.

(** Within the window the computed minutes are at most 60. *)
Lemma minutes_within (us : Z) :
  (us <= 3600000000)%Z -> minutes_of_us us <= 60.
Proof.
  intros H. unfold minutes_of_us, div, int_truediv. rewrite of_int_60.
  apply (RN_le _ (inject_Z 60) representable_60).
  apply Qle_shift_div_r; [reflexivity|].
  apply (RN_le _ (inject_Z 3600) representable_3600).
  rewrite us_to_seconds. unfold Qle. cbn. lia.
Qed.

(** One microsecond past the window the computed minutes exceed 60. *)
Lemma minutes_beyond (us : Z) :
  (3600000000 < us)%Z -> 60 < minutes_of_us us.
Proof.
  intros H. unfold minutes_of_us, div, int_truediv. rewrite of_int_60.
  apply Qlt_le_trans with (4026531841 # 67108864); [reflexivity|].
  apply (RN_ge _ _ representable_above_60).
  apply Qle_shift_div_l; [reflexivity|].
  apply Qle_trans with (3774873601 # 1048576); [unfold Qle; cbn; lia|].
  apply (RN_ge _ _ representable_above_3600).
  rewrite us_to_seconds. unfold Qle. cbn. lia.
Qed.

(** [time_diff_minutes <= 60] decides exactly whether at most 3600 seconds
    have passed. *)
Lemma minutes_boundary (us : Z) :
  le_int (minutes_of_us us) 60 = (us <=? 3600000000)%Z.
Proof.
  unfold le_int. destruct (Z.leb_spec us 3600000000) as [H | H].
  - apply Qle_bool_iff. now apply minutes_within.
  - destruct (Qle_bool _ _) eqn:E; [|reflexivity].
    apply Qle_bool_iff in E. apply minutes_beyond in H.
    change (inject_Z 60) with 60 in E. lra.
Qed.

(** The order [cancel_scan] finds is an object whose [order_id] is the
    id asked for. *)
Lemma cancel_scan_found order_id0 elements o :
  cancel_scan order_id0 elements = Ok (Some o) ->
  In o elements
  /\ exists d, o = JObj d /\ get "order_id" d = Some (JStr order_id0).
Proof.
  induction elements as [|x rest IH]; cbn; [discriminate|].
  destruct (subscript x "order_id") as [id|e] eqn:Hsub; [|discriminate].
  destruct (eq_str order_id0 id) eqn:Heq.
  - intros [= <-]. split; [now left|].
    destruct x as [| | | | | |d]; try discriminate Hsub.
    exists d. split; [reflexivity|]. cbn in Hsub.
    destruct (get "order_id" d) as [v|]; [|discriminate Hsub].
    injection Hsub as ->. destruct id; try discriminate Heq.
    cbn in Heq. apply String.eqb_eq in Heq. now subst.
  - intros H. destruct (IH H) as [Hin Hd]. split; [now right | exact Hd].
Qed.

Lemma stored_order_found order_id0 w o :
  stored_order order_id0 w = Some o ->
  exists store elements,
    orders_json w = Ok store /\ py_iter store = Ok elements
    /\ cancel_scan order_id0 elements = Ok (Some o)
    /\ truthy o = true.
Proof.
  unfold stored_order.
  destruct (orders_json w) as [store|]; [|discriminate].
  destruct (py_iter store) as [elements|] eqn:Hiter; [|discriminate].
  destruct (cancel_scan order_id0 elements) as [found|] eqn:Hscan;
    [|discriminate].
  intros ->. exists store, elements.
  split; [reflexivity|]. split; [exact Hiter|]. split; [exact Hscan|].
  destruct (cancel_scan_found _ _ _ Hscan) as (_ & d & -> & Hd).
  destruct d; [discriminate Hd | reflexivity].
Qed.

Lemma created_of_found fromisoformat o created :
  created_of fromisoformat o = Some created ->
  exists created_at_str,
    subscript o "created_at" = Ok (JStr created_at_str)
    /\ parse_timestamp fromisoformat created_at_str = IsoOk created.
Proof.
  unfold created_of.
  destruct (subscript o "created_at") as [[| | | |s| |]|]; try discriminate.
  destruct (parse_timestamp fromisoformat s) eqn:E; [|discriminate].
  intros [= <-]. eauto.
Qed.

Section Found.
Context {U : Unicode}.
Variable fromisoformat : string -> iso_parse.
Variable isoformat : datetime -> string.
Variables (w : World) (o : json).
Variables (order_id0 text : string) (created now : datetime) (us : Z).

Hypothesis valid_id : validate_order_id order_id0 = true.
Hypothesis found : stored_order order_id0 w = Some o.
Hypothesis created_parsed : created_of fromisoformat o = Some created.
Hypothesis now_supplied : text <> EmptyString.
Hypothesis now_parsed : parse_timestamp fromisoformat text = IsoOk now.
Hypothesis elapsed : datetime_sub now created = Ok us.

(** The two results of a call that reaches the comparison. *)
Lemma order_cancel_found :
  order_cancel fromisoformat isoformat order_id0 (Some text) w
  = (Ok (if (us <=? 3600000000)%Z
         then cancel_success order_id0 (isoformat now) (minutes_of_us us)
         else cancel_blocked (minutes_of_us us)), w).
Proof.
  destruct (stored_order_found _ _ _ found)
    as (store & elements & Hstore & Hiter & Hscan & Htruthy).
  destruct (created_of_found _ _ _ created_parsed) as (s & Hsub & Hparse).
  unfold order_cancel. rewrite valid_id. cbn [negb].
  unfold IO.bind, IO.except_load, IO.load_orders, IO.lift.
  rewrite Hstore, Hiter, Hscan, Htruthy. cbn [negb]. rewrite Hsub, Hparse.
  destruct text as [|c t]; [congruence|].
  rewrite now_parsed, elapsed, minutes_boundary.
  destruct (us <=? 3600000000)%Z; reflexivity.
Qed.
End Found.

End CancelFacts.

(** ** Texts of ASCII characters *)

Module AsciiFacts.
Import PyStr.
Local Open Scope string_scope.

Lemma is_ascii_not_cont c : is_ascii c = true -> is_cont c = false.
Proof.
  unfold is_ascii, is_cont. intros H. apply Nat.ltb_lt in H.
  destruct (Nat.leb_spec 128 (nat_of_ascii c)); [lia | reflexivity].
Qed.

Lemma ascii_starts_cont s : all_chars is_ascii s = true -> starts_cont s = false.
Proof.
  destruct s as [|c r]; [reflexivity|]. cbn. intros H.
  apply andb_prop in H as [H _]. now apply is_ascii_not_cont.
Qed.

Lemma split_cp_single c r :
  starts_cont r = false -> split_cp (String c r) = Some (String c "", r).
Proof.
  unfold split_cp, take_conts. destruct r as [|c' r']; [reflexivity|].
  cbn. now intros ->.
Qed.

(** On a text of ASCII characters [\d{n}] consumes what it consumes with
    the ASCII digits. *)
Lemma eat_decimals_ascii {U : Unicode} n s :
  all_chars is_ascii s = true ->
  eat_decimals n s = @eat_decimals AsciiText.unicode n s.
Proof.
  revert s. induction n as [|n IH]; intros s Hs; [reflexivity|].
  destruct s as [|c r]; [reflexivity|].
  cbn [all_chars] in Hs. apply andb_prop in Hs as [Hc Hr].
  cbn [eat_decimals].
  rewrite (split_cp_single c r (ascii_starts_cont r Hr)).
  rewrite (is_decimal_ascii c Hc).
  rewrite (@is_decimal_ascii AsciiText.unicode c Hc).
  destruct (is_digit c); [now apply IH | reflexivity].
Qed.

Lemma digit_is_ascii c : is_digit c = true -> is_ascii c = true.
Proof.
  intros Hc. unfold is_digit, is_ascii in *.
  apply andb_prop in Hc as [_ Hc]. apply Nat.leb_le in Hc.
  apply Nat.ltb_lt. lia.
Qed.

Lemma digit_not_cont c : is_digit c = true -> is_cont c = false.
Proof. intros Hc. now apply is_ascii_not_cont, digit_is_ascii. Qed.

Lemma eat_decimals_digit {U : Unicode} n c r :
  is_digit c = true -> starts_cont r = false ->
  eat_decimals (S n) (String c r) = eat_decimals n r.
Proof.
  intros Hc Hr. cbn [eat_decimals]. rewrite (split_cp_single c r Hr).
  rewrite (is_decimal_ascii c (digit_is_ascii c Hc)), Hc. reflexivity.
Qed.

Lemma all_chars_append p a b :
  all_chars p (a ++ b) = all_chars p a && all_chars p b.
Proof.
  induction a as [|c a IH]; cbn; [reflexivity|].
  now rewrite IH, andb_assoc.
Qed.

End AsciiFacts.

(** ** order_cancel *)

Import Tools Dict PyStr Py.
Local Open Scope string_scope.

Lemma validate_order_id_ascii {U : Unicode} s :
  all_chars is_ascii s = true ->
  validate_order_id s = @validate_order_id AsciiText.unicode s.
Proof.
  destruct s as [|a r]; [reflexivity|]. cbn [all_chars]. intros H.
  apply andb_prop in H as [_ Hr]. unfold validate_order_id.
  now rewrite (AsciiFacts.eat_decimals_ascii 4 r Hr).
Qed.

Ltac split_cases :=
  repeat match goal with
         | |- context [match ?x with _ => _ end] => destruct x
         | |- context [if ?x then _ else _] => destruct x
         end.

(** Every branch of [order_cancel] leaves the world as it found it. *)
Lemma order_cancel_reads_only {U : Unicode}
    fromisoformat isoformat order_id0 simulated_now w :
  snd (order_cancel fromisoformat isoformat order_id0 simulated_now w) = w.
Proof.
  unfold order_cancel, IO.bind, IO.except_load, IO.load_orders, IO.now_utc,
    IO.ret, IO.raise, IO.lift.
  destruct (validate_order_id order_id0); cbn [negb]; [|reflexivity].
  destruct (orders_json w) as [orders|e]; [|destruct e; reflexivity].
  destruct (py_iter orders) as [elements|]; [|reflexivity].
  destruct (cancel_scan order_id0 elements) as [[o|]|]; try reflexivity.
  destruct (negb (truthy o)); [reflexivity|].
  destruct (subscript o "created_at") as [[| | | |s| |]|e];
    try reflexivity; [|destruct e; reflexivity].
  destruct (parse_timestamp _ s); [|reflexivity].
  destruct simulated_now as [[|c t]|]; split_cases; reflexivity.
Qed.

(** The result of a call with a supplied reference time is a function of
    the order file alone: the clock is not consulted. *)
Lemma order_cancel_supplied_now {U : Unicode}
    fromisoformat isoformat order_id0 text w w' :
  text <> EmptyString ->
  orders_json w' = orders_json w ->
  fst (order_cancel fromisoformat isoformat order_id0 (Some text) w')
  = fst (order_cancel fromisoformat isoformat order_id0 (Some text) w).
Proof.
  intros Htext Hstore.
  unfold order_cancel, IO.bind, IO.except_load, IO.load_orders, IO.ret,
    IO.raise, IO.lift.
  destruct (validate_order_id order_id0); cbn [negb]; [|reflexivity].
  rewrite Hstore.
  destruct (orders_json w) as [orders|e]; [|destruct e; reflexivity].
  destruct (py_iter orders) as [elements|]; [|reflexivity].
  destruct (cancel_scan order_id0 elements) as [[o|]|]; try reflexivity.
  destruct (negb (truthy o)); [reflexivity|].
  destruct (subscript o "created_at") as [[| | | |s| |]|e];
    try reflexivity; [|destruct e; reflexivity].
  destruct (parse_timestamp _ s); [|reflexivity].
  destruct text as [|c t]; [congruence|].
  split_cases; reflexivity.
Qed.

(** C1.  For an order found in the store whose creation time parses, and a
    supplied reference time that parses, [order_cancel] answers with
    [success: True] exactly when at most 60 minutes (3 600 000 000
    microseconds, the bound included) lie between the two; beyond that the
    answer has [success: False] and a reason that contains "60 minutes". *)
Theorem order_cancel_sixty_minute_boundary {U : Unicode}
    fromisoformat isoformat w o order_id0 text created now us :
  validate_order_id order_id0 = true ->
  stored_order order_id0 w = Some o ->
  created_of fromisoformat o = Some created ->
  text <> EmptyString ->
  parse_timestamp fromisoformat text = IsoOk now ->
  datetime_sub now created = Ok us ->
  let r := fst (order_cancel fromisoformat isoformat order_id0 (Some text) w) in
  ((us <= 3600000000)%Z <->
   exists d, r = Ok (JObj d) /\ get "success" d = Some (JBool true))
  /\ ((3600000000 < us)%Z ->
      exists d reason,
        r = Ok (JObj d) /\ get "success" d = Some (JBool false)
        /\ get "reason" d = Some (JStr reason)
        /\ contains "60 minutes" reason = true).
Proof.
  intros Hid Hfind Hcreated Htext Hnow Hsub r. subst r.
  rewrite (CancelFacts.order_cancel_found fromisoformat isoformat w o
             order_id0 text created now us) by assumption.
  cbn [fst]. destruct (Z.leb_spec us 3600000000) as [Hle | Hgt].
  - split.
    + split; [intros _ | intros _; exact Hle].
      eexists. split; reflexivity.
    + lia.
  - split.
    + split; [lia|]. intros (d & Hd & Hs). exfalso.
      injection Hd as <-. discriminate Hs.
    + intros _. do 2 eexists. repeat split; reflexivity.
Qed.

(** The boundary of C1 on order A1003 of the tests, created 11:55:00 and
    cancelled at 12:55:00, sixty minutes later to the second. *)
Lemma order_cancel_sixty_minute_boundary_witness :
  let r := fst (@order_cancel AsciiText.unicode Iso8601.fromisoformat
                  (fun _ => "12:55:00")
                  "A1003" (Some "2025-09-07T12:55:00Z") Iso8601.world) in
  ((3600000000 <= 3600000000)%Z <->
   exists d, r = Ok (JObj d) /\ get "success" d = Some (JBool true))
  /\ ((3600000000 < 3600000000)%Z ->
      exists d reason,
        r = Ok (JObj d) /\ get "success" d = Some (JBool false)
        /\ get "reason" d = Some (JStr reason)
        /\ contains "60 minutes" reason = true).
Proof.
  apply (@order_cancel_sixty_minute_boundary AsciiText.unicode
           Iso8601.fromisoformat (fun _ => "12:55:00") Iso8601.world
           (order_record "A1003" "mira@example.com" "2025-09-07T11:55:00Z")
           "A1003" "2025-09-07T12:55:00Z"
           {| wall_us := 63919281300000000; utcoffset := Some 0%Z |}
           {| wall_us := 63919284900000000; utcoffset := Some 0%Z |}
           3600000000);
    try (vm_compute; reflexivity).
  discriminate.
Defined.

(** The three timestamps of the boundary tests of [tests/test_policy.py]. *)
Example cancel_at_59m59s :
  exists d, fst (@order_cancel AsciiText.unicode Iso8601.fromisoformat
                   (fun _ => "")
                   "A1003" (Some "2025-09-07T12:54:59Z") Iso8601.world)
            = Ok (JObj d) /\ get "success" d = Some (JBool true).
Proof. eexists. split; vm_compute; reflexivity. Qed.

Example cancel_at_60m01s :
  exists d, fst (@order_cancel AsciiText.unicode Iso8601.fromisoformat
                   (fun _ => "")
                   "A1003" (Some "2025-09-07T12:55:01Z") Iso8601.world)
            = Ok (JObj d) /\ get "success" d = Some (JBool false).
Proof. eexists. split; vm_compute; reflexivity. Qed.

(** The three shapes of dict [order_cancel] returns. *)
Lemma order_cancel_results {U : Unicode}
    fromisoformat isoformat order_id0 simulated_now w v :
  fst (order_cancel fromisoformat isoformat order_id0 simulated_now w) = Ok v ->
  (exists msg, v = failure_dict msg)
  \/ (exists now us,
         elapsed_at_call fromisoformat order_id0 simulated_now w = Some (now, us)
         /\ (us <= 3600000000)%Z
         /\ v = cancel_success order_id0 (isoformat now) (minutes_of_us us))
  \/ (exists now us,
         elapsed_at_call fromisoformat order_id0 simulated_now w = Some (now, us)
         /\ (3600000000 < us)%Z /\ v = cancel_blocked (minutes_of_us us)).
Proof.
  unfold order_cancel, elapsed_at_call, stored_order, created_of,
    reference_now, IO.bind, IO.except_load, IO.load_orders, IO.now_utc,
    IO.lift.
  destruct (validate_order_id order_id0); cbn [negb];
    [|cbn; intros [= <-]; left; eauto].
  destruct (orders_json w) as [orders|e];
    [|destruct e; cbn; intros [= <-]; left; eauto].
  destruct (py_iter orders) as [elements|]; [|discriminate].
  destruct (cancel_scan order_id0 elements) as [[o|]|];
    [|cbn; intros [= <-]; left; eauto|discriminate].
  destruct (negb (truthy o)); [cbn; intros [= <-]; left; eauto|].
  destruct (subscript o "created_at") as [[| | | |s| |]|e];
    try discriminate;
    [|destruct e; try discriminate; cbn; intros [= <-]; left; eauto].
  destruct (parse_timestamp _ s) as [created|e];
    [|cbn; intros [= <-]; left; eauto].
  assert (Hdecide : forall now w0,
    fst (match datetime_sub now created with
         | Raise e => IO.raise e
         | Ok us =>
             if Float64.le_int (minutes_of_us us) 60
             then IO.ret (cancel_success order_id0 (isoformat now)
                                         (minutes_of_us us))
             else IO.ret (cancel_blocked (minutes_of_us us))
         end w0) = Ok v ->
    (exists msg, v = failure_dict msg)
    \/ (exists now' us,
           match datetime_sub now created with
           | Ok us => Some (now, us)
           | Raise _ => None
           end = Some (now', us)
           /\ (us <= 3600000000)%Z
           /\ v = cancel_success order_id0 (isoformat now') (minutes_of_us us))
    \/ (exists now' us,
           match datetime_sub now created with
           | Ok us => Some (now, us)
           | Raise _ => None
           end = Some (now', us)
           /\ (3600000000 < us)%Z /\ v = cancel_blocked (minutes_of_us us))).
  { intros now w0. destruct (datetime_sub now created) as [us|e];
      [|discriminate].
    rewrite CancelFacts.minutes_boundary.
    destruct (Z.leb_spec us 3600000000) as [Hle | Hgt];
      cbn; intros [= <-]; [right; left | right; right]; eauto. }
  destruct simulated_now as [[|c t]|]; try apply Hdecide.
  destruct (parse_timestamp _ _) as [now|e]; [apply Hdecide|].
  cbn; intros [= <-]; left; eauto.
Qed.


(** [round(x, 1)] on 3, 9 and 15 seconds: 0.05 as a float lies above the
    decimal and goes up to 0.1, 0.15 lies below it and goes down to 0.1,
    0.25 is exact and the tie goes to the even digit, 0.2. *)
Example round1_on_seconds :
  map (fun us => Float64.round1 (minutes_of_us us)) [3000000; 9000000; 15000000]%Z
  = [Float64.RN (1 # 10); Float64.RN (1 # 10); Float64.RN (2 # 10)].
Proof. vm_compute. reflexivity. Qed.




(** The two roundings on the scenarios of the test runner: 35.0 minutes on
    the allowed path, 1405 on the blocked one. *)
Example allowed_scenario_minutes :
  fst (@order_cancel AsciiText.unicode Iso8601.fromisoformat
         (fun _ => "2025-09-07T12:30:00+00:00")
         "A1003" (Some "2025-09-07T12:30:00Z") Iso8601.world)
  = Ok (cancel_success "A1003" "2025-09-07T12:30:00+00:00" 35).
Proof. vm_compute. reflexivity. Qed.

Example blocked_scenario_minutes :
  match fst (@order_cancel AsciiText.unicode Iso8601.fromisoformat
               (fun _ => "")
               "A1002" (Some "2025-09-07T12:30:00Z") Iso8601.world) with
  | Ok (JObj d) => get "minutes_since_order" d
  | _ => None
  end = Some (JInt 1405).
Proof. vm_compute. reflexivity. Qed.

(** C7.  With a supplied reference time, a call of [order_cancel] leaves
    the world, and so the order store, as it was, and a second call with the
    same arguments over that store gives the same result, whatever the
    clock shows by then. *)
Theorem order_cancel_idempotent {U : Unicode}
    fromisoformat isoformat order_id0 text w clock' :
  text <> EmptyString ->
  let first := order_cancel fromisoformat isoformat order_id0 (Some text) w in
  let later :=
    {| orders_json := orders_json (snd first);
       products_json := products_json (snd first);
       clock_us := clock' |} in
  let second :=
    order_cancel fromisoformat isoformat order_id0 (Some text) later in
  snd first = w
  /\ fst second = fst first
  /\ orders_json (snd second) = orders_json w.
Proof.
  intros Htext first later second.
  assert (H1 : snd first = w) by apply order_cancel_reads_only.
  split; [exact H1|]. split.
  - apply order_cancel_supplied_now; [exact Htext|].
    unfold later. cbn. now rewrite H1.
  - unfold second. rewrite order_cancel_reads_only. unfold later. cbn.
    now rewrite H1.
Qed.

(** C7 on the allowed scenario, repeated an hour of clock time later. *)
Lemma order_cancel_idempotent_witness :
  let first :=
    @order_cancel AsciiText.unicode Iso8601.fromisoformat
      (fun _ => "2025-09-07T12:30:00+00:00")
      "A1003" (Some "2025-09-07T12:30:00Z") Iso8601.world in
  let later :=
    {| orders_json := orders_json (snd first);
       products_json := products_json (snd first);
       clock_us := 3600000000 |} in
  let second :=
    @order_cancel AsciiText.unicode Iso8601.fromisoformat
      (fun _ => "2025-09-07T12:30:00+00:00")
      "A1003" (Some "2025-09-07T12:30:00Z") later in
  snd first = Iso8601.world
  /\ fst second = fst first
  /\ orders_json (snd second) = orders_json Iso8601.world.
Proof.
  apply (@order_cancel_idempotent AsciiText.unicode
           Iso8601.fromisoformat (fun _ => "2025-09-07T12:30:00+00:00")
           "A1003" "2025-09-07T12:30:00Z" Iso8601.world 3600000000).
  discriminate.
Defined.

(** Without a supplied reference time the verdict follows the clock. *)
Example order_cancel_follows_clock :
  let w0 := {| orders_json := Ok (JArr Iso8601.orders);
               products_json := Raise FileNotFoundError;
               clock_us := 63919281300000000 |} in
  let w1 := {| orders_json := Ok (JArr Iso8601.orders);
               products_json := Raise FileNotFoundError;
               clock_us := 63919284900000001 |} in
  fst (@order_cancel AsciiText.unicode Iso8601.fromisoformat (fun _ => "")
         "A1003" None w0)
  <> fst (@order_cancel AsciiText.unicode Iso8601.fromisoformat (fun _ => "")
            "A1003" None w1).
Proof. vm_compute. discriminate. Qed.

(** *** Order id validation *)

(** An id the validation refuses is answered with the format error, before
    the store is opened and without raising. *)
Lemma order_cancel_rejects_invalid {U : Unicode}
    fromisoformat isoformat order_id0 simulated_now w :
  validate_order_id order_id0 = false ->
  order_cancel fromisoformat isoformat order_id0 simulated_now w
  = (Ok (failure_dict ("Invalid order ID format: " ++ order_id0
                       ++ ". Order IDs should be in format A1234.")), w).
Proof. intros H. unfold order_cancel. now rewrite H. Qed.

(** What [^A\d{4}$] accepts at the least: the format, and the format
    followed by one newline. *)
Lemma validate_order_id_accepts {U : Unicode} (t : string) :
  order_id_format t = true ->
  validate_order_id t = true /\ validate_order_id (t ++ newline) = true.
Proof.
  intros Ht.
  destruct t as [|a [|d1 [|d2 [|d3 [|d4 [|]]]]]]; try discriminate.
  cbn in Ht.
  repeat match type of Ht with
         | (_ && _)%bool = true => apply andb_prop in Ht as [Ht ?]
         end.
  pose proof AsciiFacts.digit_not_cont as Hnc.
  cbn [append]. unfold validate_order_id. rewrite Ht. cbn [andb].
  split.
  - rewrite !AsciiFacts.eat_decimals_digit
      by (assumption || (cbn [starts_cont]; auto)).
    reflexivity.
  - rewrite !AsciiFacts.eat_decimals_digit
      by (assumption || (cbn [starts_cont]; auto)).
    reflexivity.
Qed.

(** The tests of [tests/test_policy.py] on the validation. *)
Example validate_order_id_tests {U : Unicode} :
  map validate_order_id
      ["A1001"; "A9999"; "B1001"; "A100"; "A10001"; "A100A"; ""; "1001"]
  = [true; true; false; false; false; false; false; false].
Proof.
  cbn [map]. rewrite !(@validate_order_id_ascii U) by reflexivity. reflexivity.
Qed.

(** C6, at the input where the code departs from it: ["A1234\n"] is not an
    A followed by exactly four digits, yet the validation accepts it, and
    [order_cancel] goes on to search the store and answers "not found"
    instead of the format error. *)
Theorem order_cancel_trailing_newline {U : Unicode} :
  let order_id0 := "A1234" ++ newline in
  order_id_format order_id0 = false
  /\ validate_order_id order_id0 = true
  /\ fst (order_cancel Iso8601.fromisoformat (fun _ => "") order_id0
            (Some "2025-09-07T12:00:00Z") Iso8601.world)
     = Ok (failure_dict ("Order " ++ order_id0 ++ " not found in the system."))
  /\ fst (order_cancel Iso8601.fromisoformat (fun _ => "") order_id0
            (Some "2025-09-07T12:00:00Z") Iso8601.world)
     <> Ok (failure_dict ("Invalid order ID format: " ++ order_id0
                          ++ ". Order IDs should be in format A1234.")).
Proof.
  intros order_id0.
  assert (Hvalid : validate_order_id order_id0 = true).
  { unfold order_id0. now rewrite validate_order_id_ascii. }
  assert (Hrun : fst (order_cancel Iso8601.fromisoformat (fun _ => "")
                        order_id0 (Some "2025-09-07T12:00:00Z") Iso8601.world)
                 = Ok (failure_dict ("Order " ++ order_id0
                                     ++ " not found in the system."))).
  { unfold order_cancel. rewrite Hvalid. reflexivity. }
  split; [reflexivity|]. split; [exact Hvalid|]. split; [exact Hrun|].
  rewrite Hrun. discriminate.
Qed.

(** ** product_search *)

Section SearchFacts.
Context {U : Unicode}.
Variables (query : string) (m : Z) (tags_list : list string).
Variable products : list product.

Lemma strict_matches_affordable :
  Forall (fun p => (price p <= m)%Z) (strict_matches query (Some m) tags_list products).
Proof.
  unfold strict_matches. apply Forall_forall. intros p Hp.
  apply filter_In in Hp as [_ Hp]. apply andb_prop in Hp as [Hp _].
  unfold over_price in Hp. apply negb_true_iff, Z.ltb_ge in Hp. exact Hp.
Qed.

Lemma partial_matches_affordable ps results :
  Forall (fun p => (price p <= m)%Z) results ->
  Forall (fun p => (price p <= m)%Z) (partial_matches (Some m) tags_list ps results).
Proof.
  revert results. induction ps as [|p ps IH]; intros results Hres; cbn.
  - exact Hres.
  - destruct (m <? price p)%Z eqn:Hover; [now apply IH|].
    apply Z.ltb_ge in Hover.
    destruct (negb (mem_product p results)); [|now apply IH].
    assert (Hres' : Forall (fun p => (price p <= m)%Z)
              (if existsb (fun t => mem_str t (tags p)) tags_list
               then results ++ [p] else results)).
    { destruct (existsb _ tags_list); [|exact Hres].
      apply Forall_app. split; [exact Hres | now constructor]. }
    match goal with |- Forall _ (if ?b then _ else _) => destruct b end;
      [exact Hres' | now apply IH].
Qed.

Lemma broader_matches_affordable results :
  Forall (fun p => (price p <= m)%Z) (broader_matches products m results).
Proof.
  unfold broader_matches. apply Forall_forall. intros p Hp.
  apply filter_In in Hp as [_ Hp].
  apply andb_prop in Hp as [Hp _]. apply andb_prop in Hp as [Hp _].
  now apply Z.leb_le in Hp.
Qed.
End SearchFacts.

Lemma insert_sorted_Forall {A} (key : A -> list Z) (P : A -> Prop) x l :
  P x -> Forall P l -> Forall P (insert_sorted key x l).
Proof.
  intros Hx. induction 1 as [|y l Hy Hl IH]; cbn.
  - now constructor.
  - destruct (tuple_lt _ _); repeat constructor; assumption.
Qed.

Lemma sorted_Forall {A} (key : A -> list Z) (P : A -> Prop) l :
  Forall P l -> Forall P (sorted key l).
Proof.
  unfold sorted. assert (G : forall acc, Forall P acc -> Forall P l ->
    Forall P (fold_left (fun acc x => insert_sorted key x acc) l acc)).
  { induction l as [|x l IH]; intros acc Hacc Hl; cbn; [exact Hacc|].
    inversion Hl; subst. apply IH; [|assumption].
    now apply insert_sorted_Forall. }
  intros H. apply G; [constructor | exact H].
Qed.

Lemma firstn_Forall {A} (P : A -> Prop) n l :
  Forall P l -> Forall P (firstn n l).
Proof.
  intros H. revert n. induction H as [|x l Hx Hl IH]; intros [|n]; cbn;
    constructor; auto.
Qed.

(** With a price bound, the body of [product_search] returns at most two
    products, none dearer than the bound. *)
Lemma product_search_body_bounded {U : Unicode} query m tags_list products :
  let r := product_search_body query (Some m) tags_list products in
  (List.length r <= 2)%nat /\ Forall (fun p => (price p <= m)%Z) r.
Proof.
  unfold product_search_body. split; [apply firstn_le_length|].
  apply firstn_Forall, sorted_Forall.
  set (r0 := strict_matches query (Some m) tags_list products).
  assert (H0 : Forall (fun p => (price p <= m)%Z) r0)
    by apply strict_matches_affordable.
  set (r1 := if (_ && _ && _)%bool then _ else r0).
  assert (H1 : Forall (fun p => (price p <= m)%Z) r1).
  { unfold r1. destruct (_ && _ && _)%bool; [|exact H0].
    now apply partial_matches_affordable. }
  destruct (List.length r1 <? 2)%nat; [|exact H1].
  apply Forall_app. split; [exact H1|].
  apply firstn_Forall, sorted_Forall, broader_matches_affordable.
Qed.

Lemma product_eqb_refl p : product_eqb p p = true.
Proof.
  unfold product_eqb. rewrite String.eqb_refl, Z.eqb_refl.
  now destruct (list_eq_dec string_dec (tags p) (tags p)).
Qed.

(** The catalog of the scenario: a midi dress at 95 tagged wedding and
    midi, and a midi dress at 150, under any titles. *)
Lemma midi_dress_scenario {U : Unicode} title95 title150 tags150 :
  let p95 := {| title := title95; price := 95; tags := ["wedding"; "midi"] |} in
  let p150 := {| title := title150; price := 150; tags := tags150 |} in
  product_search_body "midi dress" (Some 120%Z) [] [p95; p150] = [p95]
  /\ product_search_body "midi dress" (Some 120%Z) [] [p150; p95] = [p95].
Proof.
  intros p95 p150.
  assert (Hin : mem_product p95 [p95] = true).
  { cbn. now rewrite product_eqb_refl. }
  unfold product_search_body, strict_matches, broader_matches.
  cbn [filter over_price price tags p95 p150 negb andb Z.ltb Z.compare
       Pos.compare Pos.compare_cont String.eqb Ascii.eqb Bool.eqb
       title].
  fold p95.
  destruct (contains _ (lower title95)) eqn:Hq.
  - cbn [List.length Nat.ltb Nat.leb andb app firstn Nat.sub filter
         Z.leb Z.compare Pos.compare Pos.compare_cont price p95 p150].
    fold p95. rewrite Hin. cbn. auto.
  - cbn [List.length Nat.ltb Nat.leb andb app firstn Nat.sub filter
         Z.leb Z.compare Pos.compare Pos.compare_cont price p95 p150
         mem_product existsb negb tags mem_str].
    cbn. rewrite orb_true_r. cbn. auto.
Qed.

(** C9.  Over a readable catalog, [product_search] with a price bound
    returns at most two products, each priced at or under the bound; on
    the catalog made of a midi dress at 95 tagged wedding and midi and a
    midi dress at 150, in either order, the query "midi dress" under 120
    returns the product at 95 alone. *)
Theorem product_search_price_filter {U : Unicode} query m tags w products :
  products_json w = Ok products ->
  (exists r,
      fst (product_search query (Some m) tags w) = Ok r
      /\ (List.length r <= 2)%nat
      /\ Forall (fun p => (price p <= m)%Z) r)
  /\ (forall title95 title150 tags150,
        let p95 :=
          {| title := title95; price := 95; tags := ["wedding"; "midi"] |} in
        let p150 := {| title := title150; price := 150; tags := tags150 |} in
        products = [p95; p150] \/ products = [p150; p95] ->
        fst (product_search "midi dress" (Some 120%Z) None w) = Ok [p95]).
Proof.
  intros Hcat.
  assert (Hrun : forall q pm tg,
    fst (product_search q pm tg w)
    = Ok (product_search_body q pm (tags_list_of tg) products)).
  { intros q pm tg. unfold product_search, IO.bind, IO.load_products.
    now rewrite Hcat. }
  split.
  - rewrite Hrun. eexists. split; [reflexivity|].
    apply product_search_body_bounded.
  - intros title95 title150 tags150 p95 p150 Hprod. rewrite Hrun.
    destruct (midi_dress_scenario title95 title150 tags150) as [H1 H2].
    cbn [tags_list_of]. destruct Hprod as [-> | ->]; f_equal; assumption.
Qed.

(** C9 on a catalog of two midi dresses. *)
Lemma product_search_price_filter_witness :
  let p95 := {| title := "Midi Wrap Dress"; price := 95;
                tags := ["wedding"; "midi"] |} in
  let p150 := {| title := "Satin Midi Dress"; price := 150;
                 tags := ["party"; "midi"] |} in
  let w := {| orders_json := Raise FileNotFoundError;
              products_json := Ok [p95; p150];
              clock_us := 0 |} in
  (exists r,
      fst (@product_search AsciiText.unicode "midi dress" (Some 120%Z) None w)
      = Ok r
      /\ (List.length r <= 2)%nat
      /\ Forall (fun p => (price p <= 120)%Z) r)
  /\ fst (@product_search AsciiText.unicode "midi dress" (Some 120%Z) None w)
     = Ok [p95].
Proof.
  intros p95 p150 w.
  pose proof (@product_search_price_filter AsciiText.unicode "midi dress" 120
                None w [p95; p150] eq_refl) as [H1 H2].
  split; [exact H1|].
  apply (H2 "Midi Wrap Dress" "Satin Midi Dress" ["party"; "midi"]).
  left. reflexivity.
Defined.

(** Tags take precedence over the query, and the result is ordered by the
    number of matching tags before the price. *)
Example product_search_by_tags {U : Unicode} :
  let a := {| title := "Midi Wrap Dress"; price := 95;
              tags := ["wedding"; "midi"] |} in
  let b := {| title := "Satin Slip Dress"; price := 80; tags := ["midi"] |} in
  let c := {| title := "Linen Shirt"; price := 40; tags := ["casual"] |} in
  product_search_body "shirt" (Some 120%Z)
    (tags_list_of (Some (TagsStr "wedding, midi"))) [c; b; a] = [a; b].
Proof.
  intros a b c. unfold tags_list_of.
  cbn [String.eqb Ascii.eqb Bool.eqb split map].
  change (split "," "wedding, midi") with ["wedding"; " midi"]. cbn [map].
  rewrite !strip_ascii by reflexivity. reflexivity.
Qed.

(** ** router_node *)

Import Py.

Lemma exn_eq_dec (a b : exn) : {a = b} + {a <> b}.
Proof. decide equality. Defined.

Lemma search_braces_opens text s :
  Router.search_braces text = Some s -> exists p, s = String "{" p.
Proof.
  unfold Router.search_braces.
  destruct (Router.after_first _ text) as [r|]; [|discriminate].
  destruct (Router.upto_last _ r) as [p|]; [|discriminate].
  intros [= <-]. eauto.
Qed.

Lemma deterministic_keyword_routing_closed {U : Unicode} question i :
  Router.deterministic_keyword_routing question = Some i ->
  In i Router.intents.
Proof.
  unfold Router.deterministic_keyword_routing, Router.intents.
  repeat match goal with
         | |- context [if ?b then _ else _] => destruct b
         end; intros [= <-]; cbn; auto.
Qed.

(** On a question of ASCII characters the keyword rules need no more of
    [str.lower] than the fold of A to Z. *)
Lemma deterministic_keyword_routing_ascii {U : Unicode} question :
  all_chars is_ascii question = true ->
  Router.deterministic_keyword_routing question
  = @Router.deterministic_keyword_routing AsciiText.unicode question.
Proof.
  intros H. unfold Router.deterministic_keyword_routing.
  now rewrite (lower_ascii question H).
Qed.

(** The fallback on the chat model raises what [json.loads] raises, unless
    that is [JSONDecodeError]. *)
Lemma llm_route_raises {U : Unicode} json_loads invoke_llm question s e :
  Router.search_braces (invoke_llm question) = Some s ->
  json_loads s = Raise e ->
  e <> JSONDecodeError ->
  Router.llm_route json_loads invoke_llm question = Raise e.
Proof.
  intros Hs He Hne. unfold Router.llm_route, Router.extract_json_from_string.
  rewrite Hs, He. destruct e; congruence.
Qed.

(** The fallback on the chat model returns one of the three names, or
    raises what [json.loads] raised. *)
Lemma llm_route_closed {U : Unicode} json_loads invoke_llm question :
  (forall s v, json_loads (String "{" s) = Ok v -> exists d, v = JObj d) ->
  (exists i,
      Router.llm_route json_loads invoke_llm question = Ok i
      /\ In i Router.intents)
  \/ (exists s e,
         Router.search_braces (invoke_llm question) = Some s
         /\ json_loads s = Raise e /\ e <> JSONDecodeError
         /\ Router.llm_route json_loads invoke_llm question = Raise e).
Proof.
  intros Hloads.
  assert (Hother : In "other" Router.intents) by (cbn; auto).
  destruct (Router.search_braces (invoke_llm question)) as [s|] eqn:Hs.
  2:{ left. unfold Router.llm_route, Router.extract_json_from_string.
      rewrite Hs. eauto. }
  destruct (json_loads s) as [v|e] eqn:Hv.
  2:{ destruct (exn_eq_dec e JSONDecodeError) as [-> | Hne].
      - left. unfold Router.llm_route, Router.extract_json_from_string.
        rewrite Hs, Hv. eauto.
      - right. exists s, e. repeat split; try assumption.
        now apply llm_route_raises with (s := s). }
  left. unfold Router.llm_route, Router.extract_json_from_string.
  rewrite Hs, Hv.
  destruct (search_braces_opens _ _ Hs) as (p & ->).
  destruct (Hloads _ _ Hv) as (d & ->).
  destruct (negb (truthy (JObj d))); [eauto|].
  cbn [py_in subscript]. unfold has.
  destruct (get "destination" d) as [v|]; [|eauto].
  destruct v as [| | | |t| |]; eauto.
  destruct (existsb (String.eqb t) Router.intents) eqn:Hmem; [|eauto].
  exists t. split; [reflexivity|].
  apply existsb_exists in Hmem as (i & Hi & E).
  apply String.eqb_eq in E. now subst.
Qed.

(** C8, at the input where the code departs from it.  No keyword rule
    covers the question "hello there", so the chat model is asked.  When
    its answer is an object whose destination is an integer of 4301 digits,
    [json.loads] raises [ValueError]; when the destination is a list nested
    a thousand deep, it raises [RecursionError].  Neither is the
    [JSONDecodeError] that [extract_json_from_string] catches: [classify]
    returns no intent, and [router_node] raises. *)
Theorem router_raises_on_model_text {U : Unicode} :
  let question := "hello there" in
  let state := initial_state [HumanMessage question] in
  Router.deterministic_keyword_routing question = None
  /\ Router.classify SampleJson.json_loads (fun _ => SampleJson.huge_doc)
       question = Raise ValueError
  /\ Router.classify SampleJson.json_loads (fun _ => SampleJson.deep_doc)
       question = Raise RecursionError
  /\ Router.router_node SampleJson.json_loads (fun _ => SampleJson.huge_doc)
       state = Raise ValueError
  /\ (forall i,
        Router.classify SampleJson.json_loads (fun _ => SampleJson.huge_doc)
          question <> Ok i).
Proof.
  intros question state.
  assert (Hdet : Router.deterministic_keyword_routing question = None).
  { now rewrite deterministic_keyword_routing_ascii. }
  assert (Hhuge : Router.classify SampleJson.json_loads
                    (fun _ => SampleJson.huge_doc) question = Raise ValueError).
  { unfold Router.classify. rewrite Hdet.
    apply llm_route_raises with (s := SampleJson.huge_doc);
      [vm_compute; reflexivity | vm_compute; reflexivity | discriminate]. }
  assert (Hdeep : Router.classify SampleJson.json_loads
                    (fun _ => SampleJson.deep_doc) question
                  = Raise RecursionError).
  { unfold Router.classify. rewrite Hdet.
    apply llm_route_raises with (s := SampleJson.deep_doc);
      [vm_compute; reflexivity | vm_compute; reflexivity | discriminate]. }
  split; [exact Hdet|]. split; [exact Hhuge|]. split; [exact Hdeep|].
  split.
  - unfold Router.router_node, state. cbn [last_message initial_state messages
      rev app content_of]. now rewrite Hhuge.
  - intros i. rewrite Hhuge. discriminate.
Qed.

Lemma get_In k (d : dict) v : get k d = Some v -> In (k, v) d.
Proof.
  induction d as [|[k' v'] d IH]; cbn; [discriminate|].
  destruct (String.eqb_spec k' k) as [-> | _]; [intros [= ->]; auto|].
  intros H. right. now apply IH.
Qed.

Lemma sample_json_loads_object s v :
  SampleJson.json_loads (String "{" s) = Ok v -> exists d, v = JObj d.
Proof.
  unfold SampleJson.json_loads.
  destruct (String.eqb _ SampleJson.deep_doc); [discriminate|].
  destruct (String.eqb _ SampleJson.huge_doc); [discriminate|].
  destruct (get _ SampleJson.documents) as [v'|] eqn:H; [|discriminate].
  intros [= ->]. apply get_In in H. vm_compute in H.
  repeat (destruct H as [H | H]; [inversion H; eauto|]).
  contradiction.
Qed.

(** The scenario of the guardrail: a request for a discount code is
    classified "other" by the keyword rules, the model unasked. *)
Example discount_code_is_other {U : Unicode} json_loads invoke_llm :
  Router.classify json_loads invoke_llm
    "Can you give me a discount code that doesn't exist?" = Ok "other".
Proof.
  unfold Router.classify.
  now rewrite deterministic_keyword_routing_ascii.
Qed.

(** ** policy_guard_node *)

Import PolicyGuard.

Section GuardFacts.
Variable json_loads : string -> result json.

Lemma first_verdict_keys evidence0 d :
  first_verdict json_loads evidence0 = Some d ->
  has "success" d = true /\ has "reason" d = true.
Proof.
  induction evidence0 as [|[item|l] rest IH]; cbn; [discriminate| |exact IH].
  destruct (json_loads item) as [[| | | | | |d']|]; auto.
  destruct (has "success" d' && has "reason" d') eqn:E; [|auto].
  intros [= <-]. now apply andb_prop in E.
Qed.

(** The loop goes by the entries it passes over. *)
Lemma find_cancel_output_passes before rest :
  forallb (passes_over json_loads) before = true ->
  find_cancel_output json_loads (before ++ rest)
  = find_cancel_output json_loads rest.
Proof.
  induction before as [|[item|l] before IH]; cbn [forallb app];
    [reflexivity| |exact IH].
  intros H. apply andb_prop in H as [Hitem Hrest]. specialize (IH Hrest).
  cbn [find_cancel_output]. unfold passes_over in Hitem.
  destruct (json_loads item) as [data|e].
  - destruct (py_in "success" data) as [[|]|]; try exact IH.
    destruct (py_in "reason" data) as [[|]|]; [discriminate | exact IH | exact IH].
  - destruct e; try discriminate; exact IH.
Qed.

(** None of the entries passed over is a verdict. *)
Lemma first_verdict_passes before rest :
  forallb (passes_over json_loads) before = true ->
  first_verdict json_loads (before ++ rest) = first_verdict json_loads rest.
Proof.
  induction before as [|[item|l] before IH]; cbn [forallb app];
    [reflexivity| |exact IH].
  intros H. apply andb_prop in H as [Hitem Hrest]. specialize (IH Hrest).
  cbn [first_verdict]. unfold passes_over in Hitem.
  destruct (json_loads item) as [[| | | | | |d]|e]; try exact IH.
  cbn [py_in] in Hitem.
  destruct (has "success" d); [|exact IH].
  destruct (has "reason" d); [discriminate | exact IH].
Qed.

(** The loop finds nothing where no entry holds [success]. *)
Lemma find_cancel_output_no_success evidence0 :
  forallb (holds_no_success json_loads) evidence0 = true ->
  find_cancel_output json_loads evidence0 = Ok None.
Proof.
  induction evidence0 as [|[item|l] rest IH]; cbn [forallb];
    [reflexivity| |exact IH].
  intros H. apply andb_prop in H as [Hitem Hrest]. specialize (IH Hrest).
  cbn [find_cancel_output]. unfold holds_no_success in Hitem.
  destruct (json_loads item) as [data|e].
  - destruct (py_in "success" data) as [[|]|]; [discriminate | exact IH | exact IH].
  - destruct e; try discriminate; exact IH.
Qed.

Lemma has_get key (d : dict) :
  has key d = true -> exists v, get key d = Some v.
Proof. unfold has. destruct (get key d); [eauto | discriminate]. Qed.

Lemma guard_on_verdict d :
  has "success" d = true -> has "reason" d = true ->
  (if negb (truthy (JObj d)) then Ok None
   else
     match dict_get (JObj d) "success" with
     | Raise e => Raise e
     | Ok (JBool false) =>
         match dict_get (JObj d) "reason" with
         | Raise e => Raise e
         | Ok reason => Ok (Some (blocked_decision reason))
         end
     | Ok _ => Ok (Some allowed_decision)
     end) = Ok (Some (verdict_decision d)).
Proof.
  intros Hs Hr. destruct d as [|kv d']; [discriminate|].
  cbn [truthy negb dict_get]. unfold verdict_decision.
  destruct (has_get _ _ Hs) as (vs & ->).
  destruct (has_get _ _ Hr) as (vr & ->).
  destruct vs as [|[|]| | | | |]; reflexivity.
Qed.

(** With another intent than order_help the guard does not look at the
    evidence. *)
Lemma policy_decision_of_other state :
  intent state <> Some "order_help" ->
  policy_decision_of json_loads state = Ok None.
Proof.
  intros Hne. unfold policy_decision_of.
  destruct (intent state) as [i|]; [|reflexivity].
  destruct (String.eqb_spec i "order_help") as [-> | Hi]; [congruence|].
  clear Hne.
  destruct i as [|[[|] [|] [|] [|] [|] [|] [|] [|]] i]; try reflexivity.
  repeat match goal with
         | |- context [match ?s with EmptyString => _ | String _ _ => _ end] =>
             destruct s as [|[[|] [|] [|] [|] [|] [|] [|] [|]] ?]; try reflexivity
         end; congruence.
Qed.

(** At the first entry the loop stops at, an object with both keys, the
    decision is the one of that entry. *)
Lemma policy_decision_of_verdict state before item after d :
  intent state = Some "order_help" ->
  evidence state = Some (before ++ Text item :: after)%list ->
  forallb (passes_over json_loads) before = true ->
  json_loads item = Ok (JObj d) ->
  has "success" d = true -> has "reason" d = true ->
  first_verdict json_loads (before ++ Text item :: after) = Some d
  /\ policy_decision_of json_loads state = Ok (Some (verdict_decision d)).
Proof.
  intros Hintent Hev Hbefore Hitem Hs Hr. split.
  - rewrite (first_verdict_passes _ _ Hbefore). cbn [first_verdict].
    now rewrite Hitem, Hs, Hr.
  - unfold policy_decision_of. rewrite Hintent, Hev.
    rewrite (find_cancel_output_passes _ _ Hbefore).
    cbn [find_cancel_output]. rewrite Hitem. cbn [py_in]. rewrite Hs, Hr.
    rewrite (guard_on_verdict d Hs Hr).
    destruct before; reflexivity.
Qed.
End GuardFacts.

(** C2, as the code has it.  With another intent than order_help, or with
    no evidence or an empty evidence list, the decision is null, whatever
    [json.loads] does.  For the order_help intent, the guard goes through
    the evidence in order; at the first entry it does not pass over, when
    that entry parses as an object with a [success] and a [reason] key, it
    is the first such entry of the evidence, and the decision follows it:
    [success] false gives [cancel_allowed: False] with that entry's reason,
    any other [success] gives [cancel_allowed: True], whatever the entries
    after it are.  When no entry of the evidence holds [success] at all,
    the decision is null and not an allowed one. *)
Theorem policy_guard_decision json_loads state :
  ((intent state <> Some "order_help"
    \/ evidence state = None \/ evidence state = Some []) ->
   policy_decision_of json_loads state = Ok None)
  /\ (forall before item after d,
        intent state = Some "order_help" ->
        evidence state = Some (before ++ Text item :: after)%list ->
        forallb (passes_over json_loads) before = true ->
        json_loads item = Ok (JObj d) ->
        has "success" d = true -> has "reason" d = true ->
        first_verdict json_loads (before ++ Text item :: after) = Some d
        /\ (forall reason,
              get "success" d = Some (JBool false) ->
              get "reason" d = Some reason ->
              policy_decision_of json_loads state
              = Ok (Some (JObj [("cancel_allowed", JBool false);
                                ("reason", reason)])))
        /\ (get "success" d <> Some (JBool false) ->
            policy_decision_of json_loads state
            = Ok (Some (JObj [("cancel_allowed", JBool true)]))))
  /\ (forall evidence0,
        intent state = Some "order_help" ->
        evidence state = Some evidence0 ->
        forallb (holds_no_success json_loads) evidence0 = true ->
        policy_decision_of json_loads state = Ok None).
Proof.
  split; [|split].
  - intros [Hne | [Hnone | Hempty]].
    + now apply policy_decision_of_other.
    + unfold policy_decision_of. rewrite Hnone.
      destruct (intent state) as [i|]; [|reflexivity].
      destruct (String.eqb_spec i "order_help") as [-> | Hi]; [reflexivity|].
      apply (policy_decision_of_other json_loads
               {| messages := []; intent := Some i; tools_called := None;
                  evidence := None; policy_decision := None;
                  final_message := None |}).
      cbn. congruence.
    + unfold policy_decision_of. rewrite Hempty.
      destruct (intent state) as [i|]; [|reflexivity].
      destruct (String.eqb_spec i "order_help") as [-> | Hi]; [reflexivity|].
      apply (policy_decision_of_other json_loads
               {| messages := []; intent := Some i; tools_called := None;
                  evidence := Some []; policy_decision := None;
                  final_message := None |}).
      cbn. congruence.
  - intros before item after d Hintent Hev Hbefore Hitem Hs Hr.
    destruct (policy_decision_of_verdict json_loads state before item after d
                Hintent Hev Hbefore Hitem Hs Hr) as [Hfirst Hdec].
    split; [exact Hfirst|]. rewrite Hdec. unfold verdict_decision. split.
    + intros reason -> ->. reflexivity.
    + intros Hnot. destruct (get "success" d) as [[|[|]| | | | |]|];
        try reflexivity. congruence.
  - intros evidence0 Hintent Hev Hnone.
    unfold policy_decision_of. rewrite Hintent, Hev.
    rewrite (find_cancel_output_no_success json_loads evidence0 Hnone).
    destruct evidence0; reflexivity.
Qed.

(** C2 on the evidence of a failed lookup followed by a blocked
    cancellation: the decision is the block, with the reason of the
    blocked result. *)
Lemma policy_guard_decision_witness :
  policy_decision_of SampleJson.json_loads
    (SampleRun.order_help_state [SampleJson.not_found_doc; SampleJson.blocked_doc])
  = Ok (Some (JObj [("cancel_allowed", JBool false);
                    ("reason",
                     JStr "Cancellation failed: Order was placed more than 60 minutes ago.")])).
Proof.
  refine (proj1 (proj2 (proj1 (proj2 (policy_guard_decision
            SampleJson.json_loads
            (SampleRun.order_help_state
               [SampleJson.not_found_doc; SampleJson.blocked_doc])))
            [Text SampleJson.not_found_doc] SampleJson.blocked_doc []
            [("success", JBool false);
             ("reason",
              JStr "Cancellation failed: Order was placed more than 60 minutes ago.");
             ("minutes_since_order", JInt 1405);
             ("policy",
              JStr "Orders can only be canceled within 60 minutes of placement.")]
            eq_refl eq_refl _ _ eq_refl eq_refl))
            (JStr "Cancellation failed: Order was placed more than 60 minutes ago.")
            eq_refl eq_refl);
    vm_compute; reflexivity.
Defined.

(** C2 as claimed fails where the evidence holds no verdict: for the
    order_help intent and the evidence of a failed lookup alone, the claim
    gives [cancel_allowed: True] and the code gives null.  It also fails
    where an entry parses to a string with both words inside: the loop
    stops at it and [.get] raises [AttributeError]. *)
Lemma policy_guard_no_verdict_counterexample :
  let quiet := SampleRun.order_help_state [SampleJson.not_found_doc] in
  let clash := SampleRun.order_help_state [SampleJson.sentence_doc] in
  (claimed_decision SampleJson.json_loads quiet = Some allowed_decision
   /\ policy_decision_of SampleJson.json_loads quiet = Ok None)
  /\ (claimed_decision SampleJson.json_loads clash = Some allowed_decision
      /\ policy_decision_of SampleJson.json_loads clash = Raise AttributeError).
Proof. vm_compute. repeat split. Qed.

(** An allowed decision needs an entry with both keys and a [success]
    that is not false. *)
Example policy_guard_allows :
  policy_decision_of
    (fun _ => Ok (JObj [("success", JBool true); ("reason", JStr "in time")]))
    (SampleRun.order_help_state ["verdict"])
  = Ok (Some allowed_decision).
Proof. reflexivity. Qed.

(** An exception of [json.loads] that the loop does not catch leaves the
    node. *)
Example policy_guard_raises :
  policy_guard_node SampleJson.json_loads
    (SampleRun.order_help_state [SampleJson.not_found_doc; SampleJson.deep_doc])
  = Raise RecursionError.
Proof. vm_compute. reflexivity. Qed.

(** *** Evidence made of tool results *)

Import Evidence.

Lemma products_hold_no_word key r :
  existsb (eq_str key) (map product_to_json r) = false.
Proof. induction r as [|p r IH]; cbn; auto. Qed.

Lemma lookup_scan_In order_id0 email0 orders o :
  lookup_scan order_id0 email0 orders = Ok (Some o) -> In o orders.
Proof.
  induction orders as [|order0 rest IH]; cbn [lookup_scan]; [discriminate|].
  destruct (subscript order0 "order_id") as [id|]; [|discriminate].
  destruct (eq_str order_id0 id).
  - destruct (subscript order0 "email") as [em|]; [|discriminate].
    destruct (eq_str email0 em).
    + intros [= ->]. now left.
    + intros H. right. now apply IH.
  - intros H. right. now apply IH.
Qed.

(** Over an order file in the shape of the data model, [order_lookup]
    returns an error dict or a record of the file. *)
Lemma order_lookup_results {U : Unicode} order_id0 email0 w v :
  order_file w ->
  fst (order_lookup order_id0 email0 w) = Ok v ->
  (exists msg, v = error_dict msg) \/ order_entry v = true.
Proof.
  intros Hfile.
  unfold order_lookup, IO.bind, IO.except_load, IO.load_orders, IO.lift.
  destruct (validate_order_id order_id0); cbn [negb];
    [|cbn; intros [= <-]; eauto].
  destruct (validate_email email0); cbn [negb]; [|cbn; intros [= <-]; eauto].
  destruct (orders_json w) as [store|e] eqn:Hstore;
    [|destruct e; cbn; intros [= <-]; eauto].
  destruct (Hfile store Hstore) as (records & -> & Hrecords).
  cbn [py_iter].
  destruct (lookup_scan order_id0 email0 records) as [[o|]|] eqn:Hscan;
    cbn; [| intros [= <-]; eauto | discriminate].
  intros [= <-]. right.
  apply lookup_scan_In in Hscan.
  rewrite forallb_forall in Hrecords. now apply Hrecords.
Qed.

(** No result of a tool other than a blocked cancellation passes the two
    [in] tests of the guard. *)
Lemma structured_result_no_verdict {U : Unicode} fromisoformat isoformat v :
  structured_result fromisoformat isoformat v ->
  ~ blocked_result v ->
  match py_in "success" v with
  | Ok true => match py_in "reason" v with Ok true => False | _ => True end
  | _ => True
  end.
Proof.
  intros Hres Hnot.
  destruct Hres as [query pm tg w r H | oid em w v Hfile H | oid sn w v H].
  - cbn. now rewrite products_hold_no_word.
  - apply order_lookup_results in H as [(msg & ->) | Hentry];
      [exact I | | exact Hfile].
    destruct v as [| | | | | |d]; try discriminate Hentry.
    cbn in *. now destruct (has "success" d).
  - apply order_cancel_results in H
      as [(msg & ->) | [(now & us & _ & _ & ->) | (now & us & _ & _ & ->)]].
    + exact I.
    + exact I.
    + destruct Hnot. eexists. reflexivity.
Qed.

(** C10.  For the order_help intent, when every evidence entry that
    parses is a tool result and none is a blocked cancellation, the guard
    returns the null decision even though a successful cancellation is
    among them: its dict has a [message] key and no [reason] key.  An
    entry that is no text, and a text that is no JSON, are the results of
    the tools that answer with a list or a sentence; the result of a
    lookup is a record of an order file in the shape of the data model,
    [Evidence.order_file]. *)
Theorem successful_cancel_gives_no_decision {U : Unicode}
    json_loads fromisoformat isoformat state evidence0 :
  intent state = Some "order_help" ->
  evidence state = Some evidence0 ->
  (forall item,
      In (Text item) evidence0 ->
      match json_loads item with
      | Ok v => structured_result fromisoformat isoformat v /\ ~ blocked_result v
      | Raise e => e = JSONDecodeError
      end) ->
  (exists item v,
      In (Text item) evidence0 /\ json_loads item = Ok v /\ success_result v) ->
  policy_decision_of json_loads state = Ok None
  /\ (forall v, success_result v ->
      py_in "success" v = Ok true /\ py_in "reason" v = Ok false
      /\ py_in "message" v = Ok true).
Proof.
  intros Hintent Hev Hall Hsome. split.
  2:{ intros v (oid & at_ & mins & ->). repeat split. }
  unfold policy_decision_of. rewrite Hintent, Hev.
  assert (Hscan : find_cancel_output json_loads evidence0 = Ok None).
  { clear Hev Hsome. induction evidence0 as [|[item|l] rest IH]; [reflexivity| |].
    - cbn [find_cancel_output]. pose proof (Hall item (or_introl eq_refl)) as Hitem.
      assert (IH' := IH (fun i Hi => Hall i (or_intror Hi))).
      destruct (json_loads item) as [data|e]; [|subst e; exact IH'].
      destruct Hitem as [Hres Hnot].
      pose proof (structured_result_no_verdict _ _ _ Hres Hnot) as Hno.
      destruct (py_in "success" data) as [[|]|]; try exact IH'.
      destruct (py_in "reason" data) as [[|]|];
        [contradiction | exact IH' | exact IH'].
    - cbn [find_cancel_output]. apply IH.
      intros i Hi. apply Hall. now right. }
  rewrite Hscan. destruct evidence0; reflexivity.
Qed.

(** C10 on the evidence of the allowed scenario: the successful
    cancellation of order A1003. *)
Lemma successful_cancel_gives_no_decision_witness :
  policy_decision_of SampleJson.json_loads
    (SampleRun.order_help_state [SampleJson.success_doc]) = Ok None.
Proof.
  refine (proj1 (@successful_cancel_gives_no_decision AsciiText.unicode
                   SampleJson.json_loads Iso8601.fromisoformat
                   (fun _ => "2025-09-07T12:30:00+00:00")
                   (SampleRun.order_help_state [SampleJson.success_doc])
                   [Text SampleJson.success_doc] eq_refl eq_refl _ _)).
  - intros item [[= <-] | []].
    change (SampleJson.json_loads SampleJson.success_doc)
      with (Ok (cancel_success "A1003" "2025-09-07T12:30:00+00:00" (35 # 1))).
    split.
    + apply (@result_of_cancel AsciiText.unicode Iso8601.fromisoformat
               (fun _ => "2025-09-07T12:30:00+00:00")
               "A1003" (Some "2025-09-07T12:30:00Z") Iso8601.world).
      vm_compute. reflexivity.
    + intros (mins & H). discriminate H.
  - exists SampleJson.success_doc,
      (cancel_success "A1003" "2025-09-07T12:30:00+00:00" (35 # 1)).
    split; [left; reflexivity|]. split; [vm_compute; reflexivity|].
    do 3 eexists. reflexivity.
Defined.

(** ** The graph *)

Import Graph.

Lemma existsb_eqb_In (x : string) (l : list string) :
  existsb (String.eqb x) l = true <-> In x l.
Proof.
  rewrite existsb_exists. split.
  - intros (y & Hy & E). apply String.eqb_eq in E. now subst.
  - intros H. exists x. split; [exact H | apply String.eqb_refl].
Qed.

Lemma or_empty_reduce_add {A} (old : option (list A)) (new : list A) :
  or_empty (reduce_add old (Some new)) = (or_empty old ++ new)%list.
Proof. destruct old; reflexivity. Qed.

Lemma names_called_cons calls batches :
  names_called (calls :: batches)
  = (names_called batches ++ map call_name calls)%list.
Proof.
  unfold names_called. cbn [rev].
  now rewrite concat_app, map_app, concat_cons, app_nil_r.
Qed.

Lemma contents_returned_cons results outputs :
  contents_returned (results :: outputs)
  = (contents_returned outputs ++ results)%list.
Proof.
  unfold contents_returned. cbn [rev].
  now rewrite concat_app, concat_cons, app_nil_r.
Qed.

(** What [tool_executor_node] returns on a state whose last message asks
    for [calls]: the names of the calls and the contents of their results,
    both in the order of the calls. *)
Lemma tool_executor_node_update run_tool s m calls u :
  last_message s = Ok m -> tool_calls m = Ok calls ->
  tool_executor_node run_tool s = Ok u ->
  u_tools_called u = Some (map call_name calls)
  /\ u_evidence u = Some (map run_tool calls).
Proof.
  intros Hm Hc. unfold tool_executor_node, tool_node_invoke.
  rewrite Hm, Hc. intros [= <-]. cbn. split; [reflexivity|].
  now rewrite map_map.
Qed.

(** One round of the tool executor appends to both histories and leaves
    what they held in place. *)
Lemma tool_executor_round_appends run_tool s m calls u :
  last_message s = Ok m -> tool_calls m = Ok calls ->
  tool_executor_node run_tool s = Ok u ->
  or_empty (tools_called (apply_update s u))
  = (or_empty (tools_called s) ++ map call_name calls)%list
  /\ or_empty (evidence (apply_update s u))
     = (or_empty (evidence s) ++ map run_tool calls)%list.
Proof.
  intros Hm Hc Hnode.
  destruct (tool_executor_node_update _ _ _ _ _ Hm Hc Hnode) as (Ht & He).
  cbn [apply_update tools_called evidence].
  now rewrite Ht, He, !or_empty_reduce_add.
Qed.

Section RunFacts.
Context {U : Unicode}.
Variable json_loads : string -> result json.

(** The two histories grow together, one entry per executed call: the
    names of the calls and the contents of their results, oldest first. *)
Lemma reaches_accumulates batches outputs n s :
  reaches json_loads batches outputs n s ->
  or_empty (tools_called s) = names_called batches
  /\ or_empty (evidence s) = contents_returned outputs
  /\ map (@List.length content) outputs = map (@List.length tool_call) batches.
Proof.
  induction 1 as [msgs
                 | batches outputs s invoke_llm u n Hr IH Hnode Hedge
                 | batches outputs s chain_invoke label n Hr IH Hlabel Hedge
                 | batches outputs s run_tool m calls u n Hr IH Hm Hc Hnode Hedge
                 | batches outputs s u Hr IH Hnode
                 | batches outputs s chain_invoke u Hr IH Hnode].
  - repeat split.
  - unfold Router.router_node in Hnode.
    destruct (last_message s) as [m|]; [|discriminate].
    destruct (content_of m); [|discriminate].
    destruct (Router.classify _ _ _); [|discriminate].
    injection Hnode as <-. exact IH.
  - exact IH.
  - destruct (tool_executor_round_appends _ _ _ _ _ Hm Hc Hnode) as (Ht & He).
    destruct IH as (IHt & IHe & IHl).
    rewrite Ht, He, names_called_cons, contents_returned_cons, IHt, IHe.
    repeat split. cbn [map]. now rewrite length_map, IHl.
  - unfold policy_guard_node in Hnode.
    destruct (policy_decision_of _ _); [|discriminate].
    injection Hnode as <-. exact IH.
  - unfold responder_node in Hnode.
    destruct (last_message s); [|discriminate].
    destruct (join_items _); [|discriminate].
    injection Hnode as <-. exact IH.
Qed.

(** Before the router, the agent and the tool executor, no executed batch
    has called order_cancel: a batch that did sent the run to the policy
    guard, which leads to the responder and to the end. *)
Lemma reaches_before_cancel batches outputs n s :
  reaches json_loads batches outputs n s ->
  n = router \/ n = agent \/ n = tool_executor ->
  ~ In "order_cancel" (names_called batches).
Proof.
  induction 1 as [msgs
                 | batches outputs s invoke_llm u n Hr IH Hnode Hedge
                 | batches outputs s chain_invoke label n Hr IH Hlabel Hedge
                 | batches outputs s run_tool m calls u n Hr IH Hm Hc Hnode Hedge
                 | batches outputs s u Hr IH Hnode
                 | batches outputs s chain_invoke u Hr IH Hnode];
    intros Hn.
  - intros [].
  - apply IH. auto.
  - apply IH. auto.
  - pose proof (reaches_accumulates _ _ _ _
                  (reach_tool_executor json_loads batches outputs s run_tool m
                     calls u n Hr Hm Hc Hnode Hedge)) as [Hacc _].
    unfold route_after_tools in Hedge.
    fold (or_empty (tools_called (apply_update s u))) in Hedge.
    rewrite Hacc in Hedge.
    destruct (existsb _ (names_called (calls :: batches))) eqn:E.
    + cbn in Hedge. injection Hedge as <-.
      destruct Hn as [Hn | [Hn | Hn]]; discriminate Hn.
    + intros Hin. apply existsb_eqb_In in Hin. congruence.
  - destruct Hn as [Hn | [Hn | Hn]]; discriminate Hn.
  - destruct Hn as [Hn | [Hn | Hn]]; discriminate Hn.
Qed.
End RunFacts.

(** C3.  In every run, the edge out of the tool executor leads to the
    policy guard exactly when the batch just executed holds a call of
    order_cancel, and back to the agent otherwise; so a batch of
    order_lookup calls alone returns to the agent, also for the order_help
    intent. *)
Theorem route_after_tools_follows_last_batch {U : Unicode}
    json_loads batches outputs s run_tool m calls u :
  reaches json_loads batches outputs tool_executor s ->
  last_message s = Ok m ->
  tool_calls m = Ok calls ->
  tool_executor_node run_tool s = Ok u ->
  let next := tool_executor_edges (route_after_tools (apply_update s u)) in
  (In "order_cancel" (map call_name calls) -> next = Some policy_guard)
  /\ (~ In "order_cancel" (map call_name calls) -> next = Some agent)
  /\ (intent s = Some "order_help" ->
      (forall call, In call calls -> call_name call = "order_lookup") ->
      next = Some agent).
Proof.
  intros Hr Hm Hc Hnode next.
  pose proof (reaches_before_cancel json_loads _ _ _ _ Hr
                (or_intror (or_intror eq_refl))) as Hbefore.
  destruct (reaches_accumulates json_loads _ _ _ _ Hr) as [Hacc _].
  destruct (tool_executor_node_update _ _ _ _ _ Hm Hc Hnode) as (Ht & _).
  assert (Hroute :
    route_after_tools (apply_update s u)
    = if existsb (String.eqb "order_cancel") (map call_name calls)
      then "policy_guard" else "agent").
  { unfold route_after_tools.
    fold (or_empty (tools_called (apply_update s u))).
    cbn [apply_update tools_called].
    rewrite Ht, or_empty_reduce_add, Hacc, existsb_app.
    destruct (existsb _ (names_called batches)) eqn:E; [|reflexivity].
    apply existsb_eqb_In in E. contradiction. }
  subst next. rewrite Hroute.
  assert (Hyes : In "order_cancel" (map call_name calls) ->
                 tool_executor_edges
                   (if existsb (String.eqb "order_cancel") (map call_name calls)
                    then "policy_guard" else "agent") = Some policy_guard).
  { intros Hin. apply existsb_eqb_In in Hin. now rewrite Hin. }
  assert (Hno : ~ In "order_cancel" (map call_name calls) ->
                tool_executor_edges
                  (if existsb (String.eqb "order_cancel") (map call_name calls)
                   then "policy_guard" else "agent") = Some agent).
  { intros Hnot.
    destruct (existsb _ (map call_name calls)) eqn:E; [|reflexivity].
    apply existsb_eqb_In in E. contradiction. }
  split; [exact Hyes|]. split; [exact Hno|].
  intros _ Hall. apply Hno. intros Hin.
  apply in_map_iff in Hin as (call & Hname & Hcall).
  rewrite (Hall call Hcall) in Hname. discriminate Hname.
Qed.

Lemma list_sum_rev (l : list nat) : list_sum (rev l) = list_sum l.
Proof.
  induction l as [|x l IH]; [reflexivity|].
  cbn [rev]. rewrite list_sum_app, IH. unfold list_sum. cbn [fold_right].
  lia.
Qed.

(** C4.  At every point of a run, [tools_called] and [evidence] (a key
    not yet written counting as the empty list) have the same length, the
    number of calls of all the batches executed so far.  [tools_called] is
    the names of those calls and [evidence] the contents of their results,
    oldest round first, one result per call of each round; and a further
    round of the tool executor appends its names and its results to the
    two lists, which keep what they held. *)
Theorem tool_history_accumulates {U : Unicode}
    json_loads batches outputs n s :
  reaches json_loads batches outputs n s ->
  let called := or_empty (tools_called s) in
  let held := or_empty (evidence s) in
  List.length called = List.length held
  /\ List.length called = list_sum (map (@List.length tool_call) batches)
  /\ called = names_called batches
  /\ held = contents_returned outputs
  /\ map (@List.length content) outputs = map (@List.length tool_call) batches
  /\ (forall run_tool m calls u,
        n = tool_executor ->
        last_message s = Ok m -> tool_calls m = Ok calls ->
        tool_executor_node run_tool s = Ok u ->
        or_empty (tools_called (apply_update s u))
        = (called ++ map call_name calls)%list
        /\ or_empty (evidence (apply_update s u))
           = (held ++ map run_tool calls)%list).
Proof.
  intros Hr called held.
  destruct (reaches_accumulates json_loads _ _ _ _ Hr) as (Ht & He & Hl).
  assert (Hsum : List.length (names_called batches)
                 = list_sum (map (@List.length tool_call) batches)).
  { unfold names_called. rewrite length_map, length_concat, map_rev.
    apply list_sum_rev. }
  assert (Hsum' : List.length (contents_returned outputs)
                  = list_sum (map (@List.length tool_call) batches)).
  { unfold contents_returned. rewrite length_concat, map_rev, list_sum_rev.
    now rewrite Hl. }
  subst called held. rewrite Ht, He.
  split; [now rewrite Hsum, Hsum'|]. split; [exact Hsum|].
  split; [reflexivity|]. split; [reflexivity|]. split; [exact Hl|].
  intros run_tool m calls u _ Hm Hc Hnode.
  rewrite <- Ht, <- He.
  exact (tool_executor_round_appends _ _ _ _ _ Hm Hc Hnode).
Qed.

(** *** A run in two rounds *)

Lemma sample_run_first_round {U : Unicode} :
  reaches SampleJson.json_loads [] [] tool_executor SampleRun.asked_lookup.
Proof.
  apply (reach_agent SampleJson.json_loads [] [] SampleRun.routed
           SampleRun.chain_invoke "execute_tools" tool_executor);
    [|reflexivity|reflexivity].
  apply (reach_router SampleJson.json_loads [] [] SampleRun.start
           (fun _ => "") _ agent (reach_entry _ _)); [|reflexivity].
  unfold Router.router_node, Router.classify.
  cbn [SampleRun.start initial_state last_message messages rev app content_of].
  now rewrite deterministic_keyword_routing_ascii.
Qed.

Lemma sample_run_second_round {U : Unicode} :
  reaches SampleJson.json_loads [[SampleRun.lookup_call]]
    [[Text SampleJson.not_found_doc]] tool_executor SampleRun.asked_cancel.
Proof.
  apply (reach_agent SampleJson.json_loads _ _ SampleRun.looked_up
           SampleRun.chain_invoke "execute_tools" tool_executor);
    [|reflexivity|reflexivity].
  apply (reach_tool_executor SampleJson.json_loads [] [] SampleRun.asked_lookup
           SampleRun.run_tool (AIMessage "" [SampleRun.lookup_call])
           [SampleRun.lookup_call] SampleRun.lookup_update agent
           sample_run_first_round); reflexivity.
Qed.

Lemma sample_run_guarded {U : Unicode} :
  reaches SampleJson.json_loads
    [[SampleRun.cancel_call]; [SampleRun.lookup_call]]
    [[Text SampleJson.blocked_doc]; [Text SampleJson.not_found_doc]]
    policy_guard SampleRun.cancelled.
Proof.
  apply (reach_tool_executor SampleJson.json_loads _ _ SampleRun.asked_cancel
           SampleRun.run_tool (AIMessage "" [SampleRun.cancel_call])
           [SampleRun.cancel_call] SampleRun.cancel_update policy_guard
           sample_run_second_round); reflexivity.
Qed.

(** C3 on the two rounds of the sample run: the lookup returns to the
    agent, the cancellation goes to the policy guard. *)
Lemma route_after_tools_follows_last_batch_witness :
  tool_executor_edges
    (route_after_tools
       (apply_update SampleRun.asked_lookup SampleRun.lookup_update))
  = Some agent
  /\ tool_executor_edges
       (route_after_tools
          (apply_update SampleRun.asked_cancel SampleRun.cancel_update))
     = Some policy_guard.
Proof.
  split.
  - refine (proj2 (proj2 (@route_after_tools_follows_last_batch
                            AsciiText.unicode
                            SampleJson.json_loads [] [] SampleRun.asked_lookup
                            SampleRun.run_tool
                            (AIMessage "" [SampleRun.lookup_call])
                            [SampleRun.lookup_call] SampleRun.lookup_update
                            sample_run_first_round eq_refl eq_refl eq_refl))
              eq_refl _).
    intros call [<- | []]. reflexivity.
  - refine (proj1 (@route_after_tools_follows_last_batch
                     AsciiText.unicode
                     SampleJson.json_loads _ _ SampleRun.asked_cancel
                     SampleRun.run_tool
                     (AIMessage "" [SampleRun.cancel_call])
                     [SampleRun.cancel_call] SampleRun.cancel_update
                     sample_run_second_round eq_refl eq_refl eq_refl) _).
    left. reflexivity.
Defined.

(** C4 after the two rounds of the sample run: two names, two results,
    those of the lookup before those of the cancellation. *)
Lemma tool_history_accumulates_witness :
  let called := or_empty (tools_called SampleRun.cancelled) in
  let held := or_empty (evidence SampleRun.cancelled) in
  List.length called = List.length held
  /\ List.length called
     = list_sum (map (@List.length tool_call)
                     [[SampleRun.cancel_call]; [SampleRun.lookup_call]])
  /\ called
     = names_called [[SampleRun.cancel_call]; [SampleRun.lookup_call]]
  /\ held
     = contents_returned
         [[Text SampleJson.blocked_doc]; [Text SampleJson.not_found_doc]].
Proof.
  intros called held.
  destruct (@tool_history_accumulates AsciiText.unicode
              SampleJson.json_loads _ _ policy_guard
              SampleRun.cancelled sample_run_guarded)
    as (H1 & H2 & H3 & H4 & _).
  repeat split; assumption.
Defined.

Example sample_run_history :
  tools_called SampleRun.cancelled = Some ["order_lookup"; "order_cancel"]
  /\ evidence SampleRun.cancelled
     = Some [Text SampleJson.not_found_doc; Text SampleJson.blocked_doc].
Proof. split; reflexivity. Qed.

(** ** The older copy *)

(** X27.  The older [order_cancel] draws the same line: for a stored
    order and two timestamps that parse, the result is a dict whose
    [success] says whether at most 3600 seconds have passed; it carries no
    [canceled_at], and a [reason] when the cancellation is blocked. *)
Theorem legacy_order_cancel_boundary
    fromisoformat w o order_id0 text created now us :
  stored_order order_id0 w = Some o ->
  created_of fromisoformat o = Some created ->
  text <> EmptyString ->
  parse_timestamp fromisoformat text = IsoOk now ->
  datetime_sub now created = Ok us ->
  exists d,
    fst (Legacy.order_cancel fromisoformat order_id0 (Some text) w) = Ok (JObj d)
    /\ get "success" d = Some (JBool (us <=? 3600000000)%Z)
    /\ has "canceled_at" d = false
    /\ ((3600000000 < us)%Z -> has "reason" d = true).
Proof.
  intros Hfind Hcreated Htext Hnow Hsub.
  destruct (CancelFacts.stored_order_found _ _ _ Hfind)
    as (store & elements & Hstore & Hiter & Hscan & Htruthy).
  destruct (CancelFacts.created_of_found _ _ _ Hcreated) as (s & Hs & Hparse).
  unfold Legacy.order_cancel, IO.bind, IO.load_orders, IO.lift.
  rewrite Hstore, Hiter, Hscan, Htruthy. cbn [negb]. rewrite Hs, Hparse.
  destruct text as [|c t]; [congruence|].
  rewrite Hnow. cbn [IO.ret]. rewrite Hsub, CancelFacts.minutes_boundary.
  destruct (us <=? 3600000000)%Z eqn:E; eexists;
    (split; [reflexivity|]); repeat split.
  apply Z.leb_le in E. lia.
Qed.

(** X27 on order A1003 at the sixtieth minute and one second later. *)
Lemma legacy_order_cancel_boundary_witness :
  (exists d,
      fst (Legacy.order_cancel Iso8601.fromisoformat "A1003"
             (Some "2025-09-07T12:55:00Z") Iso8601.world) = Ok (JObj d)
      /\ get "success" d = Some (JBool true)
      /\ has "canceled_at" d = false)
  /\ (exists d,
         fst (Legacy.order_cancel Iso8601.fromisoformat "A1003"
                (Some "2025-09-07T12:55:01Z") Iso8601.world) = Ok (JObj d)
         /\ get "success" d = Some (JBool false)
         /\ has "reason" d = true).
Proof.
  split.
  - destruct (legacy_order_cancel_boundary Iso8601.fromisoformat Iso8601.world
                (order_record "A1003" "mira@example.com" "2025-09-07T11:55:00Z")
                "A1003" "2025-09-07T12:55:00Z"
                {| wall_us := 63919281300000000; utcoffset := Some 0%Z |}
                {| wall_us := 63919284900000000; utcoffset := Some 0%Z |}
                3600000000)
      as (d & Hd & Hs & Hc & _);
      try (vm_compute; reflexivity); [discriminate|].
    exists d. repeat split; assumption.
  - destruct (legacy_order_cancel_boundary Iso8601.fromisoformat Iso8601.world
                (order_record "A1003" "mira@example.com" "2025-09-07T11:55:00Z")
                "A1003" "2025-09-07T12:55:01Z"
                {| wall_us := 63919281300000000; utcoffset := Some 0%Z |}
                {| wall_us := 63919284901000000; utcoffset := Some 0%Z |}
                3601000000)
      as (d & Hd & Hs & Hc & Hr);
      try (vm_compute; reflexivity); [discriminate|].
    exists d. repeat split; try assumption. apply Hr. lia.
Defined.

(** The older [order_cancel] does not look at the format of the id. *)
Lemma legacy_order_cancel_unvalidated
    fromisoformat w store elements order_id0 simulated_now :
  orders_json w = Ok store ->
  py_iter store = Ok elements ->
  cancel_scan order_id0 elements = Ok None ->
  fst (Legacy.order_cancel fromisoformat order_id0 simulated_now w)
  = Ok (error_dict ("Order " ++ order_id0 ++ " not found.")).
Proof.
  intros Hstore Hiter Hscan.
  unfold Legacy.order_cancel, IO.bind, IO.load_orders, IO.lift.
  now rewrite Hstore, Hiter, Hscan.
Qed.

(** The older edge out of the tool executor follows the intent, whatever
    the batch held. *)
Lemma legacy_route_after_tools_by_intent s :
  intent s = Some "order_help" ->
  Legacy.route_after_tools s = "policy_guard".
Proof. unfold Legacy.route_after_tools. now intros ->. Qed.

(** Without reducers, each round replaces the history of the one before. *)
Lemma legacy_update_replaces s u names results :
  u_tools_called u = Some names -> u_evidence u = Some results ->
  tools_called (Legacy.apply_update s u) = Some names
  /\ evidence (Legacy.apply_update s u) = Some results.
Proof. intros Ht He. cbn. now rewrite Ht, He. Qed.

Example legacy_sample_run_forgets_lookup :
  tools_called
    (Legacy.apply_update
       (Legacy.apply_update SampleRun.asked_lookup SampleRun.lookup_update)
       SampleRun.cancel_update)
  = Some ["order_cancel"].
Proof. reflexivity. Qed.

(** The older [product_search] keeps the two bounds; it finds the dress of
    the scenario only under a title that holds the query. *)
Lemma legacy_product_search_bounded {U : Unicode} query m tags0 w products :
  products_json w = Ok products ->
  exists r,
    fst (Legacy.product_search query m tags0 w) = Ok r
    /\ (List.length r <= 2)%nat
    /\ Forall (fun p => (price p <= m)%Z) r.
Proof.
  intros Hcat. unfold Legacy.product_search, IO.bind, IO.load_products.
  rewrite Hcat. eexists. split; [reflexivity|].
  split; [apply firstn_le_length|].
  apply firstn_Forall, sorted_Forall, Forall_forall. intros p Hp.
  apply filter_In in Hp as [_ Hp].
  apply andb_prop in Hp as [Hp _]. apply andb_prop in Hp as [Hp _].
  now apply negb_true_iff, Z.ltb_ge in Hp.
Qed.

Example legacy_product_search_needs_title {U : Unicode} :
  let p95 := {| title := "Midi Wrap Dress"; price := 95;
                tags := ["wedding"; "midi"] |} in
  let w := {| orders_json := Ok (JArr []); products_json := Ok [p95];
              clock_us := 0 |} in
  fst (Legacy.product_search "midi dress" 120 None w) = Ok []
  /\ fst (Tools.product_search "midi dress" (Some 120%Z) None w) = Ok [p95].
Proof.
  intros p95 w.
  unfold Legacy.product_search, Tools.product_search, product_search_body,
    strict_matches, broader_matches, IO.bind, IO.load_products.
  cbn [products_json w fst IO.ret filter title p95].
  rewrite !(lower_ascii "midi dress") by reflexivity.
  rewrite !(lower_ascii "Midi Wrap Dress") by reflexivity.
  split; reflexivity.
Qed.

(** The older router, the chat model alone, is closed in the same way:
    it returns one of the three names or raises what [json.loads]
    raised. *)
Lemma legacy_classify_closed {U : Unicode} json_loads invoke_llm question :
  (forall s v, json_loads (String "{" s) = Ok v -> exists d, v = JObj d) ->
  (exists i,
      Legacy.classify json_loads invoke_llm question = Ok i
      /\ In i Router.intents)
  \/ (exists s e,
         Router.search_braces (invoke_llm question) = Some s
         /\ json_loads s = Raise e /\ e <> JSONDecodeError
         /\ Legacy.classify json_loads invoke_llm question = Raise e).
Proof. apply llm_route_closed. Qed.

(** * Further properties of the sources *)

(** ** Strings *)

Module StrFacts.
Import PyStr.
Local Open Scope string_scope.

Lemma append_nil_r s : s ++ "" = s.
Proof. induction s as [|c s IH]; cbn; [reflexivity | now rewrite IH]. Qed.

Lemma append_assoc a b c : (a ++ b) ++ c = a ++ (b ++ c).
Proof. induction a as [|x a IH]; cbn; [reflexivity | now rewrite IH]. Qed.

Lemma length_append a b :
  String.length (a ++ b) = (String.length a + String.length b)%nat.
Proof. induction a as [|x a IH]; cbn; [reflexivity | now rewrite IH]. Qed.

Lemma prefix_append n b : prefix n (n ++ b) = true.
Proof.
  induction n as [|x n IH]; cbn; [now destruct b|].
  destruct (ascii_dec x x) as [_|H]; [exact IH | now destruct H].
Qed.

(** [needle in pre + needle + post] *)
Lemma contains_middle needle pre post :
  contains needle (pre ++ needle ++ post) = true.
Proof.
  induction pre as [|x pre IH].
  - cbn [append]. pose proof (prefix_append needle post) as H.
    destruct (needle ++ post); cbn [contains]; now rewrite H.
  - cbn [append contains]. rewrite IH. apply orb_true_r.
Qed.

(** [span] cuts its argument in two, the first part inside the class and
    the second not starting in it. *)
Lemma span_spec p s a b :
  span p s = (a, b) ->
  s = a ++ b /\ all_chars p a = true
  /\ match b with EmptyString => True | String c _ => p c = false end.
Proof.
  revert a b. induction s as [|c s IH]; intros a b; cbn.
  - intros [= <- <-]. auto.
  - destruct (p c) eqn:Hc.
    + destruct (span p s) as [a' b'] eqn:E. intros [= <- <-].
      destruct (IH a' b' eq_refl) as (-> & Ha & Hb).
      cbn. rewrite Hc. auto.
    + intros [= <- <-]. cbn. auto.
Qed.

Lemma span_stops p a b :
  all_chars p a = true ->
  match b with EmptyString => True | String c _ => p c = false end ->
  span p (a ++ b) = (a, b).
Proof.
  intros Ha Hb. induction a as [|x a IH]; cbn in *.
  - destruct b as [|c b]; cbn; [reflexivity | now rewrite Hb].
  - apply andb_prop in Ha as [Hx Ha]. now rewrite Hx, (IH Ha).
Qed.

Lemma rsplit_spec c s p q :
  rsplit c s = Some (p, q) ->
  s = p ++ String c q /\ all_chars (fun a => negb (Ascii.eqb a c)) q = true.
Proof.
  revert p q. induction s as [|a s IH]; intros p q; cbn; [discriminate|].
  destruct (rsplit c s) as [[p' q']|] eqn:E.
  - intros [= <- <-]. destruct (IH p' q' eq_refl) as (-> & Hq). auto.
  - destruct (Ascii.eqb_spec a c) as [-> | Hne]; [|discriminate].
    intros [= <- <-]. split; [reflexivity|].
    clear IH. revert E. induction s as [|b s IHs]; cbn; [reflexivity|].
    destruct (rsplit c s) as [[? ?]|]; [discriminate|].
    destruct (Ascii.eqb b c); [discriminate|]. intros _. now apply IHs.
Qed.

Lemma rsplit_none c q :
  all_chars (fun a => negb (Ascii.eqb a c)) q = true -> rsplit c q = None.
Proof.
  induction q as [|b q IH]; cbn; [reflexivity|].
  intros H. apply andb_prop in H as [Hb Hq]. rewrite (IH Hq).
  apply negb_true_iff in Hb. now rewrite Hb.
Qed.

Lemma rsplit_last c p q :
  all_chars (fun a => negb (Ascii.eqb a c)) q = true ->
  rsplit c (p ++ String c q) = Some (p, q).
Proof.
  intros Hq. induction p as [|a p IH]; cbn.
  - now rewrite (rsplit_none c q Hq), Ascii.eqb_refl.
  - now rewrite IH.
Qed.

(** What [rstrip] leaves does not end with white space. *)
Lemma rstrip_end s a c :
  rstrip s = a ++ String c "" -> is_space c = false.
Proof.
  revert a. induction s as [|x s IH]; intros a; cbn.
  - destruct a; discriminate.
  - destruct (rstrip s) as [|y r] eqn:E.
    + destruct (is_space x) eqn:Hx.
      * destruct a; discriminate.
      * destruct a as [|a0 a]; cbn.
        -- now intros [= <-].
        -- intros [= _ H]. destruct a; discriminate.
    + destruct a as [|a0 a]; cbn.
      * discriminate.
      * intros [= _ H]. now apply (IH a).
Qed.

Lemma at_dollar_cases rest :
  at_dollar rest = true -> rest = "" \/ rest = newline.
Proof.
  unfold at_dollar. intros H. apply orb_prop in H as [H | H];
    apply String.eqb_eq in H; auto.
Qed.

End StrFacts.

(** ** Validation *)

Import StrFacts.

(** X2.  [validate_email] accepts exactly the texts made of a non-empty
    local part over letters, digits and [._%+-], an at sign, a non-empty
    host over letters, digits, dots and hyphens, a dot, at least two
    letters, and then nothing or one newline. *)
Theorem validate_email_language (e : string) :
  validate_email e = true <->
  exists local host tld rest,
    e = local ++ "@" ++ host ++ "." ++ tld ++ rest
    /\ local <> "" /\ all_chars email_local_char local = true
    /\ host <> "" /\ all_chars email_domain_char host = true
    /\ all_chars is_alpha tld = true /\ (2 <= String.length tld)%nat
    /\ (rest = "" \/ rest = newline).
Proof.
  unfold validate_email. split.
  - destruct (span email_local_char e) as [local after] eqn:Hs.
    apply span_spec in Hs as (-> & Hlocal & _).
    destruct local as [|l0 local]; [discriminate|].
    destruct after as [|at_sign domain]; [discriminate|].
    intros H. apply andb_prop in H as [Hat H].
    apply Ascii.eqb_eq in Hat. subst at_sign.
    destruct (rsplit "." domain) as [[host tld_rest]|] eqn:Hr; [|discriminate].
    apply rsplit_spec in Hr as (-> & _).
    destruct (span is_alpha tld_rest) as [tld rest] eqn:Ht.
    apply span_spec in Ht as (-> & Htld & _).
    apply andb_prop in H as [H Hrest]. apply andb_prop in H as [H Hlen].
    apply andb_prop in H as [Hhost Hdom].
    exists (String l0 local), host, tld, rest.
    repeat split; auto.
    + discriminate.
    + intros ->. discriminate.
    + now apply Nat.leb_le in Hlen.
    + now apply at_dollar_cases.
  - intros (local & host & tld & rest & -> & Hne & Hlocal & Hhne & Hhost
            & Htld & Hlen & Hrest).
    rewrite (span_stops email_local_char local ("@" ++ host ++ "." ++ tld ++ rest)
               Hlocal eq_refl).
    destruct local as [|l0 local]; [congruence|].
    cbn [append]. cbn [Ascii.eqb Bool.eqb andb].
    assert (Hnodot : all_chars (fun a => negb (Ascii.eqb a ".")) (tld ++ rest)
                     = true).
    { rewrite AsciiFacts.all_chars_append. apply andb_true_intro. split.
      - clear Hlen. induction tld as [|c tld IH]; [reflexivity|].
        cbn in *. apply andb_prop in Htld as [Hc Htld].
        rewrite (IH Htld), andb_true_r.
        destruct (Ascii.eqb_spec c "."); [subst; discriminate | reflexivity].
      - destruct Hrest as [-> | ->]; reflexivity. }
    rewrite (rsplit_last "." host (tld ++ rest) Hnodot).
    rewrite (span_stops is_alpha tld rest Htld).
    2:{ destruct Hrest as [-> | ->]; [exact I | reflexivity]. }
    rewrite Hhost. apply Nat.leb_le in Hlen. rewrite Hlen.
    destruct host as [|h0 host]; [congruence|].
    destruct Hrest as [-> | ->]; reflexivity.
Qed.

(** *** Code points and the class of decimal digits *)

Module CodePointFacts.
Import PyStr.
Local Open Scope string_scope.

(** The first code point of a text is a byte with the continuation bytes
    after it. *)
Lemma codepoints_cons c r :
  codepoints (String c r)
  = String c (fst (span is_cont r)) :: codepoints (snd (span is_cont r)).
Proof.
  revert c. induction r as [|c' r IH]; intros c; [reflexivity|].
  change (codepoints (String c (String c' r)))
    with (match codepoints (String c' r) with
          | cp :: cps =>
              if starts_cont (String c' r) then String c cp :: cps
              else String c "" :: cp :: cps
          | [] => [String c ""]
          end).
  rewrite (IH c'). cbn [starts_cont span].
  destruct (is_cont c').
  - destruct (span is_cont r); reflexivity.
  - cbn [fst snd]. now rewrite (IH c').
Qed.

Lemma codepoints_split s cp rest :
  split_cp s = Some (cp, rest) -> codepoints s = cp :: codepoints rest.
Proof.
  destruct s as [|c r]; [discriminate|]. unfold split_cp, take_conts.
  rewrite codepoints_cons. destruct (span is_cont r) as [k rest'].
  now intros [= <- <-].
Qed.

Lemma codepoints_nil s : codepoints s = [] -> s = "".
Proof.
  destruct s as [|c r]; [reflexivity|]. rewrite codepoints_cons. discriminate.
Qed.

Lemma codepoints_cons_inv s cp cps :
  codepoints s = cp :: cps ->
  exists rest, split_cp s = Some (cp, rest) /\ codepoints rest = cps.
Proof.
  destruct s as [|c r]; [discriminate|]. rewrite codepoints_cons.
  unfold split_cp, take_conts. destruct (span is_cont r) as [k rest].
  cbn [fst snd]. intros [= <- <-]. eauto.
Qed.

Lemma codepoints_newline s : codepoints s = [newline] -> s = newline.
Proof.
  destruct s as [|c r]; [discriminate|]. rewrite codepoints_cons.
  destruct (span is_cont r) as [k rest] eqn:Hs. cbn [fst snd].
  intros [= -> -> Hrest]. apply codepoints_nil in Hrest. subst rest.
  apply StrFacts.span_spec in Hs as (-> & _). reflexivity.
Qed.

(** The texts [$] accepts, by their code points. *)
Lemma at_dollar_codepoints rest :
  at_dollar rest = true <->
  codepoints rest = [] \/ codepoints rest = [newline].
Proof.
  split.
  - intros H. apply StrFacts.at_dollar_cases in H as [-> | ->]; auto.
  - intros [H | H]; [apply codepoints_nil in H | apply codepoints_newline in H];
      now subst.
Qed.

(** [\d{n}] consumes the first [n] code points when they are decimal
    digits. *)
Lemma eat_decimals_codepoints {U : Unicode} n s rest :
  eat_decimals n s = Some rest ->
  exists ds,
    List.length ds = n /\ forallb is_decimal ds = true
    /\ codepoints s = (ds ++ codepoints rest)%list.
Proof.
  revert s. induction n as [|n IH]; intros s; cbn [eat_decimals].
  - intros [= <-]. exists []. auto.
  - destruct (split_cp s) as [[cp after]|] eqn:Hs; [|discriminate].
    destruct (is_decimal cp) eqn:Hd; [|discriminate].
    intros H. destruct (IH _ H) as (ds & Hlen & Hall & Hcp).
    exists (cp :: ds). cbn. rewrite Hlen, Hd, Hall.
    repeat split. rewrite (codepoints_split _ _ _ Hs), Hcp. reflexivity.
Qed.

Lemma codepoints_eat_decimals {U : Unicode} ds s tail :
  forallb is_decimal ds = true ->
  codepoints s = (ds ++ tail)%list ->
  exists rest,
    eat_decimals (List.length ds) s = Some rest /\ codepoints rest = tail.
Proof.
  revert s. induction ds as [|d ds IH]; intros s Hall Hcp.
  - exists s. auto.
  - cbn [forallb] in Hall. apply andb_prop in Hall as [Hd Hall].
    cbn [app] in Hcp.
    destruct (codepoints_cons_inv _ _ _ Hcp) as (after & Hs & Hafter).
    destruct (IH after Hall Hafter) as (rest & Heat & Hrest).
    exists rest. cbn [List.length eat_decimals]. now rewrite Hs, Hd.
Qed.

(** The code points of a text of ASCII characters are its characters. *)
Lemma codepoints_ascii s :
  all_chars is_ascii s = true ->
  codepoints s = map (fun c => String c "") (list_ascii_of_string s).
Proof.
  induction s as [|c r IH]; [reflexivity|]. cbn [all_chars].
  intros H. apply andb_prop in H as [_ Hr].
  rewrite codepoints_cons.
  assert (Hspan : span is_cont r = ("", r)).
  { destruct r as [|c' r']; [reflexivity|]. cbn [span].
    cbn [all_chars] in Hr. apply andb_prop in Hr as [Hc' _].
    now rewrite (AsciiFacts.is_ascii_not_cont _ Hc'). }
  rewrite Hspan. cbn [fst snd list_ascii_of_string map]. now rewrite IH.
Qed.

End CodePointFacts.

Import StrFacts CodePointFacts.

(** X1.  [validate_order_id] accepts exactly the letter A followed by a
    text whose code points are four decimal digits, of any script, and
    then nothing or one newline.  Among the texts of ASCII characters
    these are the ids of the format, an A and four of the digits 0 to 9,
    and those ids followed by one newline. *)
Theorem validate_order_id_language {U : Unicode} (s : string) :
  (validate_order_id s = true <->
   exists r d1 d2 d3 d4 tail,
     s = String "A" r
     /\ codepoints r = d1 :: d2 :: d3 :: d4 :: tail
     /\ forallb is_decimal [d1; d2; d3; d4] = true
     /\ (tail = [] \/ tail = [newline]))
  /\ (all_chars is_ascii s = true ->
      (validate_order_id s = true <->
       exists t, order_id_format t = true /\ (s = t \/ s = t ++ newline))).
Proof.
  assert (Hgeneral : forall V : Unicode,
    @validate_order_id V s = true <->
    exists r d1 d2 d3 d4 tail,
      s = String "A" r
      /\ codepoints r = d1 :: d2 :: d3 :: d4 :: tail
      /\ forallb (@is_decimal V) [d1; d2; d3; d4] = true
      /\ (tail = [] \/ tail = [newline])).
  { intros V. unfold validate_order_id. split.
    - destruct s as [|a r]; [discriminate|]. intros H.
      apply andb_prop in H as [Ha H]. apply Ascii.eqb_eq in Ha. subst a.
      destruct (eat_decimals 4 r) as [rest|] eqn:Heat; [|discriminate].
      destruct (eat_decimals_codepoints _ _ _ Heat) as (ds & Hlen & Hall & Hcp).
      destruct ds as [|d1 [|d2 [|d3 [|d4 [|]]]]]; try discriminate Hlen.
      exists r, d1, d2, d3, d4, (codepoints rest).
      repeat split; [exact Hcp | exact Hall |].
      now apply at_dollar_codepoints.
    - intros (r & d1 & d2 & d3 & d4 & tail & -> & Hcp & Hall & Htail).
      rewrite Ascii.eqb_refl. cbn [andb].
      destruct (codepoints_eat_decimals [d1; d2; d3; d4] r tail Hall Hcp)
        as (rest & Heat & Hrest).
      cbn [List.length] in Heat. rewrite Heat.
      apply at_dollar_codepoints. now rewrite Hrest. }
  split; [apply Hgeneral|].
  intros Hascii. rewrite (validate_order_id_ascii s Hascii).
  rewrite (Hgeneral AsciiText.unicode). split.
  - intros (r & d1 & d2 & d3 & d4 & tail & -> & Hcp & Hall & Htail).
    cbn [all_chars] in Hascii. apply andb_prop in Hascii as [_ Hr].
    rewrite (codepoints_ascii r Hr) in Hcp.
    destruct r as [|c1 [|c2 [|c3 [|c4 rest]]]]; try discriminate Hcp.
    cbn [list_ascii_of_string map] in Hcp.
    injection Hcp as <- <- <- <- Htl.
    cbn in Hall.
    repeat match type of Hall with
           | (_ && _)%bool = true => apply andb_prop in Hall as [? Hall]
           end.
    exists (String "A" (String c1 (String c2 (String c3 (String c4 ""))))).
    split.
    { cbn. repeat match goal with
                  | H : is_digit _ = true |- _ => rewrite H; clear H
                  end. reflexivity. }
    cbn [all_chars] in Hr.
    repeat match type of Hr with
           | (_ && _)%bool = true => apply andb_prop in Hr as [? Hr]
           end.
    rewrite <- (codepoints_ascii rest Hr) in Htl.
    destruct Htail as [-> | ->].
    + left. apply codepoints_nil in Htl. now subst.
    + right. apply codepoints_newline in Htl. now subst.
  - intros (t & Ht & Hs).
    destruct t as [|a [|c1 [|c2 [|c3 [|c4 [|]]]]]]; try discriminate Ht.
    cbn in Ht.
    repeat match type of Ht with
           | (_ && _)%bool = true => apply andb_prop in Ht as [Ht ?]
           end.
    apply Ascii.eqb_eq in Ht. subst a.
    assert (Hdec : forallb (@is_decimal AsciiText.unicode)
                     [String c1 ""; String c2 ""; String c3 ""; String c4 ""]
                   = true).
    { cbn. repeat match goal with
                  | H : is_digit _ = true |- _ => rewrite H
                  end. reflexivity. }
    assert (Hcp : forall rest,
              all_chars is_ascii rest = true ->
              codepoints (String c1 (String c2 (String c3 (String c4 rest))))
              = String c1 "" :: String c2 "" :: String c3 "" :: String c4 ""
                :: codepoints rest).
    { intros rest Hrest. rewrite !codepoints_ascii; [reflexivity | exact Hrest |].
      cbn [all_chars]. rewrite Hrest.
      rewrite !AsciiFacts.digit_is_ascii by assumption. reflexivity. }
    destruct Hs as [-> | ->].
    + exists (String c1 (String c2 (String c3 (String c4 "")))).
      do 4 eexists. exists []. split; [reflexivity|].
      split; [exact (Hcp "" eq_refl)|]. split; [exact Hdec | now left].
    + exists (String c1 (String c2 (String c3 (String c4 newline)))).
      do 4 eexists. exists [newline]. split; [reflexivity|].
      split; [exact (Hcp newline eq_refl)|]. split; [exact Hdec | now right].
Qed.

(** X3.  [validate_zip_code] accepts a text exactly when the code points
    of the stripped text are five or six decimal digits, of any script,
    and then nothing or one newline.  For a text of ASCII characters, that
    is when the text stripped of its white space is five or six of the
    digits 0 to 9; a trailing newline is no exception here, [strip] has
    removed it before [$] is tried. *)
Theorem validate_zip_code_exact {U : Unicode} (zip_code : string) :
  (validate_zip_code zip_code = true <->
   exists ds tail,
     codepoints (strip zip_code) = (ds ++ tail)%list
     /\ (List.length ds = 5 \/ List.length ds = 6)%nat
     /\ forallb is_decimal ds = true
     /\ (tail = [] \/ tail = [newline]))
  /\ (all_chars is_ascii zip_code = true ->
      (validate_zip_code zip_code = true <->
       all_chars is_digit (ascii_strip zip_code) = true
       /\ (String.length (ascii_strip zip_code) = 5
           \/ String.length (ascii_strip zip_code) = 6)%nat)).
Proof.
  assert (Hgeneral :
    validate_zip_code zip_code = true <->
    exists ds tail,
      codepoints (strip zip_code) = (ds ++ tail)%list
      /\ (List.length ds = 5 \/ List.length ds = 6)%nat
      /\ forallb is_decimal ds = true
      /\ (tail = [] \/ tail = [newline])).
  { unfold validate_zip_code. generalize (strip zip_code). intros z. split.
    - destruct (eat_decimals 5 z) as [after_five|] eqn:H5; [|discriminate].
      destruct (eat_decimals_codepoints _ _ _ H5) as (ds & Hlen & Hall & Hcp).
      intros H. apply orb_prop in H as [H | H].
      + destruct (eat_decimals 1 after_five) as [after_six|] eqn:H6;
          [|discriminate].
        destruct (eat_decimals_codepoints _ _ _ H6)
          as (ds' & Hlen' & Hall' & Hcp').
        exists (ds ++ ds')%list, (codepoints after_six).
        rewrite Hcp, Hcp', app_assoc, length_app, Hlen, Hlen', forallb_app,
          Hall, Hall'.
        repeat split; [now right|]. now apply at_dollar_codepoints.
      + exists ds, (codepoints after_five). rewrite Hcp, Hlen, Hall.
        repeat split; [now left|]. now apply at_dollar_codepoints.
    - intros (ds & tail & Hcp & Hlen & Hall & Htail).
      destruct Hlen as [Hlen | Hlen].
      + destruct (codepoints_eat_decimals ds z tail Hall Hcp)
          as (rest & Heat & Hrest).
        rewrite Hlen in Heat. rewrite Heat.
        apply orb_true_iff. right.
        apply at_dollar_codepoints. now rewrite Hrest.
      + destruct ds as [|d1 [|d2 [|d3 [|d4 [|d5 [|d6 [|]]]]]]];
          try discriminate Hlen.
        assert (Hall5 : forallb is_decimal [d1; d2; d3; d4; d5] = true
                        /\ forallb is_decimal [d6] = true).
        { cbn in Hall |- *.
          repeat match type of Hall with
                 | (_ && _)%bool = true => apply andb_prop in Hall as [? Hall]
                 end.
          repeat match goal with
                 | H : is_decimal _ = true |- _ => rewrite H
                 end. auto. }
        destruct Hall5 as [Hall5 Hall6].
        destruct (codepoints_eat_decimals [d1; d2; d3; d4; d5] z (d6 :: tail)
                    Hall5 Hcp) as (after_five & Heat5 & Hrest5).
        cbn [List.length] in Heat5. rewrite Heat5.
        destruct (codepoints_eat_decimals [d6] after_five tail Hall6 Hrest5)
          as (after_six & Heat6 & Hrest6).
        cbn [List.length] in Heat6. rewrite Heat6.
        apply orb_true_iff. left.
        apply at_dollar_codepoints. now rewrite Hrest6. }
  split; [exact Hgeneral|].
  intros Hascii. rewrite Hgeneral, (strip_ascii zip_code Hascii).
  assert (Hstripped : all_chars is_ascii (ascii_strip zip_code) = true).
  { unfold ascii_strip.
    assert (Hl : forall s, all_chars is_ascii s = true ->
                           all_chars is_ascii (lstrip s) = true).
    { induction s as [|c s IH]; [reflexivity|]. cbn [lstrip all_chars].
      intros H. destruct (is_space c); [|exact H].
      apply andb_prop in H as [_ H]. now apply IH. }
    assert (Hr : forall s, all_chars is_ascii s = true ->
                           all_chars is_ascii (rstrip s) = true).
    { induction s as [|c s IH]; [reflexivity|]. cbn [rstrip all_chars].
      intros H. apply andb_prop in H as [Hc H]. specialize (IH H).
      destruct (rstrip s) as [|c' r'].
      - destruct (is_space c); [reflexivity|]. cbn [all_chars].
        now rewrite Hc.
      - cbn [all_chars] in *. now rewrite Hc, IH. }
    now apply Hr, Hl. }
  assert (Hend : forall a, ascii_strip zip_code <> a ++ newline).
  { intros a Ha. unfold ascii_strip in Ha. apply rstrip_end in Ha.
    discriminate Ha. }
  generalize dependent (ascii_strip zip_code). intros z Hz Hend.
  rewrite (codepoints_ascii z Hz). split.
  - intros (ds & tail & Hcp & Hlen & Hall & Htail).
    assert (Htl : tail = []).
    { destruct Htail as [-> | ->]; [reflexivity|]. exfalso.
      assert (Hz' : exists a, z = a ++ newline).
      { clear Hend Hlen Hall Hz. revert z Hcp.
        induction ds as [|d ds IH]; intros z Hcp.
        - destruct z as [|c [|c' z']]; try discriminate Hcp.
          cbn in Hcp. injection Hcp as ->. now exists "".
        - destruct z as [|c z']; [discriminate Hcp|].
          cbn [list_ascii_of_string map app] in Hcp. injection Hcp as _ Hcp.
          destruct (IH z' Hcp) as (a & ->). now exists (String c a). }
      destruct Hz' as (a & Ha). now apply Hend in Ha. }
    subst tail. rewrite app_nil_r in Hcp. subst ds.
    rewrite length_map in Hlen.
    assert (Hlength : forall s, List.length (list_ascii_of_string s)
                                = String.length s).
    { induction s as [|c s IH]; [reflexivity|]. cbn. now rewrite IH. }
    rewrite Hlength in Hlen. split; [|exact Hlen].
    clear Hlen Hend. induction z as [|c z IH]; [reflexivity|].
    cbn [list_ascii_of_string map forallb all_chars] in *.
    apply andb_prop in Hall as [Hc Hall]. apply andb_prop in Hz as [Hca Hz].
    rewrite (is_decimal_ascii c Hca) in Hc. rewrite Hc. now apply IH.
  - intros [Hdigits Hlen].
    exists (map (fun c => String c "") (list_ascii_of_string z)), [].
    rewrite app_nil_r, length_map.
    assert (Hlength : forall s, List.length (list_ascii_of_string s)
                                = String.length s).
    { induction s as [|c s IH]; [reflexivity|]. cbn. now rewrite IH. }
    rewrite Hlength. repeat split; [exact Hlen | | now left].
    clear Hlen Hend. induction z as [|c z IH]; [reflexivity|].
    cbn [list_ascii_of_string map forallb all_chars] in *.
    apply andb_prop in Hdigits as [Hc Hdigits]. apply andb_prop in Hz as [Hca Hz].
    rewrite (is_decimal_ascii c Hca), Hc. now apply IH.
Qed.

(** ** More on order_cancel and order_lookup *)

Lemma py_iter_raises data e : py_iter data = Raise e -> e = TypeError.
Proof. destruct data; cbn; congruence. Qed.

Lemma subscript_raises data key e :
  subscript data key = Raise e -> e = KeyError \/ e = TypeError.
Proof.
  destruct data as [| | | | | |d]; cbn; try (intros [= <-]; auto).
  destruct (get key d); [discriminate|]. intros [= <-]. auto.
Qed.

Lemma cancel_scan_raises order_id0 elements e :
  cancel_scan order_id0 elements = Raise e -> e = KeyError \/ e = TypeError.
Proof.
  induction elements as [|o rest IH]; cbn [cancel_scan]; [discriminate|].
  destruct (subscript o "order_id") as [id|e0] eqn:Hsub.
  - destruct (eq_str order_id0 id); [discriminate | exact IH].
  - intros [= <-]. exact (subscript_raises _ _ _ Hsub).
Qed.

Lemma datetime_sub_raises a b e : datetime_sub a b = Raise e -> e = TypeError.
Proof.
  unfold datetime_sub. destruct (utcoffset a), (utcoffset b); congruence.
Qed.

(** X6.  The exceptions that leave [order_cancel], each with the place
    it comes from: loading the order file, when it is neither
    [FileNotFoundError] nor [JSONDecodeError]; iterating over what the file
    holds, [TypeError]; the subscript [o["order_id"]] of the search,
    [KeyError] or [TypeError]; the call of [replace] on a [created_at] that
    is no str, [AttributeError]; and the subtraction of a naive from an
    aware datetime or the reverse, [TypeError]. *)
Theorem order_cancel_raises {U : Unicode}
    fromisoformat isoformat order_id0 simulated_now w e :
  fst (order_cancel fromisoformat isoformat order_id0 simulated_now w)
  = Raise e ->
  validate_order_id order_id0 = true
  /\ ((orders_json w = Raise e /\ e <> FileNotFoundError /\ e <> JSONDecodeError)
      \/ (e = TypeError /\ exists store,
            orders_json w = Ok store /\ py_iter store = Raise TypeError)
      \/ ((e = KeyError \/ e = TypeError) /\ exists store elements,
            orders_json w = Ok store /\ py_iter store = Ok elements
            /\ cancel_scan order_id0 elements = Raise e)
      \/ (e = AttributeError /\ exists o v,
            stored_order order_id0 w = Some o
            /\ subscript o "created_at" = Ok v /\ forall s, v <> JStr s)
      \/ (e = TypeError /\ exists o created now,
            stored_order order_id0 w = Some o
            /\ created_of fromisoformat o = Some created
            /\ reference_now fromisoformat simulated_now w = Some now
            /\ datetime_sub now created = Raise TypeError)).
Proof.
  intros H.
  unfold order_cancel, IO.bind, IO.except_load, IO.load_orders, IO.now_utc,
    IO.lift in H.
  destruct (validate_order_id order_id0); cbn [negb] in H; [|discriminate H].
  split; [reflexivity|].
  destruct (orders_json w) as [store|e0] eqn:Hstore.
  2:{ destruct e0; cbn in H; try discriminate H; injection H as <-; left;
        repeat split; discriminate. }
  destruct (py_iter store) as [elements|e0] eqn:Hiter.
  2:{ cbn in H. injection H as <-. right. left.
      pose proof (py_iter_raises _ _ Hiter) as ->. eauto. }
  destruct (cancel_scan order_id0 elements) as [[o|]|e0] eqn:Hscan;
    [|discriminate H|].
  2:{ cbn in H. injection H as <-. right. right. left.
      split; [exact (cancel_scan_raises _ _ _ Hscan)|]. eauto. }
  assert (Hfound : stored_order order_id0 w = Some o).
  { unfold stored_order. now rewrite Hstore, Hiter, Hscan. }
  destruct (negb (truthy o)); [discriminate H|].
  destruct (subscript o "created_at") as [v|e0] eqn:Hsub.
  2:{ destruct (CancelFacts.cancel_scan_found _ _ _ Hscan)
        as (_ & d & -> & _).
      cbn in Hsub. destruct (get "created_at" d); [discriminate Hsub|].
      injection Hsub as <-. discriminate H. }
  destruct (match v with JStr s => Some s | _ => None end) as [s|] eqn:Hv.
  2:{ right. right. right. left.
      assert (Hno : forall s, v <> JStr s)
        by (intros s ->; discriminate Hv).
      destruct v; try discriminate Hv; injection H as <-;
        (split; [reflexivity|]); eauto. }
  destruct v; try discriminate Hv. injection Hv as ->.
  destruct (parse_timestamp fromisoformat s) as [created|msg] eqn:Hc;
    [|discriminate H].
  assert (Hcreated : created_of fromisoformat o = Some created).
  { unfold created_of. now rewrite Hsub, Hc. }
  assert (Hdecide : forall now w0,
    fst (match datetime_sub now created with
         | Raise e => IO.raise e
         | Ok us =>
             if Float64.le_int (minutes_of_us us) 60
             then IO.ret (cancel_success order_id0 (isoformat now)
                                         (minutes_of_us us))
             else IO.ret (cancel_blocked (minutes_of_us us))
         end w0) = Raise e ->
    e = TypeError /\ datetime_sub now created = Raise TypeError).
  { intros now w0. destruct (datetime_sub now created) as [us|e0] eqn:Hsubt.
    - destruct (Float64.le_int _ _); discriminate.
    - pose proof (datetime_sub_raises _ _ _ Hsubt) as ->.
      intros [= <-]. auto. }
  right. right. right. right. unfold reference_now.
  destruct simulated_now as [[|c t]|].
  - apply Hdecide in H as [-> H]. split; [reflexivity|].
    exists o, created. eexists. repeat split; eauto.
  - destruct (parse_timestamp _ (String c t)) as [now|msg] eqn:Hn;
      [|discriminate H].
    apply Hdecide in H as [-> H]. split; [reflexivity|].
    exists o, created, now. repeat split; auto.
  - apply Hdecide in H as [-> H]. split; [reflexivity|].
    exists o, created. eexists. repeat split; eauto.
Qed.

(** X6 on an order file with a record that has no [order_id]. *)
Lemma order_cancel_raises_witness :
  let w := {| orders_json := Ok (JArr [JObj [("email", JStr "mira@example.com")]]);
              products_json := Ok []; clock_us := 0 |} in
  fst (@order_cancel AsciiText.unicode Iso8601.fromisoformat (fun _ => "")
         "A1003" None w) = Raise KeyError
  /\ @validate_order_id AsciiText.unicode "A1003" = true.
Proof.
  intros w.
  assert (H : fst (@order_cancel AsciiText.unicode Iso8601.fromisoformat
                     (fun _ => "") "A1003" None w) = Raise KeyError)
    by reflexivity.
  split; [exact H|].
  exact (proj1 (@order_cancel_raises AsciiText.unicode Iso8601.fromisoformat
                  (fun _ => "") "A1003" None w KeyError H)).
Defined.

(** A reference time written without offset against an order created at
    a time with one. *)
Example order_cancel_raises_on_naive_now :
  fst (@order_cancel AsciiText.unicode Iso8601.fromisoformat (fun _ => "")
         "A1003" (Some "2025-09-07T12:55:00") Iso8601.world)
  = Raise TypeError.
Proof. vm_compute. reflexivity. Qed.

(** X7.  Every dict [order_cancel] returns has a boolean [success]; with
    [success] true it has a message and neither [error] nor [reason]; with
    [success] false it has exactly one of [error] and [reason]. *)
Theorem order_cancel_result_keys {U : Unicode}
    fromisoformat isoformat order_id0 simulated_now w v :
  fst (order_cancel fromisoformat isoformat order_id0 simulated_now w) = Ok v ->
  exists d b,
    v = JObj d /\ get "success" d = Some (JBool b)
    /\ (b = true ->
        has "message" d = true /\ has "error" d = false
        /\ has "reason" d = false)
    /\ (b = false -> has "error" d = negb (has "reason" d)).
Proof.
  intros H. apply order_cancel_results in H
    as [(msg & ->) | [(now & us & _ & _ & ->) | (now & us & _ & _ & ->)]];
    eexists; eexists; (split; [reflexivity|]); (split; [reflexivity|]);
    split; intros; try discriminate; repeat split.
Qed.

Lemma order_cancel_result_keys_witness :
  exists d b,
    cancel_success "A1003" "2025-09-07T12:30:00+00:00" 35 = JObj d
    /\ get "success" d = Some (JBool b)
    /\ (b = true ->
        has "message" d = true /\ has "error" d = false
        /\ has "reason" d = false)
    /\ (b = false -> has "error" d = negb (has "reason" d)).
Proof.
  apply (@order_cancel_result_keys AsciiText.unicode Iso8601.fromisoformat
           (fun _ => "2025-09-07T12:30:00+00:00")
           "A1003" (Some "2025-09-07T12:30:00Z") Iso8601.world).
  vm_compute. reflexivity.
Defined.

Lemma cancel_scan_none order_id0 elements :
  (forall o, In o elements ->
     exists id, subscript o "order_id" = Ok id /\ id <> JStr order_id0) ->
  cancel_scan order_id0 elements = Ok None.
Proof.
  induction elements as [|o rest IH]; intros Hall; [reflexivity|].
  cbn [cancel_scan].
  destruct (Hall o (or_introl eq_refl)) as (id & -> & Hne).
  destruct (eq_str order_id0 id) eqn:E.
  - destruct id; try discriminate E. cbn in E.
    apply String.eqb_eq in E. now subst.
  - apply IH. intros o' Ho'. apply Hall. now right.
Qed.

(** X8.  The failures of [order_cancel] on a well-formed id, in the order
    the code meets them: an order file that is missing or is not JSON, an
    id that no record carries, a record without creation time, a creation
    time that does not parse (whatever reference time was supplied) and
    then a supplied reference time that does not parse. *)
Theorem order_cancel_failures {U : Unicode}
    fromisoformat isoformat order_id0 simulated_now w :
  validate_order_id order_id0 = true ->
  let r := fst (order_cancel fromisoformat isoformat order_id0 simulated_now w) in
  (orders_json w = Raise FileNotFoundError
   \/ orders_json w = Raise JSONDecodeError ->
   r = Ok (failure_dict
             "Unable to access order database. Please try again later."))
  /\ (forall store elements,
        orders_json w = Ok store ->
        py_iter store = Ok elements ->
        (forall o, In o elements ->
           exists id, subscript o "order_id" = Ok id /\ id <> JStr order_id0) ->
        r = Ok (failure_dict ("Order " ++ order_id0
                              ++ " not found in the system.")))
  /\ (forall o,
        stored_order order_id0 w = Some o ->
        subscript o "created_at" = Raise KeyError ->
        r = Ok (failure_dict "Error processing order timestamps: 'created_at'"))
  /\ (forall o created_at_str msg,
        stored_order order_id0 w = Some o ->
        subscript o "created_at" = Ok (JStr created_at_str) ->
        parse_timestamp fromisoformat created_at_str = IsoValueError msg ->
        r = Ok (failure_dict ("Error processing order timestamps: " ++ msg)))
  /\ (forall o created text msg,
        stored_order order_id0 w = Some o ->
        created_of fromisoformat o = Some created ->
        simulated_now = Some text -> text <> "" ->
        parse_timestamp fromisoformat text = IsoValueError msg ->
        r = Ok (failure_dict ("Invalid timestamp format: " ++ text))).
Proof.
  intros Hid r. subst r.
  unfold order_cancel, IO.bind, IO.except_load, IO.load_orders, IO.lift.
  rewrite Hid. cbn [negb]. repeat split.
  - intros [-> | ->]; reflexivity.
  - intros store elements -> -> Hnone.
    now rewrite (cancel_scan_none _ _ Hnone).
  - intros o Hfind Hsub.
    destruct (CancelFacts.stored_order_found _ _ _ Hfind)
      as (store & elements & -> & -> & -> & ->).
    cbn [negb]. now rewrite Hsub.
  - intros o s msg Hfind Hsub Hparse.
    destruct (CancelFacts.stored_order_found _ _ _ Hfind)
      as (store & elements & -> & -> & -> & ->).
    cbn [negb]. now rewrite Hsub, Hparse.
  - intros o created text msg Hfind Hcreated -> Htext Hnow.
    destruct (CancelFacts.stored_order_found _ _ _ Hfind)
      as (store & elements & -> & -> & -> & ->).
    destruct (CancelFacts.created_of_found _ _ _ Hcreated) as (s & -> & ->).
    cbn [negb].
    destruct text as [|c t]; [congruence|]. now rewrite Hnow.
Qed.

Lemma order_cancel_failures_witness :
  fst (@order_cancel AsciiText.unicode Iso8601.fromisoformat (fun _ => "")
         "A9999" (Some "2025-09-07T12:00:00Z") Iso8601.world)
  = Ok (failure_dict ("Order " ++ "A9999" ++ " not found in the system.")).
Proof.
  refine (proj1 (proj2 (@order_cancel_failures AsciiText.unicode
                          Iso8601.fromisoformat
                          (fun _ => "") "A9999" (Some "2025-09-07T12:00:00Z")
                          Iso8601.world eq_refl))
            (JArr Iso8601.orders) Iso8601.orders eq_refl eq_refl _).
  intros o [<- | [<- | []]]; eexists; (split; [reflexivity | discriminate]).
Defined.

(** X9.  The minutes a result reports agree with its verdict only up to
    rounding: a successful result reports at most 60.0, a blocked result
    reports an integer that is at least 60 (60 itself for a cancellation
    up to a minute late). *)
Theorem order_cancel_minutes_bounds {U : Unicode}
    fromisoformat isoformat order_id0 simulated_now w d :
  fst (order_cancel fromisoformat isoformat order_id0 simulated_now w)
  = Ok (JObj d) ->
  (forall x, get "minutes_since_order" d = Some (JFloat x) ->
             get "success" d = Some (JBool true) /\ (x <= 60)%Q)
  /\ (forall n, get "minutes_since_order" d = Some (JInt n) ->
                get "success" d = Some (JBool false) /\ (60 <= n)%Z).
Proof.
  intros H. apply order_cancel_results in H
    as [(msg & E) | [(now & us & _ & Hle & E) | (now & us & _ & Hgt & E)]];
    injection E as ->.
  - split; intros ? [=].
  - split; [|intros ? [=]]. intros x [= <-]. split; [reflexivity|].
    unfold Float64.round1.
    apply (Float64Facts.RN_le _ (inject_Z 60) CancelFacts.representable_60).
    apply Qle_shift_div_r; [reflexivity|].
    change (inject_Z 60 * 10)%Q with (inject_Z 600). rewrite <- Zle_Qle.
    apply Float64Facts.rint_le.
    pose proof (CancelFacts.minutes_within us Hle) as Hm.
    change (inject_Z 600) with (600 # 1)%Q. lra.
  - split; [intros ? [=]|]. intros n [= <-]. split; [reflexivity|].
    pose proof (CancelFacts.minutes_beyond us Hgt) as Hm.
    unfold Float64.trunc.
    assert (H0 : Qle_bool 0 (minutes_of_us us) = true)
      by (apply Qle_bool_iff; lra).
    rewrite H0. rewrite <- (Qfloor_Z 60). apply Qfloor_resp_le.
    change (inject_Z 60) with (60 # 1)%Q. lra.
Qed.

Lemma order_cancel_minutes_bounds_witness :
  get "success"
    [("success", JBool false);
     ("reason",
      JStr "Cancellation failed: Order was placed more than 60 minutes ago.");
     ("minutes_since_order", JInt 60);
     ("policy",
      JStr "Orders can only be canceled within 60 minutes of placement.")]
  = Some (JBool false) /\ (60 <= 60)%Z.
Proof.
  refine (proj2 (@order_cancel_minutes_bounds AsciiText.unicode
                   Iso8601.fromisoformat
                   (fun _ => "") "A1003" (Some "2025-09-07T12:55:01Z")
                   Iso8601.world
                   [("success", JBool false);
                    ("reason",
                     JStr "Cancellation failed: Order was placed more than 60 minutes ago.");
                    ("minutes_since_order", JInt 60);
                    ("policy",
                     JStr "Orders can only be canceled within 60 minutes of placement.")]
                   _) 60%Z eq_refl).
  vm_compute. reflexivity.
Defined.

(** Over records that all have the two members, the loop of
    [order_lookup] is a [find]. *)
Lemma lookup_scan_find order_id0 email0 records :
  (forall o, In o records ->
     exists d id em,
       o = JObj d /\ get "order_id" d = Some id /\ get "email" d = Some em) ->
  lookup_scan order_id0 email0 records
  = Ok (find (fun o =>
               match subscript o "order_id", subscript o "email" with
               | Ok id, Ok em => eq_str order_id0 id && eq_str email0 em
               | _, _ => false
               end) records).
Proof.
  induction records as [|o rest IH]; intros Hall; [reflexivity|].
  cbn [lookup_scan find].
  destruct (Hall o (or_introl eq_refl)) as (d & id & em & -> & Hid & Hem).
  cbn [subscript]. rewrite Hid, Hem.
  assert (IH' := IH (fun o' Ho' => Hall o' (or_intror Ho'))).
  destruct (eq_str order_id0 id); cbn [andb]; [|exact IH'].
  destruct (eq_str email0 em); [reflexivity | exact IH'].
Qed.

Lemma eq_str_true s v : eq_str s v = true -> v = JStr s.
Proof.
  destruct v; try discriminate. cbn. intros H.
  apply String.eqb_eq in H. now subst.
Qed.

(** X10.  With a well-formed id and email and a readable order file
    whose records have an [order_id] and an [email], [order_lookup]
    returns a record exactly when some record carries both the id and the
    email, and then the first such record; otherwise it returns the
    not-found error.  It never changes the world. *)
Theorem order_lookup_finds {U : Unicode} order_id0 email0 w records :
  validate_order_id order_id0 = true ->
  validate_email email0 = true ->
  orders_json w = Ok (JArr records) ->
  (forall o, In o records ->
     exists d id em,
       o = JObj d /\ get "order_id" d = Some id /\ get "email" d = Some em) ->
  let carries o := subscript o "order_id" = Ok (JStr order_id0)
                   /\ subscript o "email" = Ok (JStr email0) in
  let wanted o :=
    match subscript o "order_id", subscript o "email" with
    | Ok id, Ok em => eq_str order_id0 id && eq_str email0 em
    | _, _ => false
    end in
  (forall o, find wanted records = Some o ->
             order_lookup order_id0 email0 w = (Ok o, w)
             /\ In o records /\ carries o)
  /\ ((exists o, In o records /\ carries o)
      -> exists o, find wanted records = Some o)
  /\ ((forall o, In o records -> ~ carries o)
      -> order_lookup order_id0 email0 w
         = (Ok (error_dict
                  "Order not found. Please check your order ID and email address."),
            w)).
Proof.
  intros Hid Hem Hstore Hshape carries wanted.
  assert (Hrun : order_lookup order_id0 email0 w
                 = (match find wanted records with
                    | Some o => Ok o
                    | None =>
                        Ok (error_dict
                              "Order not found. Please check your order ID and email address.")
                    end, w)).
  { unfold order_lookup. rewrite Hid, Hem. cbn [negb].
    unfold IO.bind, IO.except_load, IO.load_orders, IO.lift. rewrite Hstore.
    cbn [py_iter]. rewrite (lookup_scan_find _ _ _ Hshape).
    fold wanted. destruct (find wanted records); reflexivity. }
  assert (Hwanted : forall o, wanted o = true -> carries o).
  { intros o E. unfold wanted in E. unfold carries.
    destruct (subscript o "order_id") as [id|]; [|discriminate E].
    destruct (subscript o "email") as [em|]; [|discriminate E].
    apply andb_prop in E as [E1 E2].
    now rewrite (eq_str_true _ _ E1), (eq_str_true _ _ E2). }
  assert (Hcarries : forall o, carries o -> wanted o = true).
  { intros o [E1 E2]. unfold wanted. rewrite E1, E2. cbn.
    now rewrite !String.eqb_refl. }
  split; [|split].
  - intros o Hfind. rewrite Hrun, Hfind. split; [reflexivity|].
    apply find_some in Hfind as [Hin E]. auto.
  - intros (o & Hin & Hc).
    destruct (find wanted records) as [o'|] eqn:Hfind; [eauto|].
    pose proof (find_none _ _ Hfind o Hin) as Hno.
    rewrite (Hcarries o Hc) in Hno. discriminate Hno.
  - intros Hnone. rewrite Hrun.
    destruct (find wanted records) as [o|] eqn:Hfind; [|reflexivity].
    apply find_some in Hfind as [Hin E].
    destruct (Hnone o Hin). auto.
Qed.

Lemma order_lookup_finds_witness :
  @order_lookup AsciiText.unicode "A1003" "mira@example.com" Iso8601.world
  = (Ok (order_record "A1003" "mira@example.com" "2025-09-07T11:55:00Z"),
     Iso8601.world).
Proof.
  refine (proj1 (proj1 (@order_lookup_finds AsciiText.unicode
                          "A1003" "mira@example.com"
                          Iso8601.world Iso8601.orders eq_refl eq_refl eq_refl _)
                   _ _)).
  - intros o [<- | [<- | []]]; do 3 eexists;
      (split; [reflexivity|]); split; reflexivity.
  - reflexivity.
Defined.

(** Where no two records share an id, the search of [order_cancel] ends
    at the record the search of [order_lookup] ended at. *)
Lemma lookup_scan_cancel_scan order_id0 email0 records o :
  NoDup (map (fun o => subscript o "order_id") records) ->
  lookup_scan order_id0 email0 records = Ok (Some o) ->
  cancel_scan order_id0 records = Ok (Some o).
Proof.
  induction records as [|x rest IH]; intros Hnd; cbn [lookup_scan cancel_scan];
    [discriminate|].
  cbn [map] in Hnd. inversion Hnd as [|? ? Hx Hnd']; subst.
  destruct (subscript x "order_id") as [id|] eqn:Hid; [|discriminate].
  destruct (eq_str order_id0 id) eqn:E.
  - destruct (subscript x "email") as [em|]; [|discriminate].
    destruct (eq_str email0 em); [now intros [= <-]|].
    intros Hscan. exfalso. apply Hx.
    assert (Hrest : forall y, lookup_scan order_id0 email0 rest = Ok (Some y) ->
                              In y rest /\ subscript y "order_id" = Ok (JStr order_id0)).
    { clear. induction rest as [|z rest IHr]; intros y; cbn [lookup_scan];
        [discriminate|].
      destruct (subscript z "order_id") as [idz|] eqn:Hz; [|discriminate].
      destruct (eq_str order_id0 idz) eqn:Ez.
      - destruct (subscript z "email") as [emz|]; [|discriminate].
        destruct (eq_str email0 emz).
        + intros [= <-]. split; [now left|].
          now rewrite Hz, (eq_str_true _ _ Ez).
        + intros H. destruct (IHr y H). split; [now right | assumption].
      - intros H. destruct (IHr y H). split; [now right | assumption]. }
    destruct (Hrest o Hscan) as [Hin Ho].
    rewrite (eq_str_true _ _ E), <- Ho.
    now apply (in_map (fun o => subscript o "order_id")).
  - now apply IH.
Qed.

(** X11.  Where no two records share an id, the record [order_lookup]
    returned is the one [order_cancel] judges: its creation time decides
    the verdict of a cancellation with the same id. *)
Theorem cancel_judges_looked_up_order {U : Unicode}
    fromisoformat isoformat w records o order_id0 email0 text created now us :
  orders_json w = Ok (JArr records) ->
  NoDup (map (fun o => subscript o "order_id") records) ->
  fst (order_lookup order_id0 email0 w) = Ok o ->
  created_of fromisoformat o = Some created ->
  text <> EmptyString ->
  parse_timestamp fromisoformat text = IsoOk now ->
  datetime_sub now created = Ok us ->
  order_cancel fromisoformat isoformat order_id0 (Some text) w
  = (Ok (if (us <=? 3600000000)%Z
         then cancel_success order_id0 (isoformat now) (minutes_of_us us)
         else cancel_blocked (minutes_of_us us)), w).
Proof.
  intros Hstore Hnd Hlook Hc Htext Hn Hsub.
  assert (Herror : forall msg, o <> error_dict msg).
  { intros msg ->. discriminate Hc. }
  unfold order_lookup, IO.bind, IO.except_load, IO.load_orders, IO.lift in Hlook.
  destruct (validate_order_id order_id0) eqn:Hid; cbn [negb] in Hlook.
  2:{ injection Hlook as Hlook. symmetry in Hlook. now destruct (Herror _ Hlook). }
  destruct (validate_email email0); cbn [negb] in Hlook.
  2:{ injection Hlook as Hlook. symmetry in Hlook. now destruct (Herror _ Hlook). }
  rewrite Hstore in Hlook. cbn [py_iter] in Hlook.
  destruct (lookup_scan order_id0 email0 records) as [[o'|]|] eqn:Hscan;
    cbn in Hlook; [| |discriminate Hlook].
  2:{ injection Hlook as Hlook. symmetry in Hlook. now destruct (Herror _ Hlook). }
  injection Hlook as ->.
  apply (CancelFacts.order_cancel_found fromisoformat isoformat w o
           order_id0 text created now us); auto.
  unfold stored_order. rewrite Hstore. cbn [py_iter].
  now rewrite (lookup_scan_cancel_scan _ _ _ _ Hnd Hscan).
Qed.

Lemma cancel_judges_looked_up_order_witness :
  @order_cancel AsciiText.unicode Iso8601.fromisoformat
    (fun _ => "2025-09-07T12:30:00+00:00")
    "A1003" (Some "2025-09-07T12:30:00Z") Iso8601.world
  = (Ok (if (2100000000 <=? 3600000000)%Z
         then cancel_success "A1003" "2025-09-07T12:30:00+00:00"
                (minutes_of_us 2100000000)
         else cancel_blocked (minutes_of_us 2100000000)), Iso8601.world).
Proof.
  apply (@cancel_judges_looked_up_order AsciiText.unicode
           Iso8601.fromisoformat (fun _ => "2025-09-07T12:30:00+00:00")
           Iso8601.world Iso8601.orders
           (order_record "A1003" "mira@example.com" "2025-09-07T11:55:00Z")
           "A1003" "mira@example.com" "2025-09-07T12:30:00Z"
           {| wall_us := 63919281300000000; utcoffset := Some 0%Z |}
           {| wall_us := 63919283400000000; utcoffset := Some 0%Z |}
           2100000000); try reflexivity.
  - repeat constructor; cbn; intuition discriminate.
  - discriminate.
Defined.

(** With two records under one id, [order_lookup] by the second email
    returns the second record while [order_cancel] judges the first. *)
Example cancel_judges_first_record_of_an_id :
  let w := {| orders_json :=
                Ok (JArr [ order_record "A1003" "old@example.com"
                             "2025-09-01T00:00:00Z";
                           order_record "A1003" "mira@example.com"
                             "2025-09-07T11:55:00Z" ]);
              products_json := Ok []; clock_us := 0 |} in
  fst (@order_lookup AsciiText.unicode "A1003" "mira@example.com" w)
  = Ok (order_record "A1003" "mira@example.com" "2025-09-07T11:55:00Z")
  /\ exists d,
       fst (@order_cancel AsciiText.unicode Iso8601.fromisoformat (fun _ => "")
              "A1003" (Some "2025-09-07T12:30:00Z") w) = Ok (JObj d)
       /\ get "success" d = Some (JBool false).
Proof. split; [reflexivity|]. eexists. split; vm_compute; reflexivity. Qed.

(** ** More on product_search *)

Section SearchMore.
Context {U : Unicode}.
Variables (query : string) (price_max : option Z) (tags_list : list string).
Variable products : list product.
Variable P : product -> Prop.

Lemma partial_matches_Forall ps results :
  Forall P ps -> Forall P results ->
  Forall P (partial_matches price_max tags_list ps results).
Proof.
  intros Hps. revert results.
  induction Hps as [|p ps Hp Hps IH]; intros results Hres; cbn;
    [exact Hres|].
  destruct (over_price price_max p); [now apply IH|].
  destruct (negb (mem_product p results)); [|now apply IH].
  assert (Hres' : Forall P
            (if existsb (fun t => mem_str t (tags p)) tags_list
             then (results ++ [p])%list else results)).
  { destruct (existsb _ tags_list); [|exact Hres].
    apply Forall_app. split; [exact Hres | now constructor]. }
  match goal with |- Forall _ (if ?b then _ else _) => destruct b end;
    [exact Hres' | now apply IH].
Qed.

Lemma filter_Forall (f : product -> bool) (l : list product) :
  Forall P l -> Forall P (filter f l).
Proof.
  intros H. apply Forall_forall. intros p Hp. apply filter_In in Hp as [Hp _].
  exact (proj1 (Forall_forall P l) H p Hp).
Qed.

(** A property of every product of the catalog holds of every result. *)
Lemma product_search_body_Forall :
  Forall P products ->
  Forall P (product_search_body query price_max tags_list products).
Proof.
  intros Hall. unfold product_search_body.
  apply firstn_Forall, sorted_Forall.
  set (r0 := strict_matches query price_max tags_list products).
  assert (H0 : Forall P r0) by (apply filter_Forall, Hall).
  set (r1 := if (_ && _ && _)%bool then _ else r0).
  assert (H1 : Forall P r1).
  { unfold r1. destruct (_ && _ && _)%bool; [|exact H0].
    now apply partial_matches_Forall. }
  destruct price_max as [m|]; [|exact H1].
  destruct (List.length r1 <? 2)%nat; [|exact H1].
  apply Forall_app. split; [exact H1|].
  apply firstn_Forall, sorted_Forall, filter_Forall, Hall.
Qed.
End SearchMore.

(** X12.  [product_search] makes nothing up: every product it returns is
    a record of the catalog, whatever the query, the bound and the tags. *)
Theorem product_search_from_catalog {U : Unicode}
    query price_max tags w products r :
  products_json w = Ok products ->
  fst (product_search query price_max tags w) = Ok r ->
  forall p, In p r -> In p products.
Proof.
  intros Hcat. unfold product_search, IO.bind, IO.load_products.
  rewrite Hcat. cbn. intros [= <-].
  apply Forall_forall, product_search_body_Forall, Forall_forall. auto.
Qed.

Lemma product_search_from_catalog_witness :
  let p95 := {| title := "Midi Wrap Dress"; price := 95;
                tags := ["wedding"; "midi"] |} in
  let p150 := {| title := "Satin Midi Dress"; price := 150;
                 tags := ["party"; "midi"] |} in
  In p95 [p95; p150].
Proof.
  intros p95 p150.
  apply (@product_search_from_catalog AsciiText.unicode
           "midi dress" (Some 120%Z) None
           {| orders_json := Raise FileNotFoundError;
              products_json := Ok [p95; p150]; clock_us := 0 |}
           [p95; p150] [p95]); [reflexivity | reflexivity |].
  left. reflexivity.
Defined.

Lemma tuple_lt_asym a b : tuple_lt a b = true -> tuple_lt b a = false.
Proof.
  revert b. induction a as [|x a IH]; intros [|y b]; cbn; try discriminate;
    [reflexivity|].
  intros H. apply orb_prop in H as [H | H].
  - apply Z.ltb_lt in H.
    destruct (Z.ltb_spec y x); [lia|]. destruct (Z.eqb_spec y x); [lia|].
    reflexivity.
  - apply andb_prop in H as [E H]. apply Z.eqb_eq in E. subst y.
    rewrite Z.ltb_irrefl, Z.eqb_refl. cbn. now apply IH.
Qed.

Section SortedFacts.
Context {A : Type} (key : A -> list Z).

Lemma insert_sorted_HdRel x y l :
  (stands_before key) y x -> HdRel (stands_before key) y l -> HdRel (stands_before key) y (insert_sorted key x l).
Proof.
  intros Hyx Hl. destruct l as [|z l]; cbn; [now constructor|].
  destruct (tuple_lt (key x) (key z)); constructor; [exact Hyx|].
  now inversion Hl.
Qed.

Lemma insert_sorted_Sorted x l :
  Sorted (stands_before key) l ->
  Sorted (stands_before key) (insert_sorted key x l).
Proof.
  induction 1 as [|y l Hs IH Hh]; cbn; [repeat constructor|].
  destruct (tuple_lt (key x) (key y)) eqn:E.
  - constructor; [now constructor|]. constructor.
    unfold stands_before. now apply tuple_lt_asym.
  - constructor; [exact IH|]. now apply insert_sorted_HdRel.
Qed.

Lemma sorted_Sorted l : Sorted (stands_before key) (sorted key l).
Proof.
  unfold sorted. assert (G : forall acc, Sorted (stands_before key) acc ->
    Sorted (stands_before key) (fold_left (fun acc x => insert_sorted key x acc) l acc)).
  { induction l as [|x l IH]; intros acc Hacc; cbn; [exact Hacc|].
    apply IH. now apply insert_sorted_Sorted. }
  apply G. constructor.
Qed.

Lemma firstn_Sorted n l : Sorted (stands_before key) l -> Sorted (stands_before key) (firstn n l).
Proof.
  intros H. revert n. induction H as [|x l Hs IH Hh]; intros [|n]; cbn;
    try constructor.
  - apply IH.
  - destruct Hh as [|y l Hxy]; destruct n; cbn; constructor. exact Hxy.
Qed.
End SortedFacts.

(** X13.  The products [product_search] returns stand in the order of
    their sort keys, more matching tags first and then the lower price;
    without tags the cheaper product comes first. *)
Theorem product_search_ordered {U : Unicode}
    query price_max tags_list products :
  let r := product_search_body query price_max tags_list products in
  Sorted (stands_before (sort_key tags_list)) r
  /\ (tags_list = [] -> Sorted (fun p q => (price p <= price q)%Z) r).
Proof.
  intros r.
  assert (H : Sorted (stands_before (sort_key tags_list)) r).
  { unfold r, product_search_body. apply firstn_Sorted, sorted_Sorted. }
  split; [exact H|]. intros ->.
  revert H. generalize r. clear. intros r H.
  induction H as [|p l Hs IH Hh]; constructor; [exact IH|].
  destruct Hh as [|q l Hpq]; constructor.
  unfold stands_before in Hpq. cbn in Hpq.
  rewrite andb_false_r, orb_false_r in Hpq.
  now apply Z.ltb_ge in Hpq.
Qed.

Lemma split_nonempty sep s : split sep s <> [].
Proof.
  destruct s as [|c r]; cbn; [discriminate|].
  destruct (Ascii.eqb c sep); [discriminate|].
  destruct (split sep r); discriminate.
Qed.

(** X14.  When tags are supplied the query plays no part: two searches
    that differ in the query alone return the same products.  Any
    non-empty tags string counts, one of white space or commas alone
    included, and so does any non-empty list. *)
Theorem product_search_tags_override_query {U : Unicode}
    query query' price_max tags w :
  match tags with
  | Some (TagsStr s) => s <> ""
  | Some (TagsList l) => l <> []
  | None => False
  end ->
  product_search query price_max tags w
  = product_search query' price_max tags w.
Proof.
  intros H.
  assert (Hlist : tags_list_of tags <> []).
  { destruct tags as [[s|l]|]; cbn [tags_list_of]; [| exact H | contradiction].
    destruct (String.eqb_spec s ""); [contradiction|].
    pose proof (split_nonempty "," s) as Hs.
    destruct (split "," s); [contradiction | discriminate]. }
  unfold product_search, IO.bind, IO.load_products.
  destruct (products_json w) as [products|e]; [|reflexivity].
  destruct (tags_list_of tags) as [|t tl]; [congruence|]. reflexivity.
Qed.

Lemma product_search_tags_override_query_witness :
  let a := {| title := "Midi Wrap Dress"; price := 95;
              tags := ["wedding"; "midi"] |} in
  let c := {| title := "Linen Shirt"; price := 40; tags := ["casual"] |} in
  let w := {| orders_json := Ok (JArr []); products_json := Ok [c; a];
              clock_us := 0 |} in
  @product_search AsciiText.unicode "shirt" None (Some (TagsStr " ")) w
  = @product_search AsciiText.unicode "dress" None (Some (TagsStr " ")) w.
Proof.
  intros a c w.
  apply (@product_search_tags_override_query AsciiText.unicode
           "shirt" "dress" None
           (Some (TagsStr " ")) w).
  discriminate.
Defined.

(** X15.  Without a price bound and without tags there is no fallback:
    every product returned has the query inside its title, letter case
    apart, and an empty query returns nothing. *)
Theorem product_search_query_only {U : Unicode} query products :
  let r := product_search_body query None [] products in
  Forall (fun p => contains (lower query) (lower (title p)) = true) r
  /\ (query = "" -> r = []).
Proof.
  intros r.
  assert (H : Forall (fun p =>
                negb (String.eqb query "")
                && contains (lower query) (lower (title p)) = true) r).
  { unfold r, product_search_body. cbn [List.length andb].
    rewrite andb_false_r.
    apply firstn_Forall, sorted_Forall, Forall_forall. intros p Hp.
    unfold strict_matches in Hp. apply filter_In in Hp as [_ Hp].
    exact Hp. }
  split.
  - apply Forall_forall. intros p Hp.
    apply (proj1 (Forall_forall _ r) H) in Hp.
    now apply andb_prop in Hp as [_ Hp].
  - intros ->. destruct r as [|p r']; [reflexivity|].
    inversion H as [|? ? Hp _]. discriminate Hp.
Qed.

(** ** More on the router *)

Lemma after_first_spec c s r :
  Router.after_first c s = Some r <->
  exists pre,
    s = pre ++ String c r
    /\ all_chars (fun a => negb (Ascii.eqb a c)) pre = true.
Proof.
  split.
  - revert r. induction s as [|a s IH]; intros r; cbn; [discriminate|].
    destruct (Ascii.eqb_spec a c) as [-> | Hne].
    + intros [= <-]. exists "". auto.
    + intros H. destruct (IH r H) as (pre & -> & Hpre).
      exists (String a pre). split; [reflexivity|]. cbn. rewrite Hpre.
      destruct (Ascii.eqb_spec a c); [contradiction | reflexivity].
  - intros (pre & -> & Hpre). induction pre as [|a pre IH]; cbn in *.
    + now rewrite Ascii.eqb_refl.
    + apply andb_prop in Hpre as [Ha Hpre]. apply negb_true_iff in Ha.
      rewrite Ha. now apply IH.
Qed.

Lemma upto_last_spec c s p :
  Router.upto_last c s = Some p <->
  exists body post,
    s = body ++ String c post /\ p = body ++ String c ""
    /\ all_chars (fun a => negb (Ascii.eqb a c)) post = true.
Proof.
  split.
  - revert p. induction s as [|a s IH]; intros p; cbn; [discriminate|].
    destruct (Router.upto_last c s) as [p'|] eqn:E.
    + intros [= <-]. destruct (IH p' eq_refl) as (body & post & -> & -> & Hp).
      exists (String a body), post. auto.
    + destruct (Ascii.eqb_spec a c) as [-> | _]; [|discriminate].
      intros [= <-]. exists "", s. repeat split.
      clear IH. revert E. induction s as [|b s IHs]; cbn; [reflexivity|].
      destruct (Router.upto_last c s); [discriminate|].
      destruct (Ascii.eqb b c); [discriminate|]. intros _. now apply IHs.
  - intros (body & post & -> & -> & Hpost).
    assert (Hnone : Router.upto_last c post = None).
    { induction post as [|b post IH]; cbn in *; [reflexivity|].
      apply andb_prop in Hpost as [Hb Hpost]. rewrite (IH Hpost).
      apply negb_true_iff in Hb. now rewrite Hb. }
    induction body as [|a body IH]; cbn.
    + now rewrite Hnone, Ascii.eqb_refl.
    + now rewrite IH.
Qed.

(** The greedy match of [\{.*\}], as a cut of the text. *)
Lemma search_braces_spec text s :
  Router.search_braces text = Some s <->
  exists pre body post,
    text = pre ++ "{" ++ body ++ "}" ++ post
    /\ s = "{" ++ body ++ "}"
    /\ all_chars (fun a => negb (Ascii.eqb a "{")) pre = true
    /\ all_chars (fun a => negb (Ascii.eqb a "}")) post = true.
Proof.
  unfold Router.search_braces. split.
  - destruct (Router.after_first "{" text) as [r|] eqn:Ha; [|discriminate].
    destruct (Router.upto_last "}" r) as [p|] eqn:Hu; [|discriminate].
    intros [= <-].
    apply after_first_spec in Ha as (pre & -> & Hpre).
    apply upto_last_spec in Hu as (body & post & -> & -> & Hpost).
    exists pre, body, post. auto.
  - intros (pre & body & post & -> & -> & Hpre & Hpost).
    assert (Ha : Router.after_first "{" (pre ++ "{" ++ body ++ "}" ++ post)
                 = Some (body ++ "}" ++ post)).
    { apply after_first_spec. exists pre. auto. }
    assert (Hu : Router.upto_last "}" (body ++ "}" ++ post)
                 = Some (body ++ "}")).
    { apply upto_last_spec. exists body, post. auto. }
    now rewrite Ha, Hu.
Qed.

(** X16.  [extract_json_from_string] hands to [json.loads] the text from
    the first opening brace to the last closing brace after it, and
    nothing when no closing brace follows an opening one: the text is cut
    as [pre { body } post] with no opening brace in [pre] and no closing
    brace in [post]. *)
Theorem search_braces_language text s :
  Router.search_braces text = Some s <->
  exists pre body post,
    text = pre ++ "{" ++ body ++ "}" ++ post
    /\ s = "{" ++ body ++ "}"
    /\ all_chars (fun a => negb (Ascii.eqb a "{")) pre = true
    /\ all_chars (fun a => negb (Ascii.eqb a "}")) post = true.
Proof. exact (search_braces_spec text s). Qed.

(** X17.  When no keyword rule applies and the model's answer holds one
    JSON object, possibly inside a sentence, whose [destination] is one of
    the three intent names, [classify] returns that name. *)
Theorem router_fallback_honours_model {U : Unicode}
    json_loads invoke_llm question pre body post d i :
  Router.deterministic_keyword_routing question = None ->
  invoke_llm question = pre ++ "{" ++ body ++ "}" ++ post ->
  all_chars (fun a => negb (Ascii.eqb a "{")) pre = true ->
  all_chars (fun a => negb (Ascii.eqb a "}")) post = true ->
  json_loads ("{" ++ body ++ "}") = Ok (JObj d) ->
  get "destination" d = Some (JStr i) ->
  In i Router.intents ->
  Router.classify json_loads invoke_llm question = Ok i.
Proof.
  intros Hdet Hllm Hpre Hpost Hloads Hget Hin.
  unfold Router.classify, Router.llm_route, Router.extract_json_from_string.
  rewrite Hdet, Hllm.
  rewrite (proj2 (search_braces_spec _ ("{" ++ body ++ "}"))
             (ex_intro _ pre (ex_intro _ body (ex_intro _ post
                (conj eq_refl (conj eq_refl (conj Hpre Hpost))))))).
  rewrite Hloads.
  destruct d as [|kv d']; [discriminate Hget|].
  cbn [truthy negb py_in subscript]. unfold has. rewrite Hget.
  assert (Hmem : existsb (String.eqb i) Router.intents = true).
  { apply existsb_exists. exists i. split; [exact Hin | apply String.eqb_refl]. }
  now rewrite Hmem.
Qed.

Lemma router_fallback_honours_model_witness :
  @Router.classify AsciiText.unicode SampleJson.json_loads
    (fun _ => "Sure: " ++ SampleJson.destination_doc "order_help")
    "hello there" = Ok "order_help".
Proof.
  apply (@router_fallback_honours_model AsciiText.unicode
           SampleJson.json_loads
           (fun _ => "Sure: " ++ SampleJson.destination_doc "order_help")
           "hello there" "Sure: "
           (SampleJson.quoted "destination" ++ ": "
            ++ SampleJson.quoted "order_help") ""
           [("destination", JStr "order_help")] "order_help");
    try reflexivity.
  cbn. auto.
Defined.

Lemma existsb_hit {A} (f : A -> bool) (l : list A) x :
  In x l -> f x = true -> existsb f l = true.
Proof. intros Hin Hx. apply existsb_exists. eauto. Qed.

Lemma existsb_miss {A} (f : A -> bool) (l : list A) :
  (forall x, In x l -> f x = false) -> existsb f l = false.
Proof.
  intros H. destruct (existsb f l) eqn:E; [|reflexivity].
  apply existsb_exists in E as (x & Hin & Hx). rewrite (H x Hin) in Hx.
  discriminate Hx.
Qed.

(** X18.  The keyword rules look at the question in lower case and come
    before the chat model, the order words before the product words and
    these before the guardrail words: a question that mentions an order
    word is order_help whatever else it mentions and whatever the model
    would say; one without order words that mentions a product word is
    product_assist; one without either that mentions a guardrail word is
    other. *)
Theorem keyword_routing_precedence {U : Unicode}
    json_loads invoke_llm question k :
  contains k (lower question) = true ->
  (In k Router.order_keywords ->
   Router.classify json_loads invoke_llm question = Ok "order_help")
  /\ (In k Router.product_keywords ->
      (forall k', In k' Router.order_keywords ->
                  contains k' (lower question) = false) ->
      Router.classify json_loads invoke_llm question = Ok "product_assist")
  /\ (In k Router.guardrail_keywords ->
      (forall k', In k' (Router.order_keywords ++ Router.product_keywords)%list ->
                  contains k' (lower question) = false) ->
      Router.classify json_loads invoke_llm question = Ok "other").
Proof.
  intros Hk. unfold Router.classify, Router.deterministic_keyword_routing.
  repeat split.
  - intros Hin.
    now rewrite (existsb_hit _ Router.order_keywords k Hin Hk).
  - intros Hin Hno.
    rewrite (existsb_miss _ Router.order_keywords Hno).
    now rewrite (existsb_hit _ Router.product_keywords k Hin Hk).
  - intros Hin Hno.
    rewrite (existsb_miss _ Router.order_keywords
               (fun x Hx => Hno x (in_or_app _ _ _ (or_introl Hx)))).
    rewrite (existsb_miss _ Router.product_keywords
               (fun x Hx => Hno x (in_or_app _ _ _ (or_intror Hx)))).
    now rewrite (existsb_hit _ Router.guardrail_keywords k Hin Hk).
Qed.

Lemma keyword_routing_precedence_witness :
  @Router.classify AsciiText.unicode SampleJson.json_loads (fun _ => "")
    "Is my ORDER for the midi dress on sale?" = Ok "order_help".
Proof.
  refine (proj1 (@keyword_routing_precedence AsciiText.unicode
                   SampleJson.json_loads (fun _ => "")
                   "Is my ORDER for the midi dress on sale?" "order" _) _).
  - reflexivity.
  - cbn. auto.
Defined.


(** ** The router, where [json.loads] keeps to [JSONDecodeError] *)

(** X30.  What holds of the closure of the router: [classify] returns
    one of the three intent names, or it raises what [json.loads] raised
    on the text between the braces of the model's answer, when that is not
    [JSONDecodeError] and no keyword rule applied.  When no keyword rule
    applies and the answer holds no JSON object, or holds one whose
    destination is none of the three names, the intent is "other".
    [json.loads] is any parser that yields an object when it accepts a text
    that opens with a brace. *)
Theorem router_closed_unless_json_raises {U : Unicode}
    json_loads invoke_llm question :
  (forall s v, json_loads (String "{" s) = Ok v -> exists d, v = JObj d) ->
  ((exists i,
       Router.classify json_loads invoke_llm question = Ok i
       /\ In i Router.intents)
   \/ (exists s e,
          Router.deterministic_keyword_routing question = None
          /\ Router.search_braces (invoke_llm question) = Some s
          /\ json_loads s = Raise e /\ e <> JSONDecodeError
          /\ Router.classify json_loads invoke_llm question = Raise e))
  /\ (Router.deterministic_keyword_routing question = None ->
      Router.extract_json_from_string json_loads (invoke_llm question)
      = Ok None ->
      Router.classify json_loads invoke_llm question = Ok "other")
  /\ (forall d v,
        Router.deterministic_keyword_routing question = None ->
        Router.extract_json_from_string json_loads (invoke_llm question)
        = Ok (Some (JObj d)) ->
        get "destination" d = Some v ->
        (forall i, In i Router.intents -> v <> JStr i) ->
        Router.classify json_loads invoke_llm question = Ok "other").
Proof.
  intros Hloads. unfold Router.classify.
  split; [|split].
  - destruct (Router.deterministic_keyword_routing question) as [i|] eqn:Hdet.
    { left. exists i. split; [reflexivity|].
      exact (deterministic_keyword_routing_closed question i Hdet). }
    destruct (llm_route_closed json_loads invoke_llm question Hloads)
      as [H | (s & e & Hs & He & Hne & Hr)]; [now left | right].
    exists s, e. auto.
  - unfold Router.llm_route. intros -> ->. reflexivity.
  - unfold Router.llm_route. intros d v -> -> Hv Hout.
    destruct (negb (truthy (JObj d))); [reflexivity|].
    cbn [py_in subscript]. unfold has. rewrite Hv.
    destruct v as [| | | |s| |]; try reflexivity.
    destruct (existsb (String.eqb s) Router.intents) eqn:Hmem; [|reflexivity].
    apply existsb_exists in Hmem as (i & Hi & E).
    apply String.eqb_eq in E. subst i. now destruct (Hout s Hi).
Qed.

(** X30 on a question no keyword rule covers: the order_help object
    inside a sentence is honoured, an answer without braces and an answer
    naming another destination give "other". *)
Lemma router_closed_unless_json_raises_witness :
  @Router.classify AsciiText.unicode SampleJson.json_loads
    (fun _ => "no idea") "hello there" = Ok "other"
  /\ @Router.classify AsciiText.unicode SampleJson.json_loads
       (fun _ => SampleJson.destination_doc "billing") "hello there"
     = Ok "other".
Proof.
  split.
  - refine (proj1 (proj2 (@router_closed_unless_json_raises AsciiText.unicode
                            SampleJson.json_loads
                            (fun _ => "no idea") "hello there"
                            sample_json_loads_object)) _ _); reflexivity.
  - refine (proj2 (proj2 (@router_closed_unless_json_raises AsciiText.unicode
                            SampleJson.json_loads
                            (fun _ => SampleJson.destination_doc "billing")
                            "hello there" sample_json_loads_object))
              [("destination", JStr "billing")] (JStr "billing") _ _ _ _);
      try reflexivity.
    intros i [<- | [<- | [<- | []]]]; discriminate.
Defined.

(** ** More on the runs of the graph *)

Ltac next_char H i :=
  destruct i as [|[[|] [|] [|] [|] [|] [|] [|] [|]] i];
  try discriminate H.

Lemma router_edges_inv l n :
  router_edges l = Some n ->
  (l = Some "product_assist" /\ n = agent)
  \/ (l = Some "order_help" /\ n = agent)
  \/ (l = Some "other" /\ n = responder).
Proof.
  destruct l as [i|]; [|discriminate].
  unfold router_edges. intros H.
  do 15 (try next_char H i).
  all: injection H as <-; auto.
Qed.

Lemma agent_edges_inv label n :
  agent_edges label = Some n ->
  (label = "execute_tools" /\ n = tool_executor)
  \/ (label = "__end__" /\ n = responder).
Proof.
  unfold agent_edges.
  destruct (String.eqb_spec label "execute_tools") as [-> | _].
  { intros [= <-]. auto. }
  destruct (String.eqb_spec label "__end__") as [-> | _]; [|discriminate].
  intros [= <-]. auto.
Qed.

Lemma tool_executor_edges_inv s n :
  tool_executor_edges (route_after_tools s) = Some n ->
  (existsb (String.eqb "order_cancel") (or_empty (tools_called s)) = true
   /\ n = policy_guard)
  \/ (existsb (String.eqb "order_cancel") (or_empty (tools_called s)) = false
      /\ n = agent).
Proof.
  unfold route_after_tools. fold (or_empty (tools_called s)).
  destruct (existsb _ _); cbn; intros [= <-]; auto.
Qed.

Lemma router_node_update {U : Unicode} json_loads invoke_llm s u :
  Router.router_node json_loads invoke_llm s = Ok u ->
  exists m question destination,
    last_message s = Ok m /\ content_of m = Text question
    /\ Router.classify json_loads invoke_llm question = Ok destination
    /\ u = {| u_messages := None; u_intent := Some destination;
              u_tools_called := None; u_evidence := None;
              u_policy_decision := None; u_final_message := None |}.
Proof.
  unfold Router.router_node.
  destruct (last_message s) as [m|]; [|discriminate].
  destruct (content_of m) as [question|] eqn:Hc; [|discriminate].
  destruct (Router.classify _ _ _) as [d|] eqn:E; [|discriminate].
  intros [= <-]. exists m, question, d. repeat split; assumption.
Qed.

Lemma policy_guard_node_update json_loads s u :
  policy_guard_node json_loads s = Ok u ->
  exists decision,
    policy_decision_of json_loads s = Ok decision
    /\ u = {| u_messages := None; u_intent := None; u_tools_called := None;
              u_evidence := None; u_policy_decision := Some decision;
              u_final_message := None |}.
Proof.
  unfold policy_guard_node.
  destruct (policy_decision_of _ _) as [d|]; [|discriminate].
  intros [= <-]. eauto.
Qed.

Lemma responder_node_update chain_invoke s u :
  responder_node chain_invoke s = Ok u ->
  exists m response,
    last_message s = Ok m
    /\ u = {| u_messages := None; u_intent := None; u_tools_called := None;
              u_evidence := None; u_policy_decision := None;
              u_final_message := Some response |}.
Proof.
  unfold responder_node.
  destruct (last_message s) as [m|]; [|discriminate].
  destruct (join_items _); [|discriminate].
  intros [= <-]. eauto.
Qed.

Lemma tool_executor_node_messages run_tool s m calls u :
  last_message s = Ok m -> tool_calls m = Ok calls ->
  tool_executor_node run_tool s = Ok u ->
  u = {| u_messages :=
           Some (map (fun call => ToolMessage (run_tool call) (call_id call))
                     calls);
         u_intent := None;
         u_tools_called := Some (map call_name calls);
         u_evidence :=
           Some (map content_of
                   (map (fun call => ToolMessage (run_tool call) (call_id call))
                        calls));
         u_policy_decision := None; u_final_message := None |}.
Proof.
  intros Hm Hc. unfold tool_executor_node, tool_node_invoke.
  rewrite Hm, Hc. now intros [= <-].
Qed.

(** A decision of the guard is for the order_help intent and has one of
    the two shapes. *)
Lemma policy_decision_of_shape json_loads s d :
  policy_decision_of json_loads s = Ok (Some d) ->
  intent s = Some "order_help"
  /\ (d = allowed_decision \/ exists reason, d = blocked_decision reason).
Proof.
  unfold policy_decision_of. intros H.
  destruct (intent s) as [i|]; [|discriminate H].
  do 11 (try next_char H i).
  split; [reflexivity|].
  destruct (evidence s) as [[|item rest]|]; try discriminate H.
  destruct (find_cancel_output _ _) as [[out|]|]; try discriminate H.
  destruct (negb (truthy out)); [discriminate H|].
  destruct (dict_get out "success") as [v|]; [|discriminate H].
  destruct v as [| [|] | | | | |]; try (injection H as <-; auto).
  destruct (dict_get out "reason") as [r|]; [|discriminate H].
  injection H as <-. eauto.
Qed.

Lemma names_called_In batches b x :
  In b batches -> In x (map call_name b) -> In x (names_called batches).
Proof.
  intros Hb Hx. unfold names_called.
  apply in_map_iff in Hx as (call & <- & Hcall).
  apply in_map. apply in_concat. exists b. split; [|exact Hcall].
  now apply in_rev in Hb.
Qed.

Lemma last_message_app s l m :
  last_message {| messages := (messages s ++ l ++ [m])%list;
                  intent := intent s; tools_called := tools_called s;
                  evidence := evidence s;
                  policy_decision := policy_decision s;
                  final_message := final_message s |} = Ok m.
Proof.
  unfold last_message. cbn [messages].
  now rewrite app_assoc, rev_app_distr.
Qed.

Section RunMore.
Context {U : Unicode}.
Variable json_loads : string -> result json.

(** The intent along a run. *)
Lemma reaches_intent batches outputs n s :
  reaches json_loads batches outputs n s ->
  (n = router -> batches = [] /\ exists msgs, s = initial_state msgs)
  /\ (n <> router ->
      exists i,
        intent s = Some i /\ In i Router.intents
        /\ (i = "other" ->
            (n = responder \/ n = END) /\ batches = []
            /\ tools_called s = None /\ evidence s = None
            /\ policy_decision s = None)).
Proof.
  induction 1 as [msgs
                 | batches outputs s invoke_llm u n Hr IH Hnode Hedge
                 | batches outputs s chain_invoke label n Hr IH Hlabel Hedge
                 | batches outputs s run_tool m calls u n Hr IH Hm Hc Hnode Hedge
                 | batches outputs s u Hr IH Hnode
                 | batches outputs s chain_invoke u Hr IH Hnode].
  - split; [eauto | intros H; contradiction].
  - destruct IH as [IH _]. destruct (IH eq_refl) as (-> & msgs & ->).
    apply router_node_update in Hnode as (m & q & dest & _ & _ & _ & ->).
    cbn [apply_update intent reduce_last u_intent] in Hedge.
    apply router_edges_inv in Hedge
      as [([= ->] & ->) | [([= ->] & ->) | ([= ->] & ->)]];
      (split; [discriminate|]); intros _; eexists; (split; [reflexivity|]);
      (split; [cbn; auto|]); intros E; try discriminate E; auto 10.
  - destruct IH as [_ IH].
    destruct (IH ltac:(discriminate)) as (i & Hi & Hin & Hother).
    apply agent_edges_inv in Hedge as [(-> & ->) | (-> & ->)];
      (split; [discriminate|]); intros _; exists i;
      (split; [exact Hi|]); (split; [exact Hin|]); intros E;
      destruct (Hother E) as ([E' | E'] & _); discriminate E'.
  - destruct IH as [_ IH].
    destruct (IH ltac:(discriminate)) as (i & Hi & Hin & Hother).
    rewrite (tool_executor_node_messages _ _ _ _ _ Hm Hc Hnode) in Hedge |- *.
    apply tool_executor_edges_inv in Hedge as [(_ & ->) | (_ & ->)];
      (split; [discriminate|]); intros _; exists i;
      (split; [exact Hi|]); (split; [exact Hin|]); intros E;
      destruct (Hother E) as ([E' | E'] & _); discriminate E'.
  - destruct IH as [_ IH].
    destruct (IH ltac:(discriminate)) as (i & Hi & Hin & Hother).
    apply policy_guard_node_update in Hnode as (dec & _ & ->).
    split; [discriminate|]. intros _. exists i.
    split; [exact Hi|]. split; [exact Hin|]. intros E.
    destruct (Hother E) as ([E' | E'] & _); discriminate E'.
  - destruct IH as [_ IH].
    destruct (IH ltac:(discriminate)) as (i & Hi & Hin & Hother).
    apply responder_node_update in Hnode as (m & response & _ & ->).
    split; [discriminate|]. intros _. exists i.
    split; [exact Hi|]. split; [exact Hin|]. intros E.
    destruct (Hother E) as (_ & Hb & Ht & He & Hp).
    cbn. rewrite Ht, He, Hp. auto.
Qed.

(** After a batch that calls order_cancel the run is on its way out. *)
Lemma reaches_after_cancel batches outputs n s :
  reaches json_loads batches outputs n s ->
  n = policy_guard \/ n = responder \/ n = END ->
  (forall b, In b (tl batches) -> ~ In "order_cancel" (map call_name b))
  /\ (n = policy_guard ->
      exists b rest,
        batches = b :: rest /\ In "order_cancel" (map call_name b)).
Proof.
  induction 1 as [msgs
                 | batches outputs s invoke_llm u n Hr IH Hnode Hedge
                 | batches outputs s chain_invoke label n Hr IH Hlabel Hedge
                 | batches outputs s run_tool m calls u n Hr IH Hm Hc Hnode Hedge
                 | batches outputs s u Hr IH Hnode
                 | batches outputs s chain_invoke u Hr IH Hnode];
    intros Hn.
  - destruct Hn as [Hn | [Hn | Hn]]; discriminate Hn.
  - pose proof (reaches_before_cancel json_loads _ _ _ _ Hr (or_introl eq_refl))
      as Hbefore.
    split.
    + intros b Hb Hx. apply Hbefore.
      apply (names_called_In batches b); [|exact Hx].
      destruct batches; [contradiction | now right].
    + intros ->. apply router_node_update in Hnode as (m & q & dest & _ & _ & _ & ->).
      apply router_edges_inv in Hedge
        as [(_ & E) | [(_ & E) | (_ & E)]]; discriminate E.
  - pose proof (reaches_before_cancel json_loads _ _ _ _ Hr
                  (or_intror (or_introl eq_refl))) as Hbefore.
    split.
    + intros b Hb Hx. apply Hbefore.
      apply (names_called_In batches b); [|exact Hx].
      destruct batches; [contradiction | now right].
    + intros ->.
      apply agent_edges_inv in Hedge as [(_ & E) | (_ & E)]; discriminate E.
  - pose proof (reaches_before_cancel json_loads _ _ _ _ Hr
                  (or_intror (or_intror eq_refl))) as Hbefore.
    split.
    + cbn [tl]. intros b Hb Hx. apply Hbefore.
      now apply (names_called_In batches b).
    + intros ->.
      pose proof (reaches_accumulates json_loads _ _ _ _
                    (reach_tool_executor json_loads batches outputs s run_tool m calls
                       u policy_guard Hr Hm Hc Hnode Hedge)) as [Hacc _].
      apply tool_executor_edges_inv in Hedge as [(E & _) | (_ & E)];
        [|discriminate E].
      rewrite Hacc, names_called_cons in E.
      apply existsb_eqb_In in E. apply in_app_or in E as [E | E];
        [contradiction|].
      eauto.
  - destruct (IH (or_introl eq_refl)) as [IH1 _].
    split; [exact IH1 | discriminate].
  - destruct (IH (or_intror (or_introl eq_refl))) as [IH1 _].
    split; [exact IH1 | discriminate].
Qed.

(** Where a policy decision comes from. *)
Lemma reaches_decision batches outputs n s :
  reaches json_loads batches outputs n s ->
  (n <> responder -> n <> END -> policy_decision s = None)
  /\ (forall d,
        policy_decision s = Some d ->
        intent s = Some "order_help"
        /\ (d = allowed_decision \/ exists reason, d = blocked_decision reason)
        /\ In "order_cancel" (or_empty (tools_called s))).
Proof.
  induction 1 as [msgs
                 | batches outputs s invoke_llm u n Hr IH Hnode Hedge
                 | batches outputs s chain_invoke label n Hr IH Hlabel Hedge
                 | batches outputs s run_tool m calls u n Hr IH Hm Hc Hnode Hedge
                 | batches outputs s u Hr IH Hnode
                 | batches outputs s chain_invoke u Hr IH Hnode].
  - split; [reflexivity | discriminate].
  - destruct IH as [IH _].
    pose proof (IH ltac:(discriminate) ltac:(discriminate)) as Hnone.
    apply router_node_update in Hnode as (m & q & dest & _ & _ & _ & ->).
    cbn. rewrite Hnone. split; [reflexivity | discriminate].
  - destruct IH as [IH _].
    pose proof (IH ltac:(discriminate) ltac:(discriminate)) as Hnone.
    cbn. rewrite Hnone. split; [reflexivity | discriminate].
  - destruct IH as [IH _].
    pose proof (IH ltac:(discriminate) ltac:(discriminate)) as Hnone.
    rewrite (tool_executor_node_messages _ _ _ _ _ Hm Hc Hnode).
    cbn. rewrite Hnone. split; [reflexivity | discriminate].
  - destruct (reaches_after_cancel _ _ _ _ Hr (or_introl eq_refl))
      as (_ & Hhead).
    destruct (Hhead eq_refl) as (b & rest & -> & Hb).
    destruct (reaches_accumulates json_loads _ _ _ _ Hr) as [Hacc _].
    apply policy_guard_node_update in Hnode as (dec & Hdec & ->).
    split; [intros E; now contradiction E|].
    cbn. intros d ->.
    destruct (policy_decision_of_shape _ _ _ Hdec) as (Hi & Hshape).
    split; [exact Hi|]. split; [exact Hshape|].
    rewrite Hacc. apply (names_called_In _ b); [now left | exact Hb].
  - apply responder_node_update in Hnode as (m & response & _ & ->).
    split; [intros _ E; now contradiction E|].
    cbn. exact (proj2 IH).
Qed.

(** The message a node finds last in the state. *)
Lemma reaches_last_message batches outputs n s :
  reaches json_loads batches outputs n s ->
  (n = agent -> exists m, last_message s = Ok m)
  /\ (n = tool_executor ->
      exists t c cs, last_message s = Ok (AIMessage t (c :: cs)))
  /\ (n = policy_guard -> exists t i, last_message s = Ok (ToolMessage t i))
  /\ (n = responder ->
      exists m,
        last_message s = Ok m
        /\ (intent s = Some "other" \/ forall t, m <> HumanMessage t)).
Proof.
  induction 1 as [msgs
                 | batches outputs s invoke_llm u n Hr IH Hnode Hedge
                 | batches outputs s chain_invoke label n Hr IH Hlabel Hedge
                 | batches outputs s run_tool m calls u n Hr IH Hm Hc Hnode Hedge
                 | batches outputs s u Hr IH Hnode
                 | batches outputs s chain_invoke u Hr IH Hnode].
  - repeat split; discriminate.
  - apply router_node_update in Hnode as (m & q & dest & Hm & _ & _ & ->).
    cbn [apply_update intent reduce_last u_intent] in Hedge.
    assert (Hlast : last_message
                      (apply_update s
                         {| u_messages := None; u_intent := Some dest;
                            u_tools_called := None; u_evidence := None;
                            u_policy_decision := None;
                            u_final_message := None |}) = Ok m) by exact Hm.
    apply router_edges_inv in Hedge
      as [([= ->] & ->) | [([= ->] & ->) | ([= ->] & ->)]];
      repeat split; try discriminate; intros _; eauto.
  - unfold should_continue in Hlabel.
    destruct (last_message (apply_update s (agent_node chain_invoke s)))
      as [m|] eqn:Hm; [|discriminate].
    destruct m as [t | t calls | t i]; try discriminate Hlabel.
    cbn in Hlabel. destruct calls as [|c cs]; injection Hlabel as <-;
      apply agent_edges_inv in Hedge as [(E & ->) | (E & ->)];
      try discriminate E; repeat split; try discriminate; intros _; eauto.
    exists (AIMessage t []). split; [reflexivity|]. right. discriminate.
  - destruct IH as (_ & IH & _).
    destruct (IH eq_refl) as (t & c & cs & Hlast).
    rewrite Hlast in Hm. injection Hm as <-. injection Hc as <-.
    rewrite (tool_executor_node_messages _ _ _ _ _ Hlast eq_refl Hnode)
      in Hedge |- *.
    assert (Hnew : exists t' i',
               last_message
                 (apply_update s
                    {| u_messages :=
                         Some (map (fun call =>
                                      ToolMessage (run_tool call) (call_id call))
                                   (c :: cs));
                       u_intent := None;
                       u_tools_called := Some (map call_name (c :: cs));
                       u_evidence :=
                         Some (map content_of
                                 (map (fun call =>
                                         ToolMessage (run_tool call)
                                                     (call_id call))
                                      (c :: cs)));
                       u_policy_decision := None;
                       u_final_message := None |})
               = Ok (ToolMessage t' i')).
    { unfold last_message, apply_update. cbn [messages reduce_add u_messages].
      rewrite rev_app_distr, <- map_rev.
      destruct (rev (c :: cs)) as [|call l] eqn:E.
      - apply (f_equal (@List.length _)) in E.
        rewrite length_rev in E. discriminate E.
      - cbn. eauto. }
    destruct Hnew as (t' & i' & Hnew).
    apply tool_executor_edges_inv in Hedge as [(_ & ->) | (_ & ->)];
      repeat split; try discriminate; intros _; eauto.
  - destruct IH as (_ & _ & IH & _).
    destruct (IH eq_refl) as (t & i & Hlast).
    apply policy_guard_node_update in Hnode as (dec & _ & ->).
    repeat split; try discriminate. intros _.
    exists (ToolMessage t i). split; [exact Hlast|]. right. discriminate.
  - repeat split; discriminate.
Qed.

(** [final_message] is written by the last step and by no other. *)
Lemma reaches_final_message batches outputs n s :
  reaches json_loads batches outputs n s ->
  (n <> END -> final_message s = None)
  /\ (n = END -> exists response, final_message s = Some response).
Proof.
  induction 1 as [msgs
                 | batches outputs s invoke_llm u n Hr IH Hnode Hedge
                 | batches outputs s chain_invoke label n Hr IH Hlabel Hedge
                 | batches outputs s run_tool m calls u n Hr IH Hm Hc Hnode Hedge
                 | batches outputs s u Hr IH Hnode
                 | batches outputs s chain_invoke u Hr IH Hnode].
  - split; [reflexivity | discriminate].
  - destruct IH as [IH _]. pose proof (IH ltac:(discriminate)) as Hnone.
    apply router_node_update in Hnode as (m & q & dest & _ & _ & _ & ->).
    apply router_edges_inv in Hedge
      as [(_ & ->) | [(_ & ->) | (_ & ->)]];
      (split; [intros _; exact Hnone | discriminate]).
  - destruct IH as [IH _]. pose proof (IH ltac:(discriminate)) as Hnone.
    apply agent_edges_inv in Hedge as [(_ & ->) | (_ & ->)];
      (split; [intros _; exact Hnone | discriminate]).
  - destruct IH as [IH _]. pose proof (IH ltac:(discriminate)) as Hnone.
    rewrite (tool_executor_node_messages _ _ _ _ _ Hm Hc Hnode) in Hedge |- *.
    apply tool_executor_edges_inv in Hedge as [(_ & ->) | (_ & ->)];
      (split; [intros _; exact Hnone | discriminate]).
  - destruct IH as [IH _]. pose proof (IH ltac:(discriminate)) as Hnone.
    apply policy_guard_node_update in Hnode as (dec & _ & ->).
    split; [intros _; exact Hnone | discriminate].
  - apply responder_node_update in Hnode as (m & response & _ & ->).
    split; [intros E; now contradiction E|]. intros _. cbn. eauto.
Qed.
End RunMore.

(** *** The sample runs, to their end *)

Lemma sample_run_decided {U : Unicode} :
  reaches SampleJson.json_loads
    [[SampleRun.cancel_call]; [SampleRun.lookup_call]]
    [[Text SampleJson.blocked_doc]; [Text SampleJson.not_found_doc]]
    responder SampleFinish.decided.
Proof.
  apply (reach_policy_guard SampleJson.json_loads _ _ SampleRun.cancelled
           SampleFinish.guard_update sample_run_guarded).
  reflexivity.
Qed.

Lemma sample_run_finished {U : Unicode} :
  reaches SampleJson.json_loads
    [[SampleRun.cancel_call]; [SampleRun.lookup_call]]
    [[Text SampleJson.blocked_doc]; [Text SampleJson.not_found_doc]]
    END SampleFinish.finished.
Proof.
  apply (reach_responder SampleJson.json_loads _ _ SampleFinish.decided
           SampleFinish.respond _ sample_run_decided).
  reflexivity.
Qed.

Lemma sample_run_refused {U : Unicode} :
  reaches SampleJson.json_loads [] [] responder SampleFinish.refused.
Proof.
  apply (reach_router SampleJson.json_loads [] [] SampleFinish.guardrail_start
           (fun _ => "") _ responder (reach_entry _ _)); [|reflexivity].
  unfold Router.router_node, Router.classify.
  cbn [SampleFinish.guardrail_start initial_state last_message messages rev
       app content_of].
  now rewrite deterministic_keyword_routing_ascii.
Qed.

Lemma sample_run_answered {U : Unicode} :
  reaches SampleJson.json_loads [] [] END SampleFinish.answered.
Proof.
  apply (reach_responder SampleJson.json_loads _ _ SampleFinish.refused
           SampleFinish.respond _ sample_run_refused).
  reflexivity.
Qed.

(** A run whose search finds nothing, up to the responder. *)
Lemma sample_run_empty_search {U : Unicode} :
  reaches SampleJson.json_loads [[SampleEmpty.search_call]] [[Blocks []]]
    responder SampleEmpty.replied.
Proof.
  apply (reach_agent SampleJson.json_loads _ _ SampleEmpty.searched
           SampleEmpty.chain_invoke "__end__" responder);
    [|reflexivity|reflexivity].
  apply (reach_tool_executor SampleJson.json_loads [] [] SampleEmpty.asked
           SampleEmpty.run_tool (AIMessage "" [SampleEmpty.search_call])
           [SampleEmpty.search_call] _ agent); try reflexivity.
  apply (reach_agent SampleJson.json_loads [] [] SampleEmpty.routed
           SampleEmpty.chain_invoke "execute_tools" tool_executor);
    [|reflexivity|reflexivity].
  apply (reach_router SampleJson.json_loads [] [] SampleEmpty.start
           (fun _ => "") _ agent (reach_entry _ _)); [|reflexivity].
  unfold Router.router_node, Router.classify.
  cbn [SampleEmpty.start initial_state last_message messages rev app
       content_of].
  now rewrite deterministic_keyword_routing_ascii.
Qed.

(** X19.  Once the router has run, the intent is one of the three names
    and stays; a run with the intent other goes from the router to the
    responder and to the end, so it executes no tool and ends with
    [tools_called], [evidence] and [policy_decision] unset. *)
Theorem run_intent_gates_the_tools {U : Unicode}
    json_loads batches outputs n s :
  reaches json_loads batches outputs n s ->
  n <> router ->
  exists i,
    intent s = Some i /\ In i Router.intents
    /\ (i = "other" ->
        (n = responder \/ n = END) /\ batches = []
        /\ tools_called s = None /\ evidence s = None
        /\ policy_decision s = None).
Proof.
  intros Hr Hn. exact (proj2 (reaches_intent json_loads _ _ _ _ Hr) Hn).
Qed.

Lemma run_intent_gates_the_tools_witness :
  exists i,
    intent SampleFinish.answered = Some i /\ In i Router.intents
    /\ (i = "other" ->
        (END = responder \/ END = END) /\ @nil (list tool_call) = []
        /\ tools_called SampleFinish.answered = None
        /\ evidence SampleFinish.answered = None
        /\ policy_decision SampleFinish.answered = None).
Proof.
  apply (@run_intent_gates_the_tools AsciiText.unicode
           SampleJson.json_loads [] [] END
           SampleFinish.answered sample_run_answered).
  discriminate.
Defined.

(** X20.  In a run, order_cancel is called in the latest batch or in
    none: a batch that calls it sends the run to the policy guard, from
    where it only goes on to the responder and the end, and the policy
    guard is reached in no other way. *)
Theorem order_cancel_closes_the_tool_rounds {U : Unicode}
    json_loads batches outputs n s :
  reaches json_loads batches outputs n s ->
  (forall b, In b (tl batches) -> ~ In "order_cancel" (map call_name b))
  /\ (n = policy_guard ->
      exists b rest,
        batches = b :: rest /\ In "order_cancel" (map call_name b))
  /\ (forall b, In b batches -> In "order_cancel" (map call_name b) ->
      n = policy_guard \/ n = responder \/ n = END).
Proof.
  intros Hr.
  assert (Hbefore : n = router \/ n = agent \/ n = tool_executor ->
            (forall b, In b (tl batches) ->
                       ~ In "order_cancel" (map call_name b))
            /\ (n = policy_guard ->
                exists b rest,
                  batches = b :: rest /\ In "order_cancel" (map call_name b))
            /\ (forall b, In b batches ->
                          In "order_cancel" (map call_name b) ->
                          n = policy_guard \/ n = responder \/ n = END)).
  { intros Hn.
    pose proof (reaches_before_cancel json_loads _ _ _ _ Hr Hn) as Hno.
    split; [|split].
    - intros b Hb Hx. apply Hno. apply (names_called_In batches b); [|exact Hx].
      destruct batches; [contradiction | now right].
    - intros ->. destruct Hn as [Hn | [Hn | Hn]]; discriminate Hn.
    - intros b Hb Hx. exfalso. apply Hno.
      now apply (names_called_In batches b). }
  destruct n; try (apply Hbefore; now auto).
  - destruct (reaches_after_cancel json_loads _ _ _ _ Hr (or_introl eq_refl))
      as [H1 H2].
    split; [exact H1|]. split; [exact H2|]. auto.
  - destruct (reaches_after_cancel json_loads _ _ _ _ Hr
                (or_intror (or_introl eq_refl))) as [H1 H2].
    split; [exact H1|]. split; [exact H2|]. auto.
  - destruct (reaches_after_cancel json_loads _ _ _ _ Hr
                (or_intror (or_intror eq_refl))) as [H1 H2].
    split; [exact H1|]. split; [exact H2|]. auto.
Qed.

Lemma order_cancel_closes_the_tool_rounds_witness :
  (forall b, In b [[SampleRun.lookup_call]] ->
             ~ In "order_cancel" (map call_name b))
  /\ (policy_guard = policy_guard ->
      exists b rest,
        [[SampleRun.cancel_call]; [SampleRun.lookup_call]] = b :: rest
        /\ In "order_cancel" (map call_name b))
  /\ (forall b,
        In b [[SampleRun.cancel_call]; [SampleRun.lookup_call]] ->
        In "order_cancel" (map call_name b) ->
        policy_guard = policy_guard \/ policy_guard = responder
        \/ policy_guard = END).
Proof.
  exact (@order_cancel_closes_the_tool_rounds AsciiText.unicode
           SampleJson.json_loads
           [[SampleRun.cancel_call]; [SampleRun.lookup_call]] _ policy_guard
           SampleRun.cancelled sample_run_guarded).
Defined.

(** X21.  A run holds no policy decision before the responder; a
    decision it holds later was written by the policy guard for the
    order_help intent after a call of order_cancel, and is either
    [{"cancel_allowed": True}] or [{"cancel_allowed": False, "reason": r}]. *)
Theorem policy_decision_provenance {U : Unicode}
    json_loads batches outputs n s :
  reaches json_loads batches outputs n s ->
  (n <> responder -> n <> END -> policy_decision s = None)
  /\ (forall d,
        policy_decision s = Some d ->
        intent s = Some "order_help"
        /\ (d = allowed_decision \/ exists reason, d = blocked_decision reason)
        /\ In "order_cancel" (or_empty (tools_called s))).
Proof. apply reaches_decision. Qed.

Lemma policy_decision_provenance_witness :
  intent SampleFinish.decided = Some "order_help"
  /\ (blocked_decision
        (JStr "Cancellation failed: Order was placed more than 60 minutes ago.")
      = allowed_decision
      \/ exists reason,
           blocked_decision
             (JStr "Cancellation failed: Order was placed more than 60 minutes ago.")
           = blocked_decision reason)
  /\ In "order_cancel" (or_empty (tools_called SampleFinish.decided)).
Proof.
  exact (proj2 (@policy_decision_provenance AsciiText.unicode
                  SampleJson.json_loads _ _ responder
                  SampleFinish.decided sample_run_decided) _ eq_refl).
Defined.

Lemma join_items_text l :
  forallb is_text l = true -> exists items, join_items l = Ok items.
Proof.
  induction l as [|[t|b] l IH]; cbn; [eauto | | discriminate].
  intros H. destruct (IH H) as (items & ->). eauto.
Qed.

Lemma join_items_blocks l :
  forallb is_text l = false -> join_items l = Raise TypeError.
Proof.
  induction l as [|[t|b] l IH]; cbn; [discriminate | | reflexivity].
  intros H. now rewrite (IH H).
Qed.

(** X22.  In a run the tool executor always finds the message it reads
    and does not raise, whatever the chat model and the tools answer.  The
    responder finds its message as well; it returns when every entry of
    the evidence is a str, and raises [TypeError] at the join of the
    evidence when a tool result was kept as a list.  The evidence is what
    the tools returned, so one result kept as a list is enough.  For the
    intents product_assist and order_help the last message at the
    responder, whose content is handed to the model as the question, is a
    message of the model or of a tool, never one of the user. *)
Theorem run_nodes_find_their_message {U : Unicode}
    json_loads batches outputs n s :
  reaches json_loads batches outputs n s ->
  (n = tool_executor ->
   forall run_tool, exists u, tool_executor_node run_tool s = Ok u)
  /\ (n = responder ->
      or_empty (evidence s) = contents_returned outputs
      /\ (forallb is_text (contents_returned outputs) = true ->
          forall chain_invoke, exists u, responder_node chain_invoke s = Ok u)
      /\ (forallb is_text (contents_returned outputs) = false ->
          forall chain_invoke, responder_node chain_invoke s = Raise TypeError)
      /\ (intent s <> Some "other" ->
          exists m, last_message s = Ok m /\ forall t, m <> HumanMessage t)).
Proof.
  intros Hr.
  destruct (reaches_last_message json_loads _ _ _ _ Hr) as (_ & Ht & _ & Hresp).
  destruct (reaches_accumulates json_loads _ _ _ _ Hr) as (_ & Hev & _).
  split.
  - intros Hn run_tool. destruct (Ht Hn) as (t & c & cs & Hlast).
    unfold tool_executor_node, tool_node_invoke. rewrite Hlast. cbn. eauto.
  - intros Hn. destruct (Hresp Hn) as (m & Hlast & Hm).
    split; [exact Hev|]. fold (or_empty (evidence s)) in *.
    split; [|split].
    + intros Htext chain_invoke. unfold responder_node. rewrite Hlast.
      fold (or_empty (evidence s)). rewrite Hev.
      destruct (join_items_text _ Htext) as (items & ->). eauto.
    + intros Hlist chain_invoke. unfold responder_node. rewrite Hlast.
      fold (or_empty (evidence s)). rewrite Hev.
      now rewrite (join_items_blocks _ Hlist).
    + intros Hi. exists m. split; [exact Hlast|].
      destruct Hm as [Hm | Hm]; [contradiction | exact Hm].
Qed.

(** X22 on the run whose search found nothing: the responder raises. *)
Lemma run_nodes_find_their_message_witness :
  responder_node SampleFinish.respond SampleEmpty.replied = Raise TypeError
  /\ exists u,
       responder_node SampleFinish.respond SampleFinish.decided = Ok u.
Proof.
  split.
  - exact (proj1 (proj2 (proj2 (proj2 (@run_nodes_find_their_message
             AsciiText.unicode SampleJson.json_loads _ _ responder
             SampleEmpty.replied sample_run_empty_search) eq_refl)))
             eq_refl SampleFinish.respond).
  - exact (proj1 (proj2 (proj2 (@run_nodes_find_their_message
             AsciiText.unicode SampleJson.json_loads _ _ responder
             SampleFinish.decided sample_run_decided) eq_refl))
             eq_refl SampleFinish.respond).
Defined.

(** X23.  [final_message] is unset until the responder has run and set
    from then on; the trace of a finished run passes
    [validate_trace_schema] unless the final message is blank, and then
    the one error is that the final message is empty. *)
Theorem finished_run_passes_schema {U : Unicode}
    json_loads batches outputs n s :
  reaches json_loads batches outputs n s ->
  (n <> END -> final_message s = None)
  /\ (n = END ->
      exists response,
        final_message s = Some response
        /\ Eval.validate_trace_schema (Eval.trace_of s)
           = Ok (if (len (strip response) =? 0)%nat
                 then (false, [Eval.FinalMessageEmpty])
                 else (true, []))).
Proof.
  intros Hr. destruct (reaches_final_message json_loads _ _ _ _ Hr) as [H1 H2].
  split; [exact H1|]. intros Hn. destruct (H2 Hn) as (response & Hf).
  exists response. split; [exact Hf|].
  destruct (proj2 (reaches_intent json_loads _ _ _ _ Hr)
              ltac:(rewrite Hn; discriminate)) as (i & Hi & Hin & _).
  assert (Hdec : policy_decision s = None
                 \/ exists d, policy_decision s = Some (JObj d)).
  { destruct (policy_decision s) as [d|] eqn:Hd; [|auto]. right.
    destruct (proj2 (reaches_decision json_loads _ _ _ _ Hr) d Hd)
      as (_ & [-> | (r & ->)] & _); eexists; reflexivity. }
  assert (Hvalid : existsb (String.eqb i) Eval.valid_intents = true).
  { apply existsb_eqb_In. exact Hin. }
  unfold Eval.validate_trace_schema, Eval.trace_of, Eval.trace_get.
  cbn [forallb Eval.required_trace_keys has get String.eqb Ascii.eqb
       Bool.eqb andb].
  rewrite Hi, Hf. cbn [Eval.json_of_text Eval.in_valid_intents].
  rewrite Hvalid.
  destruct Hdec as [-> | (d & ->)];
    destruct (tools_called s), (evidence s);
    cbn [Eval.json_of_texts Eval.json_of_contents app];
    destruct (len (strip response) =? 0)%nat; reflexivity.
Qed.

Lemma finished_run_passes_schema_witness :
  exists response,
    final_message SampleFinish.finished = Some response
    /\ @Eval.validate_trace_schema AsciiText.unicode
         (Eval.trace_of SampleFinish.finished)
       = Ok (if (len (@strip AsciiText.unicode response) =? 0)%nat
             then (false, [Eval.FinalMessageEmpty])
             else (true, [])).
Proof.
  exact (proj2 (@finished_run_passes_schema AsciiText.unicode
                  SampleJson.json_loads _ _ END
                  SampleFinish.finished sample_run_finished) eq_refl).
Defined.

(** ** More on the policy guard *)

(** A tool result is a blocked cancellation or fails one of the two [in]
    tests of the guard. *)
Lemma structured_result_verdict {U : Unicode} fromisoformat isoformat v :
  structured_result fromisoformat isoformat v ->
  blocked_result v
  \/ match py_in "success" v with
     | Ok true => match py_in "reason" v with Ok true => False | _ => True end
     | _ => True
     end.
Proof.
  intros [query pm tg w r H | oid em w v' Hfile H | oid sn w v' H].
  - right. cbn. now rewrite products_hold_no_word.
  - right. apply order_lookup_results in H as [(msg & ->) | Hentry];
      [exact I | | exact Hfile].
    destruct v' as [| | | | | |d]; try discriminate Hentry.
    cbn in *. now destruct (has "success" d).
  - apply order_cancel_results in H
      as [(msg & ->) | [(now & us & _ & _ & ->) | (now & us & _ & _ & ->)]].
    + right. exact I.
    + right. exact I.
    + left. eexists. reflexivity.
Qed.

Lemma find_cancel_output_tool_results {U : Unicode}
    json_loads fromisoformat isoformat evidence0 :
  (forall item,
      In (Text item) evidence0 ->
      match json_loads item with
      | Ok v => structured_result fromisoformat isoformat v
      | Raise e => e = JSONDecodeError
      end) ->
  (find_cancel_output json_loads evidence0 = Ok None
   /\ forall item v,
        In (Text item) evidence0 -> json_loads item = Ok v ->
        ~ blocked_result v)
  \/ (exists item minutes,
         In (Text item) evidence0
         /\ json_loads item = Ok (cancel_blocked minutes)
         /\ find_cancel_output json_loads evidence0
            = Ok (Some (cancel_blocked minutes))).
Proof.
  induction evidence0 as [|[item|l] rest IH]; intros Hall.
  { left. split; [reflexivity | intros item v []]. }
  2:{ specialize (IH (fun i Hi => Hall i (or_intror Hi))).
      cbn [find_cancel_output].
      destruct IH as [(Hnone & Hno) | (i & m & Hi & Hl & Hf)].
      - left. split; [exact Hnone|].
        intros i v [[=] | Hi] Hl. eauto.
      - right. exists i, m. split; [now right|]. split; [exact Hl | exact Hf]. }
  pose proof (Hall item (or_introl eq_refl)) as Hhere.
  specialize (IH (fun i Hi => Hall i (or_intror Hi))).
  cbn [find_cancel_output].
  destruct (json_loads item) as [data|e] eqn:Hitem.
  2:{ subst e. destruct IH as [(Hnone & Hno) | (i & m & Hi & Hl & Hf)].
      - left. split; [exact Hnone|].
        intros i v [[= <-] | Hi] Hl; [congruence | eauto].
      - right. exists i, m. split; [now right|]. split; [exact Hl | exact Hf]. }
  destruct (structured_result_verdict _ _ _ Hhere) as [(m & ->) | Hskip].
  { right. exists item, m. split; [now left|]. split; [exact Hitem|].
    reflexivity. }
  assert (Hrest : match py_in "success" data with
                  | Ok true =>
                      match py_in "reason" data with
                      | Ok true => Ok (Some data)
                      | _ => find_cancel_output json_loads rest
                      end
                  | _ => find_cancel_output json_loads rest
                  end = find_cancel_output json_loads rest).
  { destruct (py_in "success" data) as [[|]|]; try reflexivity.
    destruct (py_in "reason" data) as [[|]|]; [contradiction| |]; reflexivity. }
  rewrite Hrest.
  destruct IH as [(Hnone & Hno) | (i & m & Hi & Hl & Hf)].
  - left. split; [exact Hnone|].
    intros i v [[= <-] | Hi] Hl; [|eauto].
    rewrite Hitem in Hl. injection Hl as <-. intros (m & ->).
    cbn in Hskip. exact Hskip.
  - right. exists i, m. split; [now right|]. split; [exact Hl | exact Hf].
Qed.

(** X24.  On evidence whose parsed entries are results of the
    repository's tools, the guard never answers [cancel_allowed: True]:
    its decision is null or the block with the fixed reason of
    [order_cancel], and for order_help it is the block exactly when a
    blocked cancellation is among the entries. *)
Theorem guard_on_tool_results {U : Unicode}
    json_loads fromisoformat isoformat state evidence0 :
  evidence state = Some evidence0 ->
  (forall item,
      In (Text item) evidence0 ->
      match json_loads item with
      | Ok v => structured_result fromisoformat isoformat v
      | Raise e => e = JSONDecodeError
      end) ->
  let block :=
    Ok (Some (blocked_decision
                (JStr "Cancellation failed: Order was placed more than 60 minutes ago."))) in
  (policy_decision_of json_loads state = Ok None
   \/ policy_decision_of json_loads state = block)
  /\ (intent state = Some "order_help" ->
      (policy_decision_of json_loads state = block <->
       exists item v,
         In (Text item) evidence0 /\ json_loads item = Ok v
         /\ blocked_result v)).
Proof.
  intros Hev Hall block.
  assert (Hcore : intent state = Some "order_help" ->
            (policy_decision_of json_loads state = Ok None
             /\ forall item v,
                  In (Text item) evidence0 -> json_loads item = Ok v ->
                  ~ blocked_result v)
            \/ (policy_decision_of json_loads state = block
                /\ exists item v,
                     In (Text item) evidence0 /\ json_loads item = Ok v
                     /\ blocked_result v)).
  { intros Hi. unfold policy_decision_of. rewrite Hi, Hev.
    destruct (find_cancel_output_tool_results json_loads fromisoformat
                isoformat evidence0 Hall)
      as [(Hnone & Hno) | (item & m & Hin & Hl & Hf)].
    - left. rewrite Hnone. split; [now destruct evidence0 | exact Hno].
    - right. rewrite Hf. split.
      + destruct evidence0; [contradiction | reflexivity].
      + exists item, (cancel_blocked m). repeat split; auto. now exists m. }
  split.
  - destruct (intent state) as [i|] eqn:Hi.
    + destruct (String.eqb_spec i "order_help") as [-> | Hne].
      * destruct (Hcore eq_refl) as [(H & _) | (H & _)]; auto.
      * left. apply policy_decision_of_other. rewrite Hi. congruence.
    + left. apply policy_decision_of_other. rewrite Hi. discriminate.
  - intros Hi. destruct (Hcore Hi) as [(H & Hno) | (H & Hex)].
    + rewrite H. split; [discriminate|].
      intros (item & v & Hin & Hl & Hb). destruct (Hno item v Hin Hl Hb).
    + split; auto.
Qed.

Lemma guard_on_tool_results_witness :
  policy_decision_of SampleJson.json_loads
    (SampleRun.order_help_state
       [SampleJson.success_doc; SampleJson.blocked_doc])
  = Ok (Some (blocked_decision
                (JStr "Cancellation failed: Order was placed more than 60 minutes ago."))).
Proof.
  refine (proj2 (proj2 (@guard_on_tool_results AsciiText.unicode
                          SampleJson.json_loads Iso8601.fromisoformat
                          (fun _ => "2025-09-07T12:30:00+00:00")
                          (SampleRun.order_help_state
                             [SampleJson.success_doc; SampleJson.blocked_doc])
                          [Text SampleJson.success_doc;
                           Text SampleJson.blocked_doc]
                          eq_refl _) eq_refl) _).
  - intros item [[= <-] | [[= <-] | []]].
    + change (SampleJson.json_loads SampleJson.success_doc)
        with (Ok (cancel_success "A1003" "2025-09-07T12:30:00+00:00" (35 # 1))).
      apply (@result_of_cancel AsciiText.unicode Iso8601.fromisoformat
               (fun _ => "2025-09-07T12:30:00+00:00")
               "A1003" (Some "2025-09-07T12:30:00Z") Iso8601.world).
      vm_compute. reflexivity.
    + change (SampleJson.json_loads SampleJson.blocked_doc)
        with (Ok (cancel_blocked (1405 # 1))).
      apply (@result_of_cancel AsciiText.unicode Iso8601.fromisoformat
               (fun _ => "2025-09-07T12:30:00+00:00")
               "A1002" (Some "2025-09-07T12:30:00Z") Iso8601.world).
      vm_compute. reflexivity.
  - exists SampleJson.blocked_doc, (cancel_blocked (1405 # 1)).
    split; [right; left; reflexivity|]. split; [vm_compute; reflexivity|].
    eexists. reflexivity.
Defined.

(** ** More on the older copy *)

(** X25.  The older [product_search] answers with at most two products
    of the catalogue, cheapest first; each costs at most [price_max], has
    the query in its title whatever the letter case, and carries every
    requested tag.  A failure to read the catalogue is not handled. *)
Theorem legacy_product_search_sound {U : Unicode}
    query price_max tags0 w products :
  products_json w = Ok products ->
  exists r,
    fst (Legacy.product_search query price_max tags0 w) = Ok r
    /\ (List.length r <= 2)%nat
    /\ Sorted (fun p q => (price p <= price q)%Z) r
    /\ Forall (fun p =>
                 In p products
                 /\ (price p <= price_max)%Z
                 /\ contains (lower query) (lower (title p)) = true
                 /\ forall wanted tag,
                      tags0 = Some wanted -> In tag wanted ->
                      In tag (tags p)) r.
Proof.
  intros Hcat. unfold Legacy.product_search, IO.bind, IO.load_products.
  rewrite Hcat. eexists. split; [reflexivity|].
  split; [apply firstn_le_length|]. split.
  - match goal with
    | |- Sorted _ (firstn 2 (sorted ?key ?l)) =>
        pose proof (firstn_Sorted key 2 _ (sorted_Sorted key l)) as H;
        revert H; generalize (firstn 2 (sorted key l))
    end.
    intros r H. induction H as [|p l Hs IH Hh]; constructor; [exact IH|].
    destruct Hh as [|q l Hpq]; constructor.
    unfold stands_before in Hpq. cbn in Hpq.
    rewrite andb_false_r, orb_false_r in Hpq.
    now apply Z.ltb_ge in Hpq.
  - apply firstn_Forall, sorted_Forall, Forall_forall. intros p Hp.
    apply filter_In in Hp as [Hin Hp].
    apply andb_prop in Hp as [Hp Htags]. apply andb_prop in Hp as [Hprice Hq].
    split; [exact Hin|]. split; [now apply negb_true_iff, Z.ltb_ge in Hprice|].
    split; [exact Hq|].
    intros wanted tag -> Htag. destruct wanted as [|t0 wanted0]; [contradiction|].
    assert (Hall := proj1 (forallb_forall _ _) Htags tag Htag).
    unfold mem_str in Hall. apply existsb_exists in Hall as (x & Hx & E).
    apply String.eqb_eq in E. now subst.
Qed.

Lemma legacy_product_search_sound_witness :
  let a := {| title := "Midi Wrap Dress"; price := 95;
              tags := ["wedding"; "midi"] |} in
  let b := {| title := "Satin Midi Dress"; price := 119;
              tags := ["wedding"; "midi"] |} in
  let c := {| title := "Linen Shirt"; price := 40; tags := ["casual"] |} in
  let w := {| orders_json := Ok (JArr []); products_json := Ok [b; c; a];
              clock_us := 0 |} in
  exists r,
    fst (@Legacy.product_search AsciiText.unicode "DRESS" 120
           (Some ["midi"]) w) = Ok r
    /\ (List.length r <= 2)%nat
    /\ Sorted (fun p q => (price p <= price q)%Z) r
    /\ Forall (fun p =>
                 In p [b; c; a]
                 /\ (price p <= 120)%Z
                 /\ contains (@lower AsciiText.unicode "DRESS")
                              (@lower AsciiText.unicode (title p)) = true
                 /\ forall wanted tag,
                      Some ["midi"] = Some wanted -> In tag wanted ->
                      In tag (tags p)) r.
Proof.
  intros a b c w.
  exact (@legacy_product_search_sound AsciiText.unicode
           "DRESS" 120 (Some ["midi"]) w [b; c; a] eq_refl).
Defined.

(** X26.  The older [order_cancel] checks no format and handles no
    error.  An id that no record carries, whatever its shape, gives the
    not-found dict, which has no [success] key.  Everything else that goes
    wrong is raised: the failure to read the order file, as it is; a file
    that holds nothing to iterate over, [TypeError]; a record without
    [order_id], [KeyError], and a record that is no dict, [TypeError]; a
    found record without [created_at], [KeyError]; a [created_at] that is
    no str, [AttributeError]; a stored or a supplied timestamp that does
    not parse, [ValueError]; and the subtraction of datetimes of two
    kinds, [TypeError]. *)
Theorem legacy_order_cancel_unhandled
    fromisoformat order_id0 simulated_now w :
  let r := fst (Legacy.order_cancel fromisoformat order_id0 simulated_now w) in
  (forall e, orders_json w = Raise e -> r = Raise e)
  /\ (forall store,
        orders_json w = Ok store -> py_iter store = Raise TypeError ->
        r = Raise TypeError)
  /\ (forall store elements,
        orders_json w = Ok store -> py_iter store = Ok elements ->
        (cancel_scan order_id0 elements = Ok None ->
         r = Ok (error_dict ("Order " ++ order_id0 ++ " not found.")))
        /\ (forall e, cancel_scan order_id0 elements = Raise e -> r = Raise e))
  /\ (forall o,
        stored_order order_id0 w = Some o ->
        (subscript o "created_at" = Raise KeyError -> r = Raise KeyError)
        /\ (forall v, subscript o "created_at" = Ok v ->
                      (forall s, v <> JStr s) -> r = Raise AttributeError)
        /\ (forall s msg,
              subscript o "created_at" = Ok (JStr s) ->
              parse_timestamp fromisoformat s = IsoValueError msg ->
              r = Raise ValueError)
        /\ (forall created c text msg,
              created_of fromisoformat o = Some created ->
              simulated_now = Some (String c text) ->
              parse_timestamp fromisoformat (String c text) = IsoValueError msg ->
              r = Raise ValueError))
  /\ (forall e,
        r = Raise e ->
        orders_json w = Raise e
        \/ (exists store, orders_json w = Ok store
                          /\ (e = TypeError \/ e = KeyError
                              \/ e = AttributeError \/ e = ValueError))).
Proof.
  intros r. subst r.
  unfold Legacy.order_cancel, IO.bind, IO.load_orders, IO.lift.
  split; [|split; [|split; [|split]]].
  - intros e ->. reflexivity.
  - intros store -> ->. reflexivity.
  - intros store elements -> ->. split.
    + intros ->. reflexivity.
    + intros e ->. reflexivity.
  - intros o Hfind.
    destruct (CancelFacts.stored_order_found _ _ _ Hfind)
      as (store & elements & -> & -> & -> & ->).
    cbn [negb]. repeat split.
    + intros ->. reflexivity.
    + intros v -> Hv. destruct v; try reflexivity. now destruct (Hv s).
    + intros s msg -> ->. reflexivity.
    + intros created c text msg Hcreated -> Hnow.
      destruct (CancelFacts.created_of_found _ _ _ Hcreated) as (s & -> & ->).
      now rewrite Hnow.
  - intros e. destruct (orders_json w) as [store|e0]; [|intros [= <-]; auto].
    intros H. right. exists store. split; [reflexivity|].
    destruct (py_iter store) as [elements|e0] eqn:Hiter.
    2:{ injection H as <-. left. exact (py_iter_raises _ _ Hiter). }
    destruct (cancel_scan order_id0 elements) as [[o|]|e0] eqn:Hscan;
      [|discriminate H|].
    2:{ injection H as <-.
        destruct (cancel_scan_raises _ _ _ Hscan) as [-> | ->]; auto. }
    destruct (negb (truthy o)); [discriminate H|].
    destruct (subscript o "created_at") as [v|e0] eqn:Hsub.
    2:{ injection H as <-.
        destruct (subscript_raises _ _ _ Hsub) as [-> | ->]; auto. }
    destruct v as [| | | |s| |]; try (injection H as <-; auto).
    destruct (parse_timestamp fromisoformat s) as [created|msg];
      [|injection H as <-; auto].
    assert (Hsubt : forall now,
              fst (match datetime_sub now created with
                   | Ok us =>
                       if Float64.le_int (minutes_of_us us) 60
                       then IO.ret
                              (JObj [("success", JBool true);
                                     ("message",
                                      JStr ("Order " ++ order_id0
                                            ++ " has been successfully canceled."))])
                       else IO.ret
                              (JObj [("success", JBool false);
                                     ("reason",
                                      JStr "Cancellation failed: Order was placed more than 60 minutes ago.");
                                     ("minutes_since_order",
                                      JInt (Float64.trunc (minutes_of_us us)))])
                   | Raise e1 => IO.raise e1
                   end w) = Raise e -> e = TypeError).
    { intros now. destruct (datetime_sub now created) as [us|e1] eqn:Hs.
      - destruct (Float64.le_int _ _); discriminate.
      - intros [= <-]. exact (datetime_sub_raises _ _ _ Hs). }
    destruct simulated_now as [[|c text]|].
    + left. exact (Hsubt _ H).
    + destruct (parse_timestamp fromisoformat (String c text)) as [now|msg].
      * left. exact (Hsubt _ H).
      * injection H as <-. auto.
    + left. exact (Hsubt _ H).
Qed.

Example legacy_order_cancel_raises_on_bad_time :
  fst (Legacy.order_cancel Iso8601.fromisoformat "A1003" (Some "noon")
         Iso8601.world) = Raise ValueError
  /\ fst (Legacy.order_cancel Iso8601.fromisoformat "A1003\n" None
            Iso8601.world)
     = Ok (error_dict "Order A1003\n not found.")
  /\ fst (Legacy.order_cancel Iso8601.fromisoformat "A1003" None
            {| orders_json := Ok (JArr [JObj [("order_id", JStr "A1003")]]);
               products_json := Ok []; clock_us := 0 |})
     = Raise KeyError.
Proof. repeat split; reflexivity. Qed.

(** ** The evaluation of the allowed cancellation *)

Section EvalFacts.
Context {U : Unicode}.
Variable json_loads : string -> result json.

(** A decision a run holds is the one the guard computed on the evidence
    the run ends with. *)
Lemma reaches_guard_decision batches outputs n s d :
  reaches json_loads batches outputs n s ->
  policy_decision s = Some d ->
  exists s0,
    evidence s0 = evidence s
    /\ policy_decision_of json_loads s0 = Ok (Some d).
Proof.
  intros Hr. revert d.
  induction Hr as [msgs
                 | batches outputs s invoke_llm u n Hr IH Hnode Hedge
                 | batches outputs s chain_invoke label n Hr IH Hlabel Hedge
                 | batches outputs s run_tool m calls u n Hr IH Hm Hc Hnode Hedge
                 | batches outputs s u Hr IH Hnode
                 | batches outputs s chain_invoke u Hr IH Hnode];
    intros d Hd.
  - discriminate Hd.
  - apply router_node_update in Hnode as (m & q & dest & _ & _ & _ & ->).
    cbn in Hd.
    rewrite (proj1 (reaches_decision json_loads _ _ _ _ Hr)
               ltac:(discriminate) ltac:(discriminate)) in Hd.
    discriminate Hd.
  - cbn in Hd.
    rewrite (proj1 (reaches_decision json_loads _ _ _ _ Hr)
               ltac:(discriminate) ltac:(discriminate)) in Hd.
    discriminate Hd.
  - rewrite (tool_executor_node_messages _ _ _ _ _ Hm Hc Hnode) in Hd.
    cbn in Hd.
    rewrite (proj1 (reaches_decision json_loads _ _ _ _ Hr)
               ltac:(discriminate) ltac:(discriminate)) in Hd.
    discriminate Hd.
  - apply policy_guard_node_update in Hnode as (dec & Hdec & ->).
    cbn in Hd. subst dec. exists s. split; [|exact Hdec].
    cbn. now destruct (evidence s).
  - apply responder_node_update in Hnode as (m & response & _ & ->).
    cbn in Hd. destruct (IH d Hd) as (s0 & He & Hp).
    exists s0. split; [|exact Hp]. cbn. rewrite He. now destruct (evidence s).
Qed.
End EvalFacts.

(** X29.  The evaluation case order_help_allowed cannot pass on a run of
    the graph whose evidence is made of results of the repository's
    tools: [evaluate_order_help] with [expected_allowed=True] fails or
    reports the null policy decision or the decision [cancel_allowed:
    False], since the guard never allows on such evidence. *)
Theorem allowed_evaluation_never_passes {U : Unicode}
    json_loads fromisoformat isoformat batches outputs n s :
  reaches json_loads batches outputs n s ->
  (forall item,
      In (Text item) (or_empty (evidence s)) ->
      match json_loads item with
      | Ok v => structured_result fromisoformat isoformat v
      | Raise e => e = JSONDecodeError
      end) ->
  match Eval.evaluate_order_help (Eval.trace_of s) true with
  | Raise _ => True
  | Ok r =>
      Eval.passed r = false
      /\ (In Eval.PolicyDecisionNull (Eval.errors r)
          \/ In (Eval.CancelAllowedMismatch true (JBool false))
                (Eval.errors r))
  end.
Proof.
  intros Hr Hall.
  assert (Hdec : policy_decision s = None
                 \/ exists reason,
                      policy_decision s = Some (blocked_decision reason)).
  { destruct (policy_decision s) as [d|] eqn:Hd; [|auto]. right.
    destruct (reaches_guard_decision json_loads _ _ _ _ d Hr Hd)
      as (s0 & He & Hp).
    destruct (policy_decision_of_shape _ _ _ Hp) as (Hi & _).
    unfold policy_decision_of in Hp. rewrite Hi in Hp.
    destruct (evidence s0) as [ev|] eqn:Hev; [|discriminate Hp].
    rewrite <- He in Hall. cbn [or_empty] in Hall.
    destruct (find_cancel_output_tool_results json_loads fromisoformat
                isoformat ev Hall)
      as [(Hnone & _) | (item & m & _ & _ & Hf)].
    - rewrite Hnone in Hp. destruct ev; discriminate Hp.
    - rewrite Hf in Hp. destruct ev; [discriminate Hp|].
      cbn in Hp. injection Hp as <-. eauto. }
  assert (Hlen : forall (l : list Eval.eval_error) e,
            (List.length (l ++ [e]) =? 0)%nat = false).
  { intros l e. rewrite length_app. cbn. apply Nat.eqb_neq. lia. }
  assert (Hget : forall reason,
            dict_get (blocked_decision reason) "cancel_allowed"
            = Ok (JBool false)) by reflexivity.
  unfold Eval.evaluate_order_help.
  destruct (Eval.validate_trace_schema (Eval.trace_of s)) as [[ok errs]|];
    [|exact I].
  cbv zeta.
  change (Eval.trace_get_or (Eval.trace_of s) "tools_called" (JArr []))
    with (Eval.json_of_texts (tools_called s)).
  change (Eval.trace_get (Eval.trace_of s) "policy_decision")
    with (match policy_decision s with Some d => d | None => JNull end).
  destruct (py_in "order_lookup" (Eval.json_of_texts (tools_called s)))
    as [has_lookup|]; [|exact I].
  destruct (py_in "order_cancel" (Eval.json_of_texts (tools_called s)))
    as [has_cancel|]; [|exact I].
  change (negb true) with false. cbv iota.
  match goal with
  | |- context [if negb has_cancel then Eval.deduct ?e ?p ?st0 else _] =>
      generalize (if negb has_cancel then Eval.deduct e p st0 else st0)
  end.
  intros st.
  destruct Hdec as [-> | (reason & ->)].
  - cbv iota.
    destruct (Eval.py_len (Eval.json_of_texts (tools_called s)));
      [|exact I].
    cbn [Eval.passed Eval.errors]. unfold Eval.deduct. cbn [fst].
    split; [apply Hlen|]. left. apply in_or_app. right. now left.
  - rewrite Hget. unfold blocked_decision at 1. cbv iota.
    change (Eval.eq_bool (JBool false) true) with false.
    change (negb false) with true. cbv iota.
    destruct (Eval.py_len (Eval.json_of_texts (tools_called s)));
      [|exact I].
    cbn [Eval.passed Eval.errors]. unfold Eval.deduct. cbn [fst].
    split; [apply Hlen|]. right. apply in_or_app. right. now left.
Qed.

Lemma sample_allowed_finished {U : Unicode} :
  reaches SampleJson.json_loads [[SampleAllowed.cancel_call]]
    [[Text SampleJson.success_doc]] END SampleAllowed.finished.
Proof.
  apply (reach_responder SampleJson.json_loads _ _ SampleAllowed.decided
           (fun _ _ _ => "Order A1003 has been cancelled.")).
  2:{ reflexivity. }
  apply (reach_policy_guard SampleJson.json_loads _ _ SampleAllowed.cancelled).
  2:{ reflexivity. }
  apply (reach_tool_executor SampleJson.json_loads [] [] SampleAllowed.asked
           SampleAllowed.run_tool (AIMessage "" [SampleAllowed.cancel_call])
           [SampleAllowed.cancel_call] _ policy_guard); try reflexivity.
  apply (reach_agent SampleJson.json_loads [] [] SampleAllowed.routed
           SampleAllowed.chain_invoke "execute_tools" tool_executor);
    [|reflexivity|reflexivity].
  apply (reach_router SampleJson.json_loads [] [] SampleAllowed.start
           (fun _ => "") _ agent (reach_entry _ _)); [|reflexivity].
  unfold Router.router_node, Router.classify.
  cbn [SampleAllowed.start initial_state last_message messages rev app
       content_of].
  now rewrite deterministic_keyword_routing_ascii.
Qed.

Lemma allowed_evaluation_never_passes_witness :
  match
    @Eval.evaluate_order_help AsciiText.unicode
      (Eval.trace_of SampleAllowed.finished) true
  with
  | Raise _ => True
  | Ok r =>
      Eval.passed r = false
      /\ (In Eval.PolicyDecisionNull (Eval.errors r)
          \/ In (Eval.CancelAllowedMismatch true (JBool false))
                (Eval.errors r))
  end.
Proof.
  apply (@allowed_evaluation_never_passes AsciiText.unicode
           SampleJson.json_loads
           Iso8601.fromisoformat (fun _ => "2025-09-07T12:30:00+00:00")
           [[SampleAllowed.cancel_call]] _ END SampleAllowed.finished
           sample_allowed_finished).
  intros item [[= <-] | []].
  change (SampleJson.json_loads SampleJson.success_doc)
    with (Ok (cancel_success "A1003" "2025-09-07T12:30:00+00:00" (35 # 1))).
  apply (@result_of_cancel AsciiText.unicode Iso8601.fromisoformat
           (fun _ => "2025-09-07T12:30:00+00:00")
           "A1003" (Some "2025-09-07T12:30:00Z") Iso8601.world).
  vm_compute. reflexivity.
Defined.

(** On that run the evaluation does return, with one error: the null
    decision. *)
Example allowed_evaluation_of_sample_run :
  exists r,
    @Eval.evaluate_order_help AsciiText.unicode
      (Eval.trace_of SampleAllowed.finished) true
    = Ok r
    /\ Eval.errors r = [Eval.ToolNotCalled "order_lookup";
                        Eval.PolicyDecisionNull].
Proof. eexists. split; [vm_compute; reflexivity | reflexivity]. Qed.
